(** * AudioDeviceBuffer: a shallow embedding of
    webrtc/modules/audio_device/audio_device_buffer.cc

    The class is embedded as a record of its members, its member functions
    as computations in a state-and-failure monad over a [World]: the object,
    the millisecond clock read by [rtc::TimeMillis], the build flavour (are
    [RTC_DCHECK]s compiled in) and the trace of calls made to external
    collaborators (logging, the histogram sink, the signal-processing
    library, the audio transport).

    Thread identity is not part of the model: the [RTC_DCHECK_RUN_ON] checks
    and the [DetachFromThread] calls of the source have no counterpart, and
    every operation below is one atomic step of a sequential interleaving. *)

From Stdlib Require Import Strings.String Strings.Byte.
From Stdlib Require Import ZArith List Bool Lia.
Import ListNotations.
Local Open Scope Z_scope.

(** ** Fixed-width integers

    Members and locals are [Z]; every assignment to a C++ integer of width
    [w] goes through [wrap] (unsigned) or [swrap] (two's complement). *)

Definition wrap (w x : Z) : Z := x mod 2 ^ w.

Definition swrap (w x : Z) : Z := (x + 2 ^ (w - 1)) mod 2 ^ w - 2 ^ (w - 1).

(** [size_t] is taken as 64 bits wide (an x64 build). *)
Definition size_bits : Z := 64.

Definition to_size_t (x : Z) : Z := wrap size_bits x.
Definition to_uint32 (x : Z) : Z := wrap 32 x.
Definition to_uint64 (x : Z) : Z := wrap 64 x.
Definition to_int16 (x : Z) : Z := swrap 16 x.
Definition to_int32 (x : Z) : Z := swrap 32 x.
Definition to_int64 (x : Z) : Z := swrap 64 x.

Definition sizeof_int16_t : Z := 2.

(** ** Constants of the translation unit *)

(** Modelled from the spec: [rtc::kNumMillisecsPerSec], the number of
    milliseconds in a second (the reporting interval and the call-length
    threshold are 10 s). *)
Definition kNumMillisecsPerSec : Z := 1000.

Definition kTimerIntervalInSeconds : Z := 10.
Definition kTimerIntervalInMilliseconds : Z :=
  to_size_t (kTimerIntervalInSeconds * kNumMillisecsPerSec).

Definition kMinValidCallTimeTimeInSeconds : Z := 10.
Definition kMinValidCallTimeTimeInMilliseconds : Z :=
  to_size_t (kMinValidCallTimeTimeInSeconds * kNumMillisecsPerSec).

(** ** Byte buffers *)

(** Modelled from the spec: [rtc::Buffer] (webrtc/base/buffer.h is not part
    of the sources at hand), "a resizable raw byte container per direction":
    a list of bytes whose length is [size()]. *)
Definition Buffer : Type := list byte.

Definition Buffer_size (b : Buffer) : Z := Z.of_nat (length b).

(** Modelled from the spec: [rtc::Buffer::SetData(data, size)] replaces the
    content by the first [size] bytes found at [data].  The caller's memory
    is a list of bytes; reading past its end is a fault ([None]). *)
Definition Buffer_SetData (data : list byte) (size : Z) : option Buffer :=
  if Buffer_size data <? size then None
  else Some (firstn (Z.to_nat size) data).

(** Modelled from the spec: [rtc::Buffer::SetSize(size)] "grows/shrinks in
    place": the common prefix is kept.  The bytes added by growing are
    unspecified in C++; they are zero here. *)
Definition Buffer_SetSize (b : Buffer) (size : Z) : Buffer :=
  firstn (Z.to_nat size) b ++ repeat x00 (Z.to_nat size - length b).

(** Modelled from the spec: the transport's "need more data" contract
    "fills the buffer".  What a callee that was handed [data()] leaves in
    the buffer after writing [written] from its start: it cannot change the
    size, and only the bytes that fit are kept. *)
Definition Buffer_write (b : Buffer) (written : list byte) : Buffer :=
  firstn (length b) (written ++ skipn (length written) b).

(** [reinterpret_cast<const int16_t*>]: little-endian 16-bit samples. *)
Definition int16_of_bytes (lo hi : byte) : Z :=
  to_int16 (Z.of_N (Byte.to_N lo) + 256 * Z.of_N (Byte.to_N hi)).

Fixpoint samples_of (b : list byte) : list Z :=
  match b with
  | lo :: hi :: r => int16_of_bytes lo hi :: samples_of r
  | _ => []
  end.

(** The [length] samples a callee reads from [data()]; reading past the end
    of the buffer is a fault ([None]). *)
Definition read_int16 (b : Buffer) (length : Z) : option (list Z) :=
  if Buffer_size b <? length * sizeof_int16_t then None
  else Some (firstn (Z.to_nat length) (samples_of b)).

(** Modelled from the spec: [WebRtcSpl_MaxAbsValueW16] (the signal
    processing library is not part of the sources at hand), the "largest
    absolute value among signed 16-bit samples in a buffer".  The result is
    an [int16_t]: the magnitude 32768 of the sample -32768 is reported as
    32767. *)
Definition WebRtcSpl_MaxAbsValueW16 (vector : list Z) : Z :=
  Z.min 32767 (fold_right (fun x m => Z.max (Z.abs x) m) 0 vector).

(** ** External collaborators *)

(** Modelled from the spec: [AudioDeviceModule::ChannelType] (declared in
    audio_device.h, not part of the sources at hand): the "both channels"
    sentinel and the two single channels. *)
Inductive ChannelType : Type :=
| kChannelLeft
| kChannelRight
| kChannelBoth.

Definition ChannelType_eqb (a b : ChannelType) : bool :=
  match a, b with
  | kChannelLeft, kChannelLeft => true
  | kChannelRight, kChannelRight => true
  | kChannelBoth, kChannelBoth => true
  | _, _ => false
  end.

(** Modelled from the spec: the transport capability
    [deliverRecorded(buffer, frameCount, bytesPerSample, channels,
    sampleRateHz, totalDelayMs, clockDriftPpm, micLevel, typingDetected)]
    (the [AudioTransport] interface is not part of the sources at hand);
    the fields are the arguments [DeliverRecordedData] passes to
    [RecordedDataIsAvailable], in its order. *)
Record RecordedArgs : Type := mkRecordedArgs {
  ra_audioSamples : Buffer;
  ra_nSamples : Z;
  ra_nBytesPerSample : Z;
  ra_nChannels : Z;
  ra_samplesPerSec : Z;
  ra_totalDelayMS : Z;
  ra_clockDrift : Z;
  ra_currentMicLevel : Z;
  ra_keyPressed : bool
}.

(** Modelled from the spec: the transport capability
    [requestPlayout(requestedFrames, bytesPerSample, channels, sampleRateHz,
    outBuffer)]; the fields are the arguments [RequestPlayoutData] passes to
    [NeedMorePlayData], [pa_audioSamples] being the content of the
    destination when the call is made. *)
Record PlayArgs : Type := mkPlayArgs {
  pa_nSamples : Z;
  pa_nBytesPerSample : Z;
  pa_nChannels : Z;
  pa_samplesPerSec : Z;
  pa_audioSamples : Buffer
}.

(** Modelled from the spec: what the transport hands back,
    "(framesProduced, elapsedMs?, ntpMs?, resultCode)", and the bytes it
    wrote from the start of the destination. *)
Record PlayResult : Type := mkPlayResult {
  pr_written : list byte;
  pr_nSamplesOut : Z;
  pr_elapsed_time_ms : Z;
  pr_ntp_time_ms : Z;
  pr_res : Z
}.

(** The audio transport is an opaque callback contract: any pair of
    functions.  [RecordedDataIsAvailable] returns the result code and the
    new microphone level. *)
Record AudioTransport : Type := mkAudioTransport {
  RecordedDataIsAvailable : RecordedArgs -> Z * Z;
  NeedMorePlayData : PlayArgs -> PlayResult
}.

(** The lines written with [LOG]. The [rate] printed by [LogStats] is a
    [float] and is left out of [LogRecStats] and [LogPlayStats]. *)
Inductive LogLine : Type :=
| LogCtor
| LogFunction (name : string)
| LogMediaActive
| LogTotalPlayoutTime (ms : Z)
| LogTotalRecordingTime (ms : Z)
| LogHistogramRecordedOnlyZeros (only_zeros : Z)
| LogSetRecordingSampleRate (fsHz : Z)
| LogSetPlayoutSampleRate (fsHz : Z)
| LogSetRecordingChannels (channels : Z)
| LogSetPlayoutChannels (channels : Z)
| LogSetRecordingChannel (channel : ChannelType)
| LogNotImplemented
| LogRecBufferSize (bytes : Z)
| LogPlayBufferSize (bytes : Z)
| LogInvalidTransport
| LogRecordedDataFailed
| LogNeedMorePlayDataFailed
| LogRecStats (time_since_last khz callbacks samples level : Z)
| LogPlayStats (time_since_last khz callbacks samples level : Z).

(** Calls that leave the class, most recent first in a trace. *)
Inductive Event : Type :=
| EvLog (line : LogLine)
| EvHistogramBoolean (name : string) (sample : Z)
| EvMaxAbsValueW16 (length result : Z)
| EvRecordedDataIsAvailable (args : RecordedArgs)
| EvNeedMorePlayData (args : PlayArgs).

(** ** The task queue *)

Inductive LogState : Type :=
| LOG_START
| LOG_STOP
| LOG_ACTIVE.

(** The closures posted to [task_queue_], with their captured values. *)
Inductive Task : Type :=
| TaskResetPlayStats
| TaskResetRecStats
| TaskUpdateRecStats (max_abs num_samples : Z)
| TaskUpdatePlayStats (max_abs num_samples : Z)
| TaskLogStats (state : LogState).

(** Modelled from the spec: [rtc::TaskQueue] (webrtc/base/task_queue.h is
    not part of the sources at hand), the "scheduler capability" that
    "accepts immediate and delayed deferred-task submission; guarantees FIFO
    ordering and single-context execution".  [tq_ready] holds the tasks
    ready to run, oldest first; [tq_delayed] the delayed ones with the
    clock value at which they become ready, earliest first. *)
Record TaskQueue : Type := mkTaskQueue {
  tq_ready : list Task;
  tq_delayed : list (Z * Task)
}.

Fixpoint insert_delayed (e : Z * Task) (l : list (Z * Task)) :
  list (Z * Task) :=
  match l with
  | [] => [e]
  | x :: r => if fst e <? fst x then e :: l else x :: insert_delayed e r
  end.

Definition TaskQueue_PostTask (t : Task) (q : TaskQueue) : TaskQueue :=
  mkTaskQueue (tq_ready q ++ [t]) (tq_delayed q).

Definition TaskQueue_PostDelayedTask (t : Task) (milliseconds now : Z)
  (q : TaskQueue) : TaskQueue :=
  mkTaskQueue (tq_ready q) (insert_delayed (now + milliseconds, t) (tq_delayed q)).

(** ** The class *)

(** Modelled from the spec: the members of [AudioDeviceBuffer]
    (audio_device_buffer.h is not part of the sources at hand), named and
    initialised as in the constructor of the .cc file.  Widths: sample
    rates and mic levels [uint32_t], channel counts and
    [num_stat_reports_] [size_t], delays and drift [int], callback and
    sample counters [uint64_t], levels and the two [*_stat_count_]
    [int16_t], times [int64_t]. *)
Record AudioDeviceBuffer : Type := mkAudioDeviceBuffer {
  task_queue_ : TaskQueue;
  audio_transport_cb_ : option AudioTransport;
  rec_sample_rate_ : Z;
  play_sample_rate_ : Z;
  rec_channels_ : Z;
  play_channels_ : Z;
  playing_ : bool;
  recording_ : bool;
  rec_buffer_ : Buffer;
  play_buffer_ : Buffer;
  current_mic_level_ : Z;
  new_mic_level_ : Z;
  typing_status_ : bool;
  play_delay_ms_ : Z;
  rec_delay_ms_ : Z;
  clock_drift_ : Z;
  num_stat_reports_ : Z;
  rec_callbacks_ : Z;
  last_rec_callbacks_ : Z;
  play_callbacks_ : Z;
  last_play_callbacks_ : Z;
  rec_samples_ : Z;
  last_rec_samples_ : Z;
  play_samples_ : Z;
  last_play_samples_ : Z;
  max_rec_level_ : Z;
  max_play_level_ : Z;
  last_timer_task_time_ : Z;
  rec_stat_count_ : Z;
  play_stat_count_ : Z;
  play_start_time_ : Z;
  rec_start_time_ : Z;
  only_silence_recorded_ : bool
}.

Definition set_task_queue_ (v : TaskQueue) (o : AudioDeviceBuffer) :
  AudioDeviceBuffer :=
  mkAudioDeviceBuffer v (audio_transport_cb_ o) (rec_sample_rate_ o)
    (play_sample_rate_ o) (rec_channels_ o) (play_channels_ o) (playing_ o)
    (recording_ o) (rec_buffer_ o) (play_buffer_ o) (current_mic_level_ o)
    (new_mic_level_ o) (typing_status_ o) (play_delay_ms_ o)
    (rec_delay_ms_ o) (clock_drift_ o) (num_stat_reports_ o)
    (rec_callbacks_ o) (last_rec_callbacks_ o) (play_callbacks_ o)
    (last_play_callbacks_ o) (rec_samples_ o) (last_rec_samples_ o)
    (play_samples_ o) (last_play_samples_ o) (max_rec_level_ o)
    (max_play_level_ o) (last_timer_task_time_ o) (rec_stat_count_ o)
    (play_stat_count_ o) (play_start_time_ o) (rec_start_time_ o)
    (only_silence_recorded_ o).
Definition set_audio_transport_cb_ (v : option AudioTransport) (o : AudioDeviceBuffer) :
  AudioDeviceBuffer :=
  mkAudioDeviceBuffer (task_queue_ o) v (rec_sample_rate_ o)
    (play_sample_rate_ o) (rec_channels_ o) (play_channels_ o) (playing_ o)
    (recording_ o) (rec_buffer_ o) (play_buffer_ o) (current_mic_level_ o)
    (new_mic_level_ o) (typing_status_ o) (play_delay_ms_ o)
    (rec_delay_ms_ o) (clock_drift_ o) (num_stat_reports_ o)
    (rec_callbacks_ o) (last_rec_callbacks_ o) (play_callbacks_ o)
    (last_play_callbacks_ o) (rec_samples_ o) (last_rec_samples_ o)
    (play_samples_ o) (last_play_samples_ o) (max_rec_level_ o)
    (max_play_level_ o) (last_timer_task_time_ o) (rec_stat_count_ o)
    (play_stat_count_ o) (play_start_time_ o) (rec_start_time_ o)
    (only_silence_recorded_ o).
Definition set_rec_sample_rate_ (v : Z) (o : AudioDeviceBuffer) :
  AudioDeviceBuffer :=
  mkAudioDeviceBuffer (task_queue_ o) (audio_transport_cb_ o) v
    (play_sample_rate_ o) (rec_channels_ o) (play_channels_ o) (playing_ o)
    (recording_ o) (rec_buffer_ o) (play_buffer_ o) (current_mic_level_ o)
    (new_mic_level_ o) (typing_status_ o) (play_delay_ms_ o)
    (rec_delay_ms_ o) (clock_drift_ o) (num_stat_reports_ o)
    (rec_callbacks_ o) (last_rec_callbacks_ o) (play_callbacks_ o)
    (last_play_callbacks_ o) (rec_samples_ o) (last_rec_samples_ o)
    (play_samples_ o) (last_play_samples_ o) (max_rec_level_ o)
    (max_play_level_ o) (last_timer_task_time_ o) (rec_stat_count_ o)
    (play_stat_count_ o) (play_start_time_ o) (rec_start_time_ o)
    (only_silence_recorded_ o).
Definition set_play_sample_rate_ (v : Z) (o : AudioDeviceBuffer) :
  AudioDeviceBuffer :=
  mkAudioDeviceBuffer (task_queue_ o) (audio_transport_cb_ o)
    (rec_sample_rate_ o) v (rec_channels_ o) (play_channels_ o) (playing_ o)
    (recording_ o) (rec_buffer_ o) (play_buffer_ o) (current_mic_level_ o)
    (new_mic_level_ o) (typing_status_ o) (play_delay_ms_ o)
    (rec_delay_ms_ o) (clock_drift_ o) (num_stat_reports_ o)
    (rec_callbacks_ o) (last_rec_callbacks_ o) (play_callbacks_ o)
    (last_play_callbacks_ o) (rec_samples_ o) (last_rec_samples_ o)
    (play_samples_ o) (last_play_samples_ o) (max_rec_level_ o)
    (max_play_level_ o) (last_timer_task_time_ o) (rec_stat_count_ o)
    (play_stat_count_ o) (play_start_time_ o) (rec_start_time_ o)
    (only_silence_recorded_ o).
Definition set_rec_channels_ (v : Z) (o : AudioDeviceBuffer) :
  AudioDeviceBuffer :=
  mkAudioDeviceBuffer (task_queue_ o) (audio_transport_cb_ o)
    (rec_sample_rate_ o) (play_sample_rate_ o) v (play_channels_ o)
    (playing_ o) (recording_ o) (rec_buffer_ o) (play_buffer_ o)
    (current_mic_level_ o) (new_mic_level_ o) (typing_status_ o)
    (play_delay_ms_ o) (rec_delay_ms_ o) (clock_drift_ o)
    (num_stat_reports_ o) (rec_callbacks_ o) (last_rec_callbacks_ o)
    (play_callbacks_ o) (last_play_callbacks_ o) (rec_samples_ o)
    (last_rec_samples_ o) (play_samples_ o) (last_play_samples_ o)
    (max_rec_level_ o) (max_play_level_ o) (last_timer_task_time_ o)
    (rec_stat_count_ o) (play_stat_count_ o) (play_start_time_ o)
    (rec_start_time_ o) (only_silence_recorded_ o).
Definition set_play_channels_ (v : Z) (o : AudioDeviceBuffer) :
  AudioDeviceBuffer :=
  mkAudioDeviceBuffer (task_queue_ o) (audio_transport_cb_ o)
    (rec_sample_rate_ o) (play_sample_rate_ o) (rec_channels_ o) v
    (playing_ o) (recording_ o) (rec_buffer_ o) (play_buffer_ o)
    (current_mic_level_ o) (new_mic_level_ o) (typing_status_ o)
    (play_delay_ms_ o) (rec_delay_ms_ o) (clock_drift_ o)
    (num_stat_reports_ o) (rec_callbacks_ o) (last_rec_callbacks_ o)
    (play_callbacks_ o) (last_play_callbacks_ o) (rec_samples_ o)
    (last_rec_samples_ o) (play_samples_ o) (last_play_samples_ o)
    (max_rec_level_ o) (max_play_level_ o) (last_timer_task_time_ o)
    (rec_stat_count_ o) (play_stat_count_ o) (play_start_time_ o)
    (rec_start_time_ o) (only_silence_recorded_ o).
Definition set_playing_ (v : bool) (o : AudioDeviceBuffer) :
  AudioDeviceBuffer :=
  mkAudioDeviceBuffer (task_queue_ o) (audio_transport_cb_ o)
    (rec_sample_rate_ o) (play_sample_rate_ o) (rec_channels_ o)
    (play_channels_ o) v (recording_ o) (rec_buffer_ o) (play_buffer_ o)
    (current_mic_level_ o) (new_mic_level_ o) (typing_status_ o)
    (play_delay_ms_ o) (rec_delay_ms_ o) (clock_drift_ o)
    (num_stat_reports_ o) (rec_callbacks_ o) (last_rec_callbacks_ o)
    (play_callbacks_ o) (last_play_callbacks_ o) (rec_samples_ o)
    (last_rec_samples_ o) (play_samples_ o) (last_play_samples_ o)
    (max_rec_level_ o) (max_play_level_ o) (last_timer_task_time_ o)
    (rec_stat_count_ o) (play_stat_count_ o) (play_start_time_ o)
    (rec_start_time_ o) (only_silence_recorded_ o).
Definition set_recording_ (v : bool) (o : AudioDeviceBuffer) :
  AudioDeviceBuffer :=
  mkAudioDeviceBuffer (task_queue_ o) (audio_transport_cb_ o)
    (rec_sample_rate_ o) (play_sample_rate_ o) (rec_channels_ o)
    (play_channels_ o) (playing_ o) v (rec_buffer_ o) (play_buffer_ o)
    (current_mic_level_ o) (new_mic_level_ o) (typing_status_ o)
    (play_delay_ms_ o) (rec_delay_ms_ o) (clock_drift_ o)
    (num_stat_reports_ o) (rec_callbacks_ o) (last_rec_callbacks_ o)
    (play_callbacks_ o) (last_play_callbacks_ o) (rec_samples_ o)
    (last_rec_samples_ o) (play_samples_ o) (last_play_samples_ o)
    (max_rec_level_ o) (max_play_level_ o) (last_timer_task_time_ o)
    (rec_stat_count_ o) (play_stat_count_ o) (play_start_time_ o)
    (rec_start_time_ o) (only_silence_recorded_ o).
Definition set_rec_buffer_ (v : Buffer) (o : AudioDeviceBuffer) :
  AudioDeviceBuffer :=
  mkAudioDeviceBuffer (task_queue_ o) (audio_transport_cb_ o)
    (rec_sample_rate_ o) (play_sample_rate_ o) (rec_channels_ o)
    (play_channels_ o) (playing_ o) (recording_ o) v (play_buffer_ o)
    (current_mic_level_ o) (new_mic_level_ o) (typing_status_ o)
    (play_delay_ms_ o) (rec_delay_ms_ o) (clock_drift_ o)
    (num_stat_reports_ o) (rec_callbacks_ o) (last_rec_callbacks_ o)
    (play_callbacks_ o) (last_play_callbacks_ o) (rec_samples_ o)
    (last_rec_samples_ o) (play_samples_ o) (last_play_samples_ o)
    (max_rec_level_ o) (max_play_level_ o) (last_timer_task_time_ o)
    (rec_stat_count_ o) (play_stat_count_ o) (play_start_time_ o)
    (rec_start_time_ o) (only_silence_recorded_ o).
Definition set_play_buffer_ (v : Buffer) (o : AudioDeviceBuffer) :
  AudioDeviceBuffer :=
  mkAudioDeviceBuffer (task_queue_ o) (audio_transport_cb_ o)
    (rec_sample_rate_ o) (play_sample_rate_ o) (rec_channels_ o)
    (play_channels_ o) (playing_ o) (recording_ o) (rec_buffer_ o) v
    (current_mic_level_ o) (new_mic_level_ o) (typing_status_ o)
    (play_delay_ms_ o) (rec_delay_ms_ o) (clock_drift_ o)
    (num_stat_reports_ o) (rec_callbacks_ o) (last_rec_callbacks_ o)
    (play_callbacks_ o) (last_play_callbacks_ o) (rec_samples_ o)
    (last_rec_samples_ o) (play_samples_ o) (last_play_samples_ o)
    (max_rec_level_ o) (max_play_level_ o) (last_timer_task_time_ o)
    (rec_stat_count_ o) (play_stat_count_ o) (play_start_time_ o)
    (rec_start_time_ o) (only_silence_recorded_ o).
Definition set_current_mic_level_ (v : Z) (o : AudioDeviceBuffer) :
  AudioDeviceBuffer :=
  mkAudioDeviceBuffer (task_queue_ o) (audio_transport_cb_ o)
    (rec_sample_rate_ o) (play_sample_rate_ o) (rec_channels_ o)
    (play_channels_ o) (playing_ o) (recording_ o) (rec_buffer_ o)
    (play_buffer_ o) v (new_mic_level_ o) (typing_status_ o)
    (play_delay_ms_ o) (rec_delay_ms_ o) (clock_drift_ o)
    (num_stat_reports_ o) (rec_callbacks_ o) (last_rec_callbacks_ o)
    (play_callbacks_ o) (last_play_callbacks_ o) (rec_samples_ o)
    (last_rec_samples_ o) (play_samples_ o) (last_play_samples_ o)
    (max_rec_level_ o) (max_play_level_ o) (last_timer_task_time_ o)
    (rec_stat_count_ o) (play_stat_count_ o) (play_start_time_ o)
    (rec_start_time_ o) (only_silence_recorded_ o).
Definition set_new_mic_level_ (v : Z) (o : AudioDeviceBuffer) :
  AudioDeviceBuffer :=
  mkAudioDeviceBuffer (task_queue_ o) (audio_transport_cb_ o)
    (rec_sample_rate_ o) (play_sample_rate_ o) (rec_channels_ o)
    (play_channels_ o) (playing_ o) (recording_ o) (rec_buffer_ o)
    (play_buffer_ o) (current_mic_level_ o) v (typing_status_ o)
    (play_delay_ms_ o) (rec_delay_ms_ o) (clock_drift_ o)
    (num_stat_reports_ o) (rec_callbacks_ o) (last_rec_callbacks_ o)
    (play_callbacks_ o) (last_play_callbacks_ o) (rec_samples_ o)
    (last_rec_samples_ o) (play_samples_ o) (last_play_samples_ o)
    (max_rec_level_ o) (max_play_level_ o) (last_timer_task_time_ o)
    (rec_stat_count_ o) (play_stat_count_ o) (play_start_time_ o)
    (rec_start_time_ o) (only_silence_recorded_ o).
Definition set_typing_status_ (v : bool) (o : AudioDeviceBuffer) :
  AudioDeviceBuffer :=
  mkAudioDeviceBuffer (task_queue_ o) (audio_transport_cb_ o)
    (rec_sample_rate_ o) (play_sample_rate_ o) (rec_channels_ o)
    (play_channels_ o) (playing_ o) (recording_ o) (rec_buffer_ o)
    (play_buffer_ o) (current_mic_level_ o) (new_mic_level_ o) v
    (play_delay_ms_ o) (rec_delay_ms_ o) (clock_drift_ o)
    (num_stat_reports_ o) (rec_callbacks_ o) (last_rec_callbacks_ o)
    (play_callbacks_ o) (last_play_callbacks_ o) (rec_samples_ o)
    (last_rec_samples_ o) (play_samples_ o) (last_play_samples_ o)
    (max_rec_level_ o) (max_play_level_ o) (last_timer_task_time_ o)
    (rec_stat_count_ o) (play_stat_count_ o) (play_start_time_ o)
    (rec_start_time_ o) (only_silence_recorded_ o).
Definition set_play_delay_ms_ (v : Z) (o : AudioDeviceBuffer) :
  AudioDeviceBuffer :=
  mkAudioDeviceBuffer (task_queue_ o) (audio_transport_cb_ o)
    (rec_sample_rate_ o) (play_sample_rate_ o) (rec_channels_ o)
    (play_channels_ o) (playing_ o) (recording_ o) (rec_buffer_ o)
    (play_buffer_ o) (current_mic_level_ o) (new_mic_level_ o)
    (typing_status_ o) v (rec_delay_ms_ o) (clock_drift_ o)
    (num_stat_reports_ o) (rec_callbacks_ o) (last_rec_callbacks_ o)
    (play_callbacks_ o) (last_play_callbacks_ o) (rec_samples_ o)
    (last_rec_samples_ o) (play_samples_ o) (last_play_samples_ o)
    (max_rec_level_ o) (max_play_level_ o) (last_timer_task_time_ o)
    (rec_stat_count_ o) (play_stat_count_ o) (play_start_time_ o)
    (rec_start_time_ o) (only_silence_recorded_ o).
Definition set_rec_delay_ms_ (v : Z) (o : AudioDeviceBuffer) :
  AudioDeviceBuffer :=
  mkAudioDeviceBuffer (task_queue_ o) (audio_transport_cb_ o)
    (rec_sample_rate_ o) (play_sample_rate_ o) (rec_channels_ o)
    (play_channels_ o) (playing_ o) (recording_ o) (rec_buffer_ o)
    (play_buffer_ o) (current_mic_level_ o) (new_mic_level_ o)
    (typing_status_ o) (play_delay_ms_ o) v (clock_drift_ o)
    (num_stat_reports_ o) (rec_callbacks_ o) (last_rec_callbacks_ o)
    (play_callbacks_ o) (last_play_callbacks_ o) (rec_samples_ o)
    (last_rec_samples_ o) (play_samples_ o) (last_play_samples_ o)
    (max_rec_level_ o) (max_play_level_ o) (last_timer_task_time_ o)
    (rec_stat_count_ o) (play_stat_count_ o) (play_start_time_ o)
    (rec_start_time_ o) (only_silence_recorded_ o).
Definition set_clock_drift_ (v : Z) (o : AudioDeviceBuffer) :
  AudioDeviceBuffer :=
  mkAudioDeviceBuffer (task_queue_ o) (audio_transport_cb_ o)
    (rec_sample_rate_ o) (play_sample_rate_ o) (rec_channels_ o)
    (play_channels_ o) (playing_ o) (recording_ o) (rec_buffer_ o)
    (play_buffer_ o) (current_mic_level_ o) (new_mic_level_ o)
    (typing_status_ o) (play_delay_ms_ o) (rec_delay_ms_ o) v
    (num_stat_reports_ o) (rec_callbacks_ o) (last_rec_callbacks_ o)
    (play_callbacks_ o) (last_play_callbacks_ o) (rec_samples_ o)
    (last_rec_samples_ o) (play_samples_ o) (last_play_samples_ o)
    (max_rec_level_ o) (max_play_level_ o) (last_timer_task_time_ o)
    (rec_stat_count_ o) (play_stat_count_ o) (play_start_time_ o)
    (rec_start_time_ o) (only_silence_recorded_ o).
Definition set_num_stat_reports_ (v : Z) (o : AudioDeviceBuffer) :
  AudioDeviceBuffer :=
  mkAudioDeviceBuffer (task_queue_ o) (audio_transport_cb_ o)
    (rec_sample_rate_ o) (play_sample_rate_ o) (rec_channels_ o)
    (play_channels_ o) (playing_ o) (recording_ o) (rec_buffer_ o)
    (play_buffer_ o) (current_mic_level_ o) (new_mic_level_ o)
    (typing_status_ o) (play_delay_ms_ o) (rec_delay_ms_ o) (clock_drift_ o)
    v (rec_callbacks_ o) (last_rec_callbacks_ o) (play_callbacks_ o)
    (last_play_callbacks_ o) (rec_samples_ o) (last_rec_samples_ o)
    (play_samples_ o) (last_play_samples_ o) (max_rec_level_ o)
    (max_play_level_ o) (last_timer_task_time_ o) (rec_stat_count_ o)
    (play_stat_count_ o) (play_start_time_ o) (rec_start_time_ o)
    (only_silence_recorded_ o).
Definition set_rec_callbacks_ (v : Z) (o : AudioDeviceBuffer) :
  AudioDeviceBuffer :=
  mkAudioDeviceBuffer (task_queue_ o) (audio_transport_cb_ o)
    (rec_sample_rate_ o) (play_sample_rate_ o) (rec_channels_ o)
    (play_channels_ o) (playing_ o) (recording_ o) (rec_buffer_ o)
    (play_buffer_ o) (current_mic_level_ o) (new_mic_level_ o)
    (typing_status_ o) (play_delay_ms_ o) (rec_delay_ms_ o) (clock_drift_ o)
    (num_stat_reports_ o) v (last_rec_callbacks_ o) (play_callbacks_ o)
    (last_play_callbacks_ o) (rec_samples_ o) (last_rec_samples_ o)
    (play_samples_ o) (last_play_samples_ o) (max_rec_level_ o)
    (max_play_level_ o) (last_timer_task_time_ o) (rec_stat_count_ o)
    (play_stat_count_ o) (play_start_time_ o) (rec_start_time_ o)
    (only_silence_recorded_ o).
Definition set_last_rec_callbacks_ (v : Z) (o : AudioDeviceBuffer) :
  AudioDeviceBuffer :=
  mkAudioDeviceBuffer (task_queue_ o) (audio_transport_cb_ o)
    (rec_sample_rate_ o) (play_sample_rate_ o) (rec_channels_ o)
    (play_channels_ o) (playing_ o) (recording_ o) (rec_buffer_ o)
    (play_buffer_ o) (current_mic_level_ o) (new_mic_level_ o)
    (typing_status_ o) (play_delay_ms_ o) (rec_delay_ms_ o) (clock_drift_ o)
    (num_stat_reports_ o) (rec_callbacks_ o) v (play_callbacks_ o)
    (last_play_callbacks_ o) (rec_samples_ o) (last_rec_samples_ o)
    (play_samples_ o) (last_play_samples_ o) (max_rec_level_ o)
    (max_play_level_ o) (last_timer_task_time_ o) (rec_stat_count_ o)
    (play_stat_count_ o) (play_start_time_ o) (rec_start_time_ o)
    (only_silence_recorded_ o).
Definition set_play_callbacks_ (v : Z) (o : AudioDeviceBuffer) :
  AudioDeviceBuffer :=
  mkAudioDeviceBuffer (task_queue_ o) (audio_transport_cb_ o)
    (rec_sample_rate_ o) (play_sample_rate_ o) (rec_channels_ o)
    (play_channels_ o) (playing_ o) (recording_ o) (rec_buffer_ o)
    (play_buffer_ o) (current_mic_level_ o) (new_mic_level_ o)
    (typing_status_ o) (play_delay_ms_ o) (rec_delay_ms_ o) (clock_drift_ o)
    (num_stat_reports_ o) (rec_callbacks_ o) (last_rec_callbacks_ o) v
    (last_play_callbacks_ o) (rec_samples_ o) (last_rec_samples_ o)
    (play_samples_ o) (last_play_samples_ o) (max_rec_level_ o)
    (max_play_level_ o) (last_timer_task_time_ o) (rec_stat_count_ o)
    (play_stat_count_ o) (play_start_time_ o) (rec_start_time_ o)
    (only_silence_recorded_ o).
Definition set_last_play_callbacks_ (v : Z) (o : AudioDeviceBuffer) :
  AudioDeviceBuffer :=
  mkAudioDeviceBuffer (task_queue_ o) (audio_transport_cb_ o)
    (rec_sample_rate_ o) (play_sample_rate_ o) (rec_channels_ o)
    (play_channels_ o) (playing_ o) (recording_ o) (rec_buffer_ o)
    (play_buffer_ o) (current_mic_level_ o) (new_mic_level_ o)
    (typing_status_ o) (play_delay_ms_ o) (rec_delay_ms_ o) (clock_drift_ o)
    (num_stat_reports_ o) (rec_callbacks_ o) (last_rec_callbacks_ o)
    (play_callbacks_ o) v (rec_samples_ o) (last_rec_samples_ o)
    (play_samples_ o) (last_play_samples_ o) (max_rec_level_ o)
    (max_play_level_ o) (last_timer_task_time_ o) (rec_stat_count_ o)
    (play_stat_count_ o) (play_start_time_ o) (rec_start_time_ o)
    (only_silence_recorded_ o).
Definition set_rec_samples_ (v : Z) (o : AudioDeviceBuffer) :
  AudioDeviceBuffer :=
  mkAudioDeviceBuffer (task_queue_ o) (audio_transport_cb_ o)
    (rec_sample_rate_ o) (play_sample_rate_ o) (rec_channels_ o)
    (play_channels_ o) (playing_ o) (recording_ o) (rec_buffer_ o)
    (play_buffer_ o) (current_mic_level_ o) (new_mic_level_ o)
    (typing_status_ o) (play_delay_ms_ o) (rec_delay_ms_ o) (clock_drift_ o)
    (num_stat_reports_ o) (rec_callbacks_ o) (last_rec_callbacks_ o)
    (play_callbacks_ o) (last_play_callbacks_ o) v (last_rec_samples_ o)
    (play_samples_ o) (last_play_samples_ o) (max_rec_level_ o)
    (max_play_level_ o) (last_timer_task_time_ o) (rec_stat_count_ o)
    (play_stat_count_ o) (play_start_time_ o) (rec_start_time_ o)
    (only_silence_recorded_ o).
Definition set_last_rec_samples_ (v : Z) (o : AudioDeviceBuffer) :
  AudioDeviceBuffer :=
  mkAudioDeviceBuffer (task_queue_ o) (audio_transport_cb_ o)
    (rec_sample_rate_ o) (play_sample_rate_ o) (rec_channels_ o)
    (play_channels_ o) (playing_ o) (recording_ o) (rec_buffer_ o)
    (play_buffer_ o) (current_mic_level_ o) (new_mic_level_ o)
    (typing_status_ o) (play_delay_ms_ o) (rec_delay_ms_ o) (clock_drift_ o)
    (num_stat_reports_ o) (rec_callbacks_ o) (last_rec_callbacks_ o)
    (play_callbacks_ o) (last_play_callbacks_ o) (rec_samples_ o) v
    (play_samples_ o) (last_play_samples_ o) (max_rec_level_ o)
    (max_play_level_ o) (last_timer_task_time_ o) (rec_stat_count_ o)
    (play_stat_count_ o) (play_start_time_ o) (rec_start_time_ o)
    (only_silence_recorded_ o).
Definition set_play_samples_ (v : Z) (o : AudioDeviceBuffer) :
  AudioDeviceBuffer :=
  mkAudioDeviceBuffer (task_queue_ o) (audio_transport_cb_ o)
    (rec_sample_rate_ o) (play_sample_rate_ o) (rec_channels_ o)
    (play_channels_ o) (playing_ o) (recording_ o) (rec_buffer_ o)
    (play_buffer_ o) (current_mic_level_ o) (new_mic_level_ o)
    (typing_status_ o) (play_delay_ms_ o) (rec_delay_ms_ o) (clock_drift_ o)
    (num_stat_reports_ o) (rec_callbacks_ o) (last_rec_callbacks_ o)
    (play_callbacks_ o) (last_play_callbacks_ o) (rec_samples_ o)
    (last_rec_samples_ o) v (last_play_samples_ o) (max_rec_level_ o)
    (max_play_level_ o) (last_timer_task_time_ o) (rec_stat_count_ o)
    (play_stat_count_ o) (play_start_time_ o) (rec_start_time_ o)
    (only_silence_recorded_ o).
Definition set_last_play_samples_ (v : Z) (o : AudioDeviceBuffer) :
  AudioDeviceBuffer :=
  mkAudioDeviceBuffer (task_queue_ o) (audio_transport_cb_ o)
    (rec_sample_rate_ o) (play_sample_rate_ o) (rec_channels_ o)
    (play_channels_ o) (playing_ o) (recording_ o) (rec_buffer_ o)
    (play_buffer_ o) (current_mic_level_ o) (new_mic_level_ o)
    (typing_status_ o) (play_delay_ms_ o) (rec_delay_ms_ o) (clock_drift_ o)
    (num_stat_reports_ o) (rec_callbacks_ o) (last_rec_callbacks_ o)
    (play_callbacks_ o) (last_play_callbacks_ o) (rec_samples_ o)
    (last_rec_samples_ o) (play_samples_ o) v (max_rec_level_ o)
    (max_play_level_ o) (last_timer_task_time_ o) (rec_stat_count_ o)
    (play_stat_count_ o) (play_start_time_ o) (rec_start_time_ o)
    (only_silence_recorded_ o).
Definition set_max_rec_level_ (v : Z) (o : AudioDeviceBuffer) :
  AudioDeviceBuffer :=
  mkAudioDeviceBuffer (task_queue_ o) (audio_transport_cb_ o)
    (rec_sample_rate_ o) (play_sample_rate_ o) (rec_channels_ o)
    (play_channels_ o) (playing_ o) (recording_ o) (rec_buffer_ o)
    (play_buffer_ o) (current_mic_level_ o) (new_mic_level_ o)
    (typing_status_ o) (play_delay_ms_ o) (rec_delay_ms_ o) (clock_drift_ o)
    (num_stat_reports_ o) (rec_callbacks_ o) (last_rec_callbacks_ o)
    (play_callbacks_ o) (last_play_callbacks_ o) (rec_samples_ o)
    (last_rec_samples_ o) (play_samples_ o) (last_play_samples_ o) v
    (max_play_level_ o) (last_timer_task_time_ o) (rec_stat_count_ o)
    (play_stat_count_ o) (play_start_time_ o) (rec_start_time_ o)
    (only_silence_recorded_ o).
Definition set_max_play_level_ (v : Z) (o : AudioDeviceBuffer) :
  AudioDeviceBuffer :=
  mkAudioDeviceBuffer (task_queue_ o) (audio_transport_cb_ o)
    (rec_sample_rate_ o) (play_sample_rate_ o) (rec_channels_ o)
    (play_channels_ o) (playing_ o) (recording_ o) (rec_buffer_ o)
    (play_buffer_ o) (current_mic_level_ o) (new_mic_level_ o)
    (typing_status_ o) (play_delay_ms_ o) (rec_delay_ms_ o) (clock_drift_ o)
    (num_stat_reports_ o) (rec_callbacks_ o) (last_rec_callbacks_ o)
    (play_callbacks_ o) (last_play_callbacks_ o) (rec_samples_ o)
    (last_rec_samples_ o) (play_samples_ o) (last_play_samples_ o)
    (max_rec_level_ o) v (last_timer_task_time_ o) (rec_stat_count_ o)
    (play_stat_count_ o) (play_start_time_ o) (rec_start_time_ o)
    (only_silence_recorded_ o).
Definition set_last_timer_task_time_ (v : Z) (o : AudioDeviceBuffer) :
  AudioDeviceBuffer :=
  mkAudioDeviceBuffer (task_queue_ o) (audio_transport_cb_ o)
    (rec_sample_rate_ o) (play_sample_rate_ o) (rec_channels_ o)
    (play_channels_ o) (playing_ o) (recording_ o) (rec_buffer_ o)
    (play_buffer_ o) (current_mic_level_ o) (new_mic_level_ o)
    (typing_status_ o) (play_delay_ms_ o) (rec_delay_ms_ o) (clock_drift_ o)
    (num_stat_reports_ o) (rec_callbacks_ o) (last_rec_callbacks_ o)
    (play_callbacks_ o) (last_play_callbacks_ o) (rec_samples_ o)
    (last_rec_samples_ o) (play_samples_ o) (last_play_samples_ o)
    (max_rec_level_ o) (max_play_level_ o) v (rec_stat_count_ o)
    (play_stat_count_ o) (play_start_time_ o) (rec_start_time_ o)
    (only_silence_recorded_ o).
Definition set_rec_stat_count_ (v : Z) (o : AudioDeviceBuffer) :
  AudioDeviceBuffer :=
  mkAudioDeviceBuffer (task_queue_ o) (audio_transport_cb_ o)
    (rec_sample_rate_ o) (play_sample_rate_ o) (rec_channels_ o)
    (play_channels_ o) (playing_ o) (recording_ o) (rec_buffer_ o)
    (play_buffer_ o) (current_mic_level_ o) (new_mic_level_ o)
    (typing_status_ o) (play_delay_ms_ o) (rec_delay_ms_ o) (clock_drift_ o)
    (num_stat_reports_ o) (rec_callbacks_ o) (last_rec_callbacks_ o)
    (play_callbacks_ o) (last_play_callbacks_ o) (rec_samples_ o)
    (last_rec_samples_ o) (play_samples_ o) (last_play_samples_ o)
    (max_rec_level_ o) (max_play_level_ o) (last_timer_task_time_ o) v
    (play_stat_count_ o) (play_start_time_ o) (rec_start_time_ o)
    (only_silence_recorded_ o).
Definition set_play_stat_count_ (v : Z) (o : AudioDeviceBuffer) :
  AudioDeviceBuffer :=
  mkAudioDeviceBuffer (task_queue_ o) (audio_transport_cb_ o)
    (rec_sample_rate_ o) (play_sample_rate_ o) (rec_channels_ o)
    (play_channels_ o) (playing_ o) (recording_ o) (rec_buffer_ o)
    (play_buffer_ o) (current_mic_level_ o) (new_mic_level_ o)
    (typing_status_ o) (play_delay_ms_ o) (rec_delay_ms_ o) (clock_drift_ o)
    (num_stat_reports_ o) (rec_callbacks_ o) (last_rec_callbacks_ o)
    (play_callbacks_ o) (last_play_callbacks_ o) (rec_samples_ o)
    (last_rec_samples_ o) (play_samples_ o) (last_play_samples_ o)
    (max_rec_level_ o) (max_play_level_ o) (last_timer_task_time_ o)
    (rec_stat_count_ o) v (play_start_time_ o) (rec_start_time_ o)
    (only_silence_recorded_ o).
Definition set_play_start_time_ (v : Z) (o : AudioDeviceBuffer) :
  AudioDeviceBuffer :=
  mkAudioDeviceBuffer (task_queue_ o) (audio_transport_cb_ o)
    (rec_sample_rate_ o) (play_sample_rate_ o) (rec_channels_ o)
    (play_channels_ o) (playing_ o) (recording_ o) (rec_buffer_ o)
    (play_buffer_ o) (current_mic_level_ o) (new_mic_level_ o)
    (typing_status_ o) (play_delay_ms_ o) (rec_delay_ms_ o) (clock_drift_ o)
    (num_stat_reports_ o) (rec_callbacks_ o) (last_rec_callbacks_ o)
    (play_callbacks_ o) (last_play_callbacks_ o) (rec_samples_ o)
    (last_rec_samples_ o) (play_samples_ o) (last_play_samples_ o)
    (max_rec_level_ o) (max_play_level_ o) (last_timer_task_time_ o)
    (rec_stat_count_ o) (play_stat_count_ o) v (rec_start_time_ o)
    (only_silence_recorded_ o).
Definition set_rec_start_time_ (v : Z) (o : AudioDeviceBuffer) :
  AudioDeviceBuffer :=
  mkAudioDeviceBuffer (task_queue_ o) (audio_transport_cb_ o)
    (rec_sample_rate_ o) (play_sample_rate_ o) (rec_channels_ o)
    (play_channels_ o) (playing_ o) (recording_ o) (rec_buffer_ o)
    (play_buffer_ o) (current_mic_level_ o) (new_mic_level_ o)
    (typing_status_ o) (play_delay_ms_ o) (rec_delay_ms_ o) (clock_drift_ o)
    (num_stat_reports_ o) (rec_callbacks_ o) (last_rec_callbacks_ o)
    (play_callbacks_ o) (last_play_callbacks_ o) (rec_samples_ o)
    (last_rec_samples_ o) (play_samples_ o) (last_play_samples_ o)
    (max_rec_level_ o) (max_play_level_ o) (last_timer_task_time_ o)
    (rec_stat_count_ o) (play_stat_count_ o) (play_start_time_ o) v
    (only_silence_recorded_ o).
Definition set_only_silence_recorded_ (v : bool) (o : AudioDeviceBuffer) :
  AudioDeviceBuffer :=
  mkAudioDeviceBuffer (task_queue_ o) (audio_transport_cb_ o)
    (rec_sample_rate_ o) (play_sample_rate_ o) (rec_channels_ o)
    (play_channels_ o) (playing_ o) (recording_ o) (rec_buffer_ o)
    (play_buffer_ o) (current_mic_level_ o) (new_mic_level_ o)
    (typing_status_ o) (play_delay_ms_ o) (rec_delay_ms_ o) (clock_drift_ o)
    (num_stat_reports_ o) (rec_callbacks_ o) (last_rec_callbacks_ o)
    (play_callbacks_ o) (last_play_callbacks_ o) (rec_samples_ o)
    (last_rec_samples_ o) (play_samples_ o) (last_play_samples_ o)
    (max_rec_level_ o) (max_play_level_ o) (last_timer_task_time_ o)
    (rec_stat_count_ o) (play_stat_count_ o) (play_start_time_ o)
    (rec_start_time_ o) v.

(** The constructor's member initialisers. *)
Definition AudioDeviceBuffer_ctor : AudioDeviceBuffer :=
  {| task_queue_ := mkTaskQueue [] [];
     audio_transport_cb_ := None;
     rec_sample_rate_ := 0;
     play_sample_rate_ := 0;
     rec_channels_ := 0;
     play_channels_ := 0;
     playing_ := false;
     recording_ := false;
     rec_buffer_ := [];
     play_buffer_ := [];
     current_mic_level_ := 0;
     new_mic_level_ := 0;
     typing_status_ := false;
     play_delay_ms_ := 0;
     rec_delay_ms_ := 0;
     clock_drift_ := 0;
     num_stat_reports_ := 0;
     rec_callbacks_ := 0;
     last_rec_callbacks_ := 0;
     play_callbacks_ := 0;
     last_play_callbacks_ := 0;
     rec_samples_ := 0;
     last_rec_samples_ := 0;
     play_samples_ := 0;
     last_play_samples_ := 0;
     max_rec_level_ := 0;
     max_play_level_ := 0;
     last_timer_task_time_ := 0;
     rec_stat_count_ := 0;
     play_stat_count_ := 0;
     play_start_time_ := 0;
     rec_start_time_ := 0;
     only_silence_recorded_ := true |}.

(** ** Worlds and the monad of member functions *)

Record World : Type := mkWorld {
  obj : AudioDeviceBuffer;
  clock_ms : Z;
  dcheck_is_on : bool;
  trace : list Event
}.

(** A call either returns a value in a new world or ends the process: a
    failed [RTC_DCHECK], a division by zero or a read outside an object. *)
Inductive Result (A : Type) : Type :=
| Ok (a : A) (w : World)
| Fatal.

Arguments Ok {A} a w.
Arguments Fatal {A}.

Definition M (A : Type) : Type := World -> Result A.

Definition ret {A : Type} (a : A) : M A := fun w => Ok a w.

Definition bind {A B : Type} (c : M A) (k : A -> M B) : M B :=
  fun w => match c w with
           | Ok a w' => k a w'
           | Fatal => Fatal
           end.

Declare Scope adb_scope.
Delimit Scope adb_scope with adb.
Notation "x <- c ;; k" := (bind c (fun x => k))
  (at level 61, c at next level, right associativity) : adb_scope.
Notation "c ;; k" := (bind c (fun _ => k))
  (at level 61, right associativity) : adb_scope.
Local Open Scope adb_scope.

Definition abort {A : Type} : M A := fun _ => Fatal.

Definition gets {A : Type} (f : AudioDeviceBuffer -> A) : M A :=
  fun w => Ok (f (obj w)) w.

Definition modify (g : AudioDeviceBuffer -> AudioDeviceBuffer) : M unit :=
  fun w => Ok tt (mkWorld (g (obj w)) (clock_ms w) (dcheck_is_on w) (trace w)).

Definition emit (e : Event) : M unit :=
  fun w => Ok tt (mkWorld (obj w) (clock_ms w) (dcheck_is_on w) (e :: trace w)).

Definition when (b : bool) (c : M unit) : M unit := if b then c else ret tt.

Definition lift_option {A : Type} (o : option A) : M A :=
  match o with
  | Some a => ret a
  | None => abort
  end.

(** Modelled from the spec: [RTC_DCHECK(cond)] (webrtc/base/checks.h is
    not part of the sources at hand), a "hard assertion failure", "fatal in
    debug": it ends the process when checks are compiled in and does
    nothing otherwise. *)
Definition RTC_DCHECK (cond : bool) : M unit :=
  fun w => if dcheck_is_on w && negb cond then Fatal else Ok tt w.

Definition LOG (line : LogLine) : M unit := emit (EvLog line).

(** Modelled from the spec: the telemetry sink "accepts a named boolean
    event", "fire-and-forget". *)
Definition RTC_HISTOGRAM_BOOLEAN (name : string) (sample : Z) : M unit :=
  emit (EvHistogramBoolean name sample).

(** Modelled from the spec: [rtc::TimeMillis()] (webrtc/base/timeutils.h
    is not part of the sources at hand) reads the millisecond clock of the
    world; [rtc::TimeDiff(later, earlier)] and [rtc::TimeSince(earlier)]
    are differences of [int64_t] readings. *)
Definition TimeMillis : M Z := fun w => Ok (clock_ms w) w.

Definition TimeDiff (later earlier : Z) : Z := to_int64 (later - earlier).

Definition TimeSince (earlier : Z) : M Z :=
  now <- TimeMillis ;; ret (TimeDiff now earlier).

(** Unsigned division; a zero divisor is a fault. *)
Definition div_size_t (a b : Z) : M Z :=
  if b =? 0 then abort else ret (a / b).

Definition PostTask (t : Task) : M unit :=
  modify (fun o => set_task_queue_ (TaskQueue_PostTask t (task_queue_ o)) o).

(** [PostDelayedTask] takes its delay as a [uint32_t]. *)
Definition PostDelayedTask (t : Task) (milliseconds : Z) : M unit :=
  now <- TimeMillis ;;
  modify (fun o => set_task_queue_
    (TaskQueue_PostDelayedTask t (to_uint32 milliseconds) now (task_queue_ o)) o).

(** ** Member functions, in the order of the source *)

Definition StartPeriodicLogging : M unit := PostTask (TaskLogStats LOG_START).

Definition StopPeriodicLogging : M unit := PostTask (TaskLogStats LOG_STOP).

Definition RegisterAudioCallback (audio_callback : option AudioTransport) :
  M Z :=
  LOG (LogFunction "RegisterAudioCallback") ;;
  playing <- gets playing_ ;;
  recording <- gets recording_ ;;
  if playing || recording then
    LOG LogMediaActive ;;
    ret (-1)
  else
    modify (set_audio_transport_cb_ audio_callback) ;;
    ret 0.

Definition StartPlayout : M unit :=
  playing <- gets playing_ ;;
  if playing then ret tt
  else
    LOG (LogFunction "StartPlayout") ;;
    PostTask TaskResetPlayStats ;;
    recording <- gets recording_ ;;
    when (negb recording) StartPeriodicLogging ;;
    now_time <- TimeMillis ;;
    let now_time := to_uint64 now_time in
    modify (set_play_start_time_ (to_int64 now_time)) ;;
    modify (set_playing_ true).

Definition StartRecording : M unit :=
  recording <- gets recording_ ;;
  if recording then ret tt
  else
    LOG (LogFunction "StartRecording") ;;
    PostTask TaskResetRecStats ;;
    playing <- gets playing_ ;;
    when (negb playing) StartPeriodicLogging ;;
    now_time <- TimeMillis ;;
    modify (set_rec_start_time_ now_time) ;;
    modify (set_recording_ true) ;;
    modify (set_only_silence_recorded_ true).

Definition StopPlayout : M unit :=
  playing <- gets playing_ ;;
  if negb playing then ret tt
  else
    LOG (LogFunction "StopPlayout") ;;
    modify (set_playing_ false) ;;
    recording <- gets recording_ ;;
    when (negb recording) StopPeriodicLogging ;;
    play_start_time <- gets play_start_time_ ;;
    t <- TimeSince play_start_time ;;
    LOG (LogTotalPlayoutTime t).

Definition StopRecording : M unit :=
  recording <- gets recording_ ;;
  if negb recording then ret tt
  else
    LOG (LogFunction "StopRecording") ;;
    modify (set_recording_ false) ;;
    playing <- gets playing_ ;;
    when (negb playing) StopPeriodicLogging ;;
    rec_start_time <- gets rec_start_time_ ;;
    t <- TimeSince rec_start_time ;;
    let time_since_start := to_size_t t in
    when (time_since_start >? kMinValidCallTimeTimeInMilliseconds)
      (only_silence_recorded <- gets only_silence_recorded_ ;;
       let only_zeros := Z.b2z only_silence_recorded in
       RTC_HISTOGRAM_BOOLEAN "WebRTC.Audio.RecordedOnlyZeros" only_zeros ;;
       LOG (LogHistogramRecordedOnlyZeros only_zeros)) ;;
    LOG (LogTotalRecordingTime time_since_start).

Definition SetRecordingSampleRate (fsHz : Z) : M Z :=
  LOG (LogSetRecordingSampleRate fsHz) ;;
  modify (set_rec_sample_rate_ (to_uint32 fsHz)) ;;
  ret 0.

Definition SetPlayoutSampleRate (fsHz : Z) : M Z :=
  LOG (LogSetPlayoutSampleRate fsHz) ;;
  modify (set_play_sample_rate_ (to_uint32 fsHz)) ;;
  ret 0.

Definition RecordingSampleRate : M Z :=
  r <- gets rec_sample_rate_ ;; ret (to_int32 r).

Definition PlayoutSampleRate : M Z :=
  r <- gets play_sample_rate_ ;; ret (to_int32 r).

Definition SetRecordingChannels (channels : Z) : M Z :=
  LOG (LogSetRecordingChannels channels) ;;
  modify (set_rec_channels_ (to_size_t channels)) ;;
  ret 0.

Definition SetPlayoutChannels (channels : Z) : M Z :=
  LOG (LogSetPlayoutChannels channels) ;;
  modify (set_play_channels_ (to_size_t channels)) ;;
  ret 0.

Definition SetRecordingChannel (channel : ChannelType) : M Z :=
  LOG (LogSetRecordingChannel channel) ;;
  LOG LogNotImplemented ;;
  RTC_DCHECK (ChannelType_eqb channel kChannelBoth) ;;
  ret (-1).

Definition RecordingChannel : M Z :=
  LOG LogNotImplemented ;;
  ret (-1).

Definition RecordingChannels : M Z := gets rec_channels_.

Definition PlayoutChannels : M Z := gets play_channels_.

Definition SetCurrentMicLevel (level : Z) : M Z :=
  modify (set_current_mic_level_ (to_uint32 level)) ;;
  ret 0.

Definition SetTypingStatus (typing_status : bool) : M Z :=
  modify (set_typing_status_ typing_status) ;;
  ret 0.

Definition NewMicLevel : M Z := gets new_mic_level_.

Definition SetVQEData (play_delay_ms rec_delay_ms clock_drift : Z) : M unit :=
  modify (set_play_delay_ms_ (to_int32 play_delay_ms)) ;;
  modify (set_rec_delay_ms_ (to_int32 rec_delay_ms)) ;;
  modify (set_clock_drift_ (to_int32 clock_drift)).

Definition StartInputFileRecording : M Z := LOG LogNotImplemented ;; ret 0.

Definition StopInputFileRecording : M Z := LOG LogNotImplemented ;; ret 0.

Definition StartOutputFileRecording : M Z := LOG LogNotImplemented ;; ret 0.

Definition StopOutputFileRecording : M Z := LOG LogNotImplemented ;; ret 0.

Definition SetRecordedBuffer (audio_buffer : list byte) (num_samples : Z) :
  M Z :=
  rec_channels <- gets rec_channels_ ;;
  let size_in_bytes :=
    to_size_t (to_size_t (num_samples * rec_channels) * sizeof_int16_t) in
  old_size <- gets (fun o => Buffer_size (rec_buffer_ o)) ;;
  buf <- lift_option (Buffer_SetData audio_buffer size_in_bytes) ;;
  modify (set_rec_buffer_ buf) ;;
  when (negb (old_size =? Buffer_size buf))
    (LOG (LogRecBufferSize (Buffer_size buf))) ;;
  count <- gets rec_stat_count_ ;;
  RTC_DCHECK (count <? 50) ;;
  let count' := to_int16 (count + 1) in
  modify (set_rec_stat_count_ count') ;;
  max_abs <-
    (if count' >=? 50 then
       let size := to_size_t (num_samples * rec_channels) in
       vector <- lift_option (read_int16 buf size) ;;
       let max_abs := WebRtcSpl_MaxAbsValueW16 vector in
       emit (EvMaxAbsValueW16 size max_abs) ;;
       modify (set_rec_stat_count_ 0) ;;
       when (max_abs >? 0) (modify (set_only_silence_recorded_ false)) ;;
       ret max_abs
     else ret 0) ;;
  PostTask (TaskUpdateRecStats max_abs num_samples) ;;
  ret 0.

Definition DeliverRecordedData : M Z :=
  cb <- gets audio_transport_cb_ ;;
  match cb with
  | None =>
    LOG LogInvalidTransport ;;
    ret 0
  | Some transport =>
    rec_channels <- gets rec_channels_ ;;
    let rec_bytes_per_sample := to_size_t (rec_channels * sizeof_int16_t) in
    play_delay_ms <- gets play_delay_ms_ ;;
    rec_delay_ms <- gets rec_delay_ms_ ;;
    let total_delay_ms := to_uint32 (play_delay_ms + rec_delay_ms) in
    buf <- gets rec_buffer_ ;;
    num_samples <- div_size_t (Buffer_size buf) rec_bytes_per_sample ;;
    rec_sample_rate <- gets rec_sample_rate_ ;;
    clock_drift <- gets clock_drift_ ;;
    current_mic_level <- gets current_mic_level_ ;;
    typing_status <- gets typing_status_ ;;
    let args :=
      mkRecordedArgs buf num_samples rec_bytes_per_sample rec_channels
        rec_sample_rate total_delay_ms clock_drift current_mic_level
        typing_status in
    emit (EvRecordedDataIsAvailable args) ;;
    let (res, new_mic_level) := RecordedDataIsAvailable transport args in
    (if negb (to_int32 res =? -1) then
       modify (set_new_mic_level_ (to_uint32 new_mic_level))
     else LOG LogRecordedDataFailed) ;;
    ret 0
  end.

Definition RequestPlayoutData (num_samples : Z) : M Z :=
  play_channels <- gets play_channels_ ;;
  let play_bytes_per_sample := to_size_t (play_channels * sizeof_int16_t) in
  let size_in_bytes := to_size_t (num_samples * play_bytes_per_sample) in
  old_size <- gets (fun o => Buffer_size (play_buffer_ o)) ;;
  when (negb (old_size =? size_in_bytes))
    (modify (fun o =>
       set_play_buffer_ (Buffer_SetSize (play_buffer_ o) size_in_bytes) o) ;;
     new_size <- gets (fun o => Buffer_size (play_buffer_ o)) ;;
     LOG (LogPlayBufferSize new_size)) ;;
  cb <- gets audio_transport_cb_ ;;
  match cb with
  | None =>
    LOG LogInvalidTransport ;;
    ret 0
  | Some transport =>
    play_sample_rate <- gets play_sample_rate_ ;;
    buf <- gets play_buffer_ ;;
    let args :=
      mkPlayArgs num_samples play_bytes_per_sample play_channels
        play_sample_rate buf in
    emit (EvNeedMorePlayData args) ;;
    let r := NeedMorePlayData transport args in
    modify (set_play_buffer_ (Buffer_write buf (pr_written r))) ;;
    let num_samples_out := to_size_t (pr_nSamplesOut r) in
    when (negb (to_uint32 (pr_res r) =? 0)) (LOG LogNeedMorePlayDataFailed) ;;
    count <- gets play_stat_count_ ;;
    RTC_DCHECK (count <? 50) ;;
    let count' := to_int16 (count + 1) in
    modify (set_play_stat_count_ count') ;;
    max_abs <-
      (if count' >=? 50 then
         let size := to_size_t (num_samples * play_channels) in
         buf' <- gets play_buffer_ ;;
         vector <- lift_option (read_int16 buf' size) ;;
         let max_abs := WebRtcSpl_MaxAbsValueW16 vector in
         emit (EvMaxAbsValueW16 size max_abs) ;;
         modify (set_play_stat_count_ 0) ;;
         ret max_abs
       else ret 0) ;;
    PostTask (TaskUpdatePlayStats max_abs num_samples_out) ;;
    ret (to_int32 num_samples_out)
  end.

(** The pair returned is what [memcpy] left at [audio_buffer] and the
    function's result. *)
Definition GetPlayoutData : M (list byte * Z) :=
  buf <- gets play_buffer_ ;;
  RTC_DCHECK (Buffer_size buf >? 0) ;;
  play_channels <- gets play_channels_ ;;
  let play_bytes_per_sample := to_size_t (play_channels * sizeof_int16_t) in
  frames <- div_size_t (Buffer_size buf) play_bytes_per_sample ;;
  ret (buf, to_int32 frames).

Definition LogStats (state : LogState) : M unit :=
  now_time <- TimeMillis ;;
  match state with
  | LOG_STOP => ret tt
  | _ =>
    when (match state with LOG_START => true | _ => false end)
      (modify (set_num_stat_reports_ 0) ;;
       modify (set_last_timer_task_time_ now_time)) ;;
    let next_callback_time :=
      to_int64 (now_time + kTimerIntervalInMilliseconds) in
    last_timer_task_time <- gets last_timer_task_time_ ;;
    let time_since_last := TimeDiff now_time last_timer_task_time in
    modify (set_last_timer_task_time_ now_time) ;;
    reports <- gets num_stat_reports_ ;;
    let reports' := to_size_t (reports + 1) in
    modify (set_num_stat_reports_ reports') ;;
    when ((reports' >? 1) && (time_since_last >? 0))
      (o <- gets (fun o => o) ;;
       let diff_samples := to_uint32 (rec_samples_ o - last_rec_samples_ o) in
       LOG (LogRecStats time_since_last (rec_sample_rate_ o / 1000)
              (to_uint64 (rec_callbacks_ o - last_rec_callbacks_ o))
              diff_samples (max_rec_level_ o)) ;;
       let diff_samples :=
         to_uint32 (play_samples_ o - last_play_samples_ o) in
       LOG (LogPlayStats time_since_last (play_sample_rate_ o / 1000)
              (to_uint64 (play_callbacks_ o - last_play_callbacks_ o))
              diff_samples (max_play_level_ o))) ;;
    modify (fun o => set_last_rec_callbacks_ (rec_callbacks_ o) o) ;;
    modify (fun o => set_last_play_callbacks_ (play_callbacks_ o) o) ;;
    modify (fun o => set_last_rec_samples_ (rec_samples_ o) o) ;;
    modify (fun o => set_last_play_samples_ (play_samples_ o) o) ;;
    modify (set_max_rec_level_ 0) ;;
    modify (set_max_play_level_ 0) ;;
    now' <- TimeMillis ;;
    let time_to_wait_ms := to_int64 (next_callback_time - now') in
    RTC_DCHECK (time_to_wait_ms >? 0) ;;
    PostDelayedTask (TaskLogStats LOG_ACTIVE) time_to_wait_ms
  end.

Definition ResetRecStats : M unit :=
  modify (set_rec_callbacks_ 0) ;;
  modify (set_last_rec_callbacks_ 0) ;;
  modify (set_rec_samples_ 0) ;;
  modify (set_last_rec_samples_ 0) ;;
  modify (set_max_rec_level_ 0).

Definition ResetPlayStats : M unit :=
  modify (set_play_callbacks_ 0) ;;
  modify (set_last_play_callbacks_ 0) ;;
  modify (set_play_samples_ 0) ;;
  modify (set_last_play_samples_ 0) ;;
  modify (set_max_play_level_ 0).

Definition UpdateRecStats (max_abs num_samples : Z) : M unit :=
  modify (fun o => set_rec_callbacks_ (to_uint64 (rec_callbacks_ o + 1)) o) ;;
  modify (fun o =>
    set_rec_samples_ (to_uint64 (rec_samples_ o + num_samples)) o) ;;
  max_rec_level <- gets max_rec_level_ ;;
  when (max_abs >? max_rec_level) (modify (set_max_rec_level_ max_abs)).

Definition UpdatePlayStats (max_abs num_samples : Z) : M unit :=
  modify (fun o => set_play_callbacks_ (to_uint64 (play_callbacks_ o + 1)) o) ;;
  modify (fun o =>
    set_play_samples_ (to_uint64 (play_samples_ o + num_samples)) o) ;;
  max_play_level <- gets max_play_level_ ;;
  when (max_abs >? max_play_level) (modify (set_max_play_level_ max_abs)).

(** ** The serialized worker and simulated time *)

Definition run_task (t : Task) : M unit :=
  match t with
  | TaskResetPlayStats => ResetPlayStats
  | TaskResetRecStats => ResetRecStats
  | TaskUpdateRecStats max_abs num_samples =>
    UpdateRecStats max_abs num_samples
  | TaskUpdatePlayStats max_abs num_samples =>
    UpdatePlayStats max_abs num_samples
  | TaskLogStats state => LogStats state
  end.

Fixpoint run_tasks (ts : list Task) : M unit :=
  match ts with
  | [] => ret tt
  | t :: r => run_task t ;; run_tasks r
  end.

(** The worker empties the ready list, oldest task first. *)
Definition ProcessReady : M unit :=
  ready <- gets (fun o => tq_ready (task_queue_ o)) ;;
  modify (fun o =>
    set_task_queue_ (mkTaskQueue [] (tq_delayed (task_queue_ o))) o) ;;
  run_tasks ready.

Definition set_clock (t : Z) : M unit :=
  fun w => Ok tt (mkWorld (obj w) t (dcheck_is_on w) (trace w)).

(** Time passes and nothing runs. *)
Definition Sleep (ms : Z) : M unit :=
  now <- TimeMillis ;; set_clock (now + Z.max 0 ms).

(** Modelled from the spec: simulated time over the "scheduler
    capability".  The worker runs what is ready, then the clock jumps to
    the next delayed task due by [deadline], which becomes ready, and so on;
    when none is left the clock is moved to [deadline].  The result is
    [false] when [fuel] timer expiries were not enough to get there. *)
Fixpoint RunUntil (fuel : nat) (deadline : Z) : M bool :=
  ProcessReady ;;
  now <- TimeMillis ;;
  delayed <- gets (fun o => tq_delayed (task_queue_ o)) ;;
  match delayed with
  | (due, t) :: rest =>
    if due <=? deadline then
      match fuel with
      | O => ret false
      | S fuel' =>
        set_clock (Z.max now due) ;;
        modify (set_task_queue_ (mkTaskQueue [t] rest)) ;;
        RunUntil fuel' deadline
      end
    else set_clock (Z.max now deadline) ;; ret true
  | [] => set_clock (Z.max now deadline) ;; ret true
  end.

Definition RunFor (fuel : nat) (ms : Z) : M bool :=
  now <- TimeMillis ;; RunUntil fuel (now + ms).

(** A newly constructed object at clock value [now]. *)
Definition new_world (dcheck : bool) (now : Z) : World :=
  mkWorld AudioDeviceBuffer_ctor now dcheck [EvLog LogCtor].

(** ** Operations as data *)

Inductive Op : Type :=
| OpRegisterAudioCallback (audio_callback : option AudioTransport)
| OpStartPlayout
| OpStartRecording
| OpStopPlayout
| OpStopRecording
| OpSetRecordingSampleRate (fsHz : Z)
| OpSetPlayoutSampleRate (fsHz : Z)
| OpSetRecordingChannels (channels : Z)
| OpSetPlayoutChannels (channels : Z)
| OpSetRecordingChannel (channel : ChannelType)
| OpRecordingChannel
| OpSetCurrentMicLevel (level : Z)
| OpSetTypingStatus (typing_status : bool)
| OpSetVQEData (play_delay_ms rec_delay_ms clock_drift : Z)
| OpStartInputFileRecording
| OpStopInputFileRecording
| OpStartOutputFileRecording
| OpStopOutputFileRecording
| OpSetRecordedBuffer (audio_buffer : list byte) (num_samples : Z)
| OpDeliverRecordedData
| OpRequestPlayoutData (num_samples : Z)
| OpGetPlayoutData
| OpProcessReady
| OpSleep (ms : Z)
| OpRunUntil (fuel : nat) (deadline : Z).

Definition discard {A : Type} (c : M A) : M unit := _ <- c ;; ret tt.

Definition run_op (op : Op) : M unit :=
  match op with
  | OpRegisterAudioCallback cb => discard (RegisterAudioCallback cb)
  | OpStartPlayout => StartPlayout
  | OpStartRecording => StartRecording
  | OpStopPlayout => StopPlayout
  | OpStopRecording => StopRecording
  | OpSetRecordingSampleRate fsHz => discard (SetRecordingSampleRate fsHz)
  | OpSetPlayoutSampleRate fsHz => discard (SetPlayoutSampleRate fsHz)
  | OpSetRecordingChannels channels => discard (SetRecordingChannels channels)
  | OpSetPlayoutChannels channels => discard (SetPlayoutChannels channels)
  | OpSetRecordingChannel channel => discard (SetRecordingChannel channel)
  | OpRecordingChannel => discard RecordingChannel
  | OpSetCurrentMicLevel level => discard (SetCurrentMicLevel level)
  | OpSetTypingStatus typing_status => discard (SetTypingStatus typing_status)
  | OpSetVQEData p r c => SetVQEData p r c
  | OpStartInputFileRecording => discard StartInputFileRecording
  | OpStopInputFileRecording => discard StopInputFileRecording
  | OpStartOutputFileRecording => discard StartOutputFileRecording
  | OpStopOutputFileRecording => discard StopOutputFileRecording
  | OpSetRecordedBuffer audio_buffer n =>
    discard (SetRecordedBuffer audio_buffer n)
  | OpDeliverRecordedData => discard DeliverRecordedData
  | OpRequestPlayoutData n => discard (RequestPlayoutData n)
  | OpGetPlayoutData => discard GetPlayoutData
  | OpProcessReady => ProcessReady
  | OpSleep ms => Sleep ms
  | OpRunUntil fuel deadline => discard (RunUntil fuel deadline)
  end.

Definition is_StartRecording (op : Op) : bool :=
  match op with
  | OpStartRecording => true
  | _ => false
  end.

(** ** Vocabulary of the statements *)

(** One [SetRecordedBuffer] call: the caller's memory and [num_samples]. *)
Definition RecCall : Type := (list byte * Z)%type.

Fixpoint SetRecordedBuffer_calls (calls : list RecCall) : M unit :=
  match calls with
  | [] => ret tt
  | (audio_buffer, num_samples) :: r =>
    _ <- SetRecordedBuffer audio_buffer num_samples ;;
    SetRecordedBuffer_calls r
  end.

Fixpoint RequestPlayoutData_calls (calls : list Z) : M unit :=
  match calls with
  | [] => ret tt
  | num_samples :: r =>
    _ <- RequestPlayoutData num_samples ;;
    RequestPlayoutData_calls r
  end.

(** The caller's memory holds [num_samples] frames of [channels] 16-bit
    samples, and that many bytes are a [size_t]. *)
Definition rec_call_ok (channels : Z) (call : RecCall) : bool :=
  let (audio_buffer, num_samples) := call in
  (0 <=? channels) && (0 <=? num_samples) &&
  (num_samples * channels * 2 <? 2 ^ size_bits) &&
  (num_samples * channels * 2 <=? Buffer_size audio_buffer).

Definition play_call_ok (channels num_samples : Z) : bool :=
  (0 <=? channels) && (0 <=? num_samples) &&
  (num_samples * channels * 2 <? 2 ^ size_bits).

(** The samples a call delivers. *)
Definition delivered (channels : Z) (call : RecCall) : list Z :=
  let (audio_buffer, num_samples) := call in
  firstn (Z.to_nat (num_samples * channels)) (samples_of audio_buffer).

Definition silent (channels : Z) (call : RecCall) : bool :=
  forallb (fun s => s =? 0) (delivered channels call).

(** The tick counter after a call made when it was [count], and the level a
    delivery reports to the statistics. *)
Definition next_count (count : Z) : Z :=
  if count + 1 >=? 50 then 0 else count + 1.

Definition rec_level (count channels : Z) (call : RecCall) : Z :=
  if count + 1 >=? 50
  then WebRtcSpl_MaxAbsValueW16 (delivered channels call) else 0.

(** The statistics updates a run of deliveries posts, oldest first. *)
Fixpoint rec_updates (count channels : Z) (calls : list RecCall) : list Task :=
  match calls with
  | [] => []
  | call :: r =>
    TaskUpdateRecStats (rec_level count channels call) (snd call)
      :: rec_updates (next_count count) channels r
  end.

(** The level measurement a delivery makes when its turn has come. *)
Definition peak_event (channels : Z) (call : RecCall) : Event :=
  EvMaxAbsValueW16 (snd call * channels)
    (WebRtcSpl_MaxAbsValueW16 (delivered channels call)).

(** The calls on which the level is measured, when the tick counter is
    [count] before the first of them. *)
Fixpoint sampled {A : Type} (count : Z) (calls : list A) : list A :=
  match calls with
  | [] => []
  | c :: r =>
    if count + 1 >=? 50 then c :: sampled 0 r else sampled (count + 1) r
  end.

(** Whether the call at position [j] (from 0) of a run begun with the tick
    counter at [k] is the one that brings the counter to 50. *)
Definition measured (k : Z) (j : nat) : bool :=
  (k + Z.of_nat j + 1) mod 50 =? 0.

Definition is_peak (e : Event) : bool :=
  match e with
  | EvMaxAbsValueW16 _ _ => true
  | _ => false
  end.

Definition is_histogram (e : Event) : bool :=
  match e with
  | EvHistogramBoolean _ _ => true
  | _ => false
  end.

Definition is_rec_report (e : Event) : bool :=
  match e with
  | EvLog (LogRecStats _ _ _ _ _) => true
  | _ => false
  end.

Definition is_play_report (e : Event) : bool :=
  match e with
  | EvLog (LogPlayStats _ _ _ _ _) => true
  | _ => false
  end.

Definition is_rec_update (t : Task) : bool :=
  match t with
  | TaskUpdateRecStats _ _ => true
  | _ => false
  end.

Definition is_play_update (t : Task) : bool :=
  match t with
  | TaskUpdatePlayStats _ _ => true
  | _ => false
  end.

Definition count {A : Type} (p : A -> bool) (l : list A) : Z :=
  Z.of_nat (length (filter p l)).

(** The results of the level measurements in a trace, most recent first. *)
Definition peaks (tr : list Event) : list Z :=
  flat_map (fun e => match e with
                     | EvMaxAbsValueW16 _ r => [r]
                     | _ => []
                     end) tr.

(** The arguments the transport's recorded-data contract was invoked with,
    most recent first. *)
Definition recorded_calls (tr : list Event) : list RecordedArgs :=
  flat_map (fun e => match e with
                     | EvRecordedDataIsAvailable a => [a]
                     | _ => []
                     end) tr.

Definition histogram_samples (tr : list Event) : list Z :=
  flat_map (fun e => match e with
                     | EvHistogramBoolean _ v => [v]
                     | _ => []
                     end) tr.

Definition ready_tasks (w : World) : list Task := tq_ready (task_queue_ (obj w)).

Definition delayed_tasks (w : World) : list (Z * Task) :=
  tq_delayed (task_queue_ (obj w)).

(** A transport that delivers nothing and accepts everything. *)
Definition idle_transport : AudioTransport :=
  mkAudioTransport (fun _ => (0, 0)) (fun _ => mkPlayResult [] 0 (-1) (-1) 0).

(** A transport that produces a single frame, whatever was requested. *)
Definition one_frame_transport : AudioTransport :=
  mkAudioTransport (fun _ => (0, 0))
    (fun _ => mkPlayResult [x01; x00; x01; x00] 1 (-1) (-1) 0).

(** The frames announced by the recording updates in a list of tasks. *)
Fixpoint samples_posted (ts : list Task) : Z :=
  match ts with
  | [] => 0
  | TaskUpdateRecStats _ num_samples :: r => num_samples + samples_posted r
  | _ :: r => samples_posted r
  end.

(** 16 kHz mono, 500 deliveries of 160 all-zero frames after
    [StartRecording]; then the worker runs every deferred task. *)
Definition silence_16kHz_mono_calls : M unit :=
  _ <- SetRecordingSampleRate 16000 ;;
  _ <- SetRecordingChannels 1 ;;
  StartRecording ;;
  SetRecordedBuffer_calls (repeat (repeat x00 320, 160) 500).

Definition silence_16kHz_mono : M unit :=
  silence_16kHz_mono_calls ;; ProcessReady.

(** A recording session: start, deliveries, [ms] of elapsed time, stop. *)
Definition recording_session (calls : list RecCall) (ms : Z) : M unit :=
  StartRecording ;;
  SetRecordedBuffer_calls calls ;;
  Sleep ms ;;
  StopRecording.

Fixpoint run_ops (ops : list Op) : M unit :=
  match ops with
  | [] => ret tt
  | op :: r => run_op op ;; run_ops r
  end.

(** The world a sequence of operations leads to (the starting world if it
    ends the process). *)
Definition world_after (ops : list Op) (w : World) : World :=
  match run_ops ops w with
  | Ok _ w' => w'
  | Fatal => w
  end.

(** A newly constructed object configured for one recording channel, and
    the same with a transport registered. *)
Definition mono_world : World :=
  world_after [OpSetRecordingChannels 1] (new_world true 0).

Definition mono_transport_world : World :=
  world_after [OpSetRecordingChannels 1;
               OpRegisterAudioCallback (Some idle_transport)]
    (new_world true 0).

(** 49 silent mono deliveries, then one with the sample 256; and the world
    [mono_world] is in once recording has started and they are delivered. *)
Definition loud_50th_delivery : list RecCall :=
  repeat ([x00; x00], 1) 49 ++ [([x00; x01], 1)].

Definition loud_world : World :=
  world_after
    (OpStartRecording
       :: map (fun call : RecCall => OpSetRecordedBuffer (fst call) (snd call))
            loud_50th_delivery)
    mono_world.

(** A newly constructed object configured for playout on [channels]
    channels, with or without a transport. *)
Definition playout_world (dcheck : bool) (channels : Z)
  (cb : option AudioTransport) : World :=
  world_after [OpSetPlayoutChannels channels; OpRegisterAudioCallback cb]
    (new_world dcheck 0).

(** Invariants: [preserves I c] says that [c], when it returns, leads from
    a world in [I] to a world in [I]. *)
Definition preserves (I : World -> Prop) {A : Type} (c : M A) : Prop :=
  forall w a w', I w -> c w = Ok a w' -> I w'.

Definition flag_cleared (w : World) : Prop :=
  only_silence_recorded_ (obj w) = false.

(** What [RTC_DCHECK_LT(rec_stat_count_, 50)] and
    [RTC_DCHECK_LT(play_stat_count_, 50)] expect. *)
Definition counters_ok (w : World) : Prop :=
  0 <= rec_stat_count_ (obj w) < 50 /\ 0 <= play_stat_count_ (obj w) < 50.

(** Further vocabulary: transports and worlds of the playout path, what a
    list of tasks announces, and the members of each thread. *)

(** A transport that fills the buffer it is handed with bytes [x01] and
    says it produced the frames asked for. *)
Definition filling_transport : AudioTransport :=
  mkAudioTransport
    (fun _ => (0, 0))
    (fun args =>
       mkPlayResult
         (repeat x01 (Z.to_nat (pa_nSamples args * pa_nChannels args * 2)))
         (pa_nSamples args) 0 0 0).

(** Playout on two channels after one request served by
    [filling_transport], with the transport unregistered afterwards. *)
Definition unregistered_world : World :=
  world_after
    [OpSetPlayoutChannels 2; OpRegisterAudioCallback (Some filling_transport);
     OpRequestPlayoutData 480; OpProcessReady; OpRegisterAudioCallback None]
    (new_world true 0).

(** The levels a list of tasks reports to the recording statistics, oldest
    first. *)
Fixpoint levels_posted (ts : list Task) : list Z :=
  match ts with
  | [] => []
  | TaskUpdateRecStats max_abs _ :: r => max_abs :: levels_posted r
  | _ :: r => levels_posted r
  end.

(** The largest of [level] and a list of levels. *)
Definition max_level (level : Z) (levels : list Z) : Z :=
  fold_right Z.max level levels.

(** The frames a run of deliveries announces. *)
Fixpoint frames_announced (calls : list RecCall) : Z :=
  match calls with
  | [] => 0
  | call :: r => snd call + frames_announced r
  end.

(** The members behind the periodic report. *)
Definition statistics (o : AudioDeviceBuffer) : list Z :=
  [rec_callbacks_ o; last_rec_callbacks_ o; rec_samples_ o; last_rec_samples_ o;
   max_rec_level_ o;
   play_callbacks_ o; last_play_callbacks_ o; play_samples_ o;
   last_play_samples_ o; max_play_level_ o;
   num_stat_reports_ o; last_timer_task_time_ o].

Definition statistics_are (v : list Z) (w : World) : Prop :=
  statistics (obj w) = v.

(** The operations that stand for the task queue's thread. *)
Definition is_worker (op : Op) : bool :=
  match op with
  | OpProcessReady | OpRunUntil _ _ => true
  | _ => false
  end.

(** The members the main thread and the audio threads work on: the object
    with the task queue and the statistics blanked out. *)
Definition thread_members (o : AudioDeviceBuffer) : AudioDeviceBuffer :=
  mkAudioDeviceBuffer (mkTaskQueue [] []) (audio_transport_cb_ o)
    (rec_sample_rate_ o) (play_sample_rate_ o) (rec_channels_ o)
    (play_channels_ o) (playing_ o) (recording_ o) (rec_buffer_ o)
    (play_buffer_ o) (current_mic_level_ o) (new_mic_level_ o)
    (typing_status_ o) (play_delay_ms_ o) (rec_delay_ms_ o) (clock_drift_ o)
    0 0 0 0 0 0 0 0 0 0 0 0 (rec_stat_count_ o)
    (play_stat_count_ o) (play_start_time_ o) (rec_start_time_ o)
    (only_silence_recorded_ o).

Definition thread_members_are (v : AudioDeviceBuffer) (w : World) : Prop :=
  thread_members (obj w) = v.

(** * Properties *)

(** ** Arithmetic of the fixed-width types *)

Lemma wrap_small (w x : Z) : 0 <= x < 2 ^ w -> wrap w x = x.
Proof. intros H. unfold wrap. apply Z.mod_small. exact H. Qed.

Lemma wrap_range (w x : Z) : 0 <= w -> 0 <= wrap w x < 2 ^ w.
Proof.
  intros H. unfold wrap. apply Z.mod_pos_bound. apply Z.pow_pos_nonneg; lia.
Qed.

Lemma swrap_small (w x : Z) :
  0 < w -> - 2 ^ (w - 1) <= x < 2 ^ (w - 1) -> swrap w x = x.
Proof.
  intros Hw H. unfold swrap.
  assert (E : 2 ^ w = 2 * 2 ^ (w - 1)).
  { replace w with (Z.succ (w - 1)) at 1 by lia. apply Z.pow_succ_r. lia. }
  rewrite Z.mod_small; lia.
Qed.

Lemma to_size_t_small (x : Z) : 0 <= x < 2 ^ 64 -> to_size_t x = x.
Proof. apply wrap_small. Qed.

Lemma to_size_t_range (x : Z) : 0 <= to_size_t x < 2 ^ 64.
Proof. apply wrap_range. unfold size_bits. lia. Qed.

Lemma to_size_t_mul_l (a b : Z) : to_size_t (to_size_t a * b) = to_size_t (a * b).
Proof. unfold to_size_t, wrap. apply Z.mul_mod_idemp_l. unfold size_bits. lia. Qed.

Lemma to_size_t_mul_r (a b : Z) : to_size_t (a * to_size_t b) = to_size_t (a * b).
Proof. unfold to_size_t, wrap. apply Z.mul_mod_idemp_r. unfold size_bits. lia. Qed.

Lemma to_int16_small (x : Z) : -32768 <= x < 32768 -> to_int16 x = x.
Proof. intros H. apply swrap_small; [lia | exact H]. Qed.

Lemma to_int32_small (x : Z) : - 2 ^ 31 <= x < 2 ^ 31 -> to_int32 x = x.
Proof. intros H. apply swrap_small; [lia | exact H]. Qed.

Lemma to_int64_small (x : Z) : - 2 ^ 63 <= x < 2 ^ 63 -> to_int64 x = x.
Proof. intros H. apply swrap_small; [lia | exact H]. Qed.

Lemma to_uint32_small (x : Z) : 0 <= x < 2 ^ 32 -> to_uint32 x = x.
Proof. apply wrap_small. Qed.

Lemma to_uint64_small (x : Z) : 0 <= x < 2 ^ 64 -> to_uint64 x = x.
Proof. apply wrap_small. Qed.

(** ** Running the monad *)

Ltac exec :=
  unfold discard, when, LOG, RTC_HISTOGRAM_BOOLEAN, TimeSince, PostTask,
    PostDelayedTask, StartPeriodicLogging, StopPeriodicLogging, Sleep, set_clock;
  unfold bind, ret, gets, modify, emit, TimeMillis, abort;
  cbn [obj clock_ms dcheck_is_on trace].

(** ** RegisterAudioCallback *)

(** C6. [RegisterAudioCallback cb] returns the error code -1 exactly when
    playout or recording is active, and then leaves the object (so the
    registered transport) as it was; otherwise, null included, it stores
    [cb] as the transport, changes no other member and returns 0. *)
Theorem RegisterAudioCallback_error_iff_active
  (cb : option AudioTransport) (w : World) :
  exists r w',
    RegisterAudioCallback cb w = Ok r w' /\
    (r = -1 <-> playing_ (obj w) || recording_ (obj w) = true) /\
    (r = 0 <-> playing_ (obj w) || recording_ (obj w) = false) /\
    audio_transport_cb_ (obj w') =
      (if playing_ (obj w) || recording_ (obj w)
       then audio_transport_cb_ (obj w) else cb) /\
    obj w' =
      (if playing_ (obj w) || recording_ (obj w)
       then obj w else set_audio_transport_cb_ cb (obj w)).
Proof.
  unfold RegisterAudioCallback. exec.
  destruct (playing_ (obj w) || recording_ (obj w)); cbn.
  - eexists _, _. split; [reflexivity|]. cbn. repeat split; congruence.
  - eexists _, _. split; [reflexivity|]. cbn. repeat split; congruence.
Qed.

(** ** SetRecordingChannel *)

(** C9, as the code has it. [SetRecordingChannel] never reports success:
    with the "both channels" sentinel, and in a build without [RTC_DCHECK]
    with any channel, it returns -1 and changes nothing but the log; in a
    build with [RTC_DCHECK] every other channel ends the process. *)
Theorem SetRecordingChannel_always_fails (channel : ChannelType) (w : World) :
  (SetRecordingChannel channel w = Fatal /\
   dcheck_is_on w = true /\ channel <> kChannelBoth) \/
  (exists w',
     SetRecordingChannel channel w = Ok (-1) w' /\
     (dcheck_is_on w = false \/ channel = kChannelBoth) /\
     obj w' = obj w /\ clock_ms w' = clock_ms w /\
     trace w' =
       EvLog LogNotImplemented :: EvLog (LogSetRecordingChannel channel)
         :: trace w).
Proof.
  unfold SetRecordingChannel, RTC_DCHECK. exec.
  destruct (dcheck_is_on w) eqn:D; destruct channel; cbn;
    try (left; repeat split; congruence);
    right; eexists; (split; [reflexivity|]); cbn; auto.
Qed.

(** C9 as stated fails: the sentinel itself is answered with -1, not with
    success. *)
Lemma SetRecordingChannel_rejects_kChannelBoth :
  (exists w', SetRecordingChannel kChannelBoth (new_world true 0) = Ok (-1) w') /\
  ~ (exists w', SetRecordingChannel kChannelBoth (new_world true 0) = Ok 0 w').
Proof.
  split.
  - eexists. reflexivity.
  - intros [w' H]. cbv in H. discriminate H.
Qed.

(** ** StopRecording and the call-length threshold *)

(** What [StopRecording] does while recording is active: the histogram is
    fed, once, exactly when the elapsed time is above 10000 ms. *)
Lemma StopRecording_emits_iff_above_threshold (w : World) :
  recording_ (obj w) = true ->
  exists w',
    StopRecording w = Ok tt w' /\
    recording_ (obj w') = false /\
    only_silence_recorded_ (obj w') = only_silence_recorded_ (obj w) /\
    histogram_samples (trace w') =
      (if to_size_t (TimeDiff (clock_ms w) (rec_start_time_ (obj w)))
            >? 10000
       then [Z.b2z (only_silence_recorded_ (obj w))] else [])
      ++ histogram_samples (trace w).
Proof.
  intros R. unfold StopRecording. exec. rewrite R. cbn.
  change kMinValidCallTimeTimeInMilliseconds with 10000.
  destruct (playing_ (obj w)); cbn;
    destruct (to_size_t (TimeDiff (clock_ms w) (rec_start_time_ (obj w)))
                >? 10000); cbn;
    eexists; (split; [reflexivity|]); cbn; auto.
Qed.

(** C1, at the boundary. A session that lasted exactly 10 seconds (10000
    ms on the clock) ends without any histogram event, in either build:
    [StopRecording] compares with [>] where the constant is documented as
    the minimum time that qualifies a session as a call. *)
Theorem StopRecording_at_exactly_10_seconds_emits_nothing (dcheck : bool) :
  exists w',
    recording_session [] (kMinValidCallTimeTimeInSeconds * kNumMillisecsPerSec)
      (new_world dcheck 0) = Ok tt w' /\
    clock_ms w' - rec_start_time_ (obj w') = 10000 /\
    count is_histogram (trace w') = 0.
Proof.
  destruct dcheck; eexists; (split; [vm_compute; reflexivity|]);
    split; reflexivity.
Qed.

(** One millisecond more and the event is there. *)
Example StopRecording_after_10001_ms :
  exists w',
    recording_session [] 10001 (new_world true 0) = Ok tt w' /\
    histogram_samples (trace w') = [1].
Proof. eexists. split; [vm_compute; reflexivity | reflexivity]. Qed.

(** ** Buffers and samples *)

Lemma Buffer_size_nonneg (b : Buffer) : 0 <= Buffer_size b.
Proof. unfold Buffer_size. lia. Qed.

Lemma Buffer_SetData_ok (data : list byte) (size : Z) :
  0 <= size <= Buffer_size data ->
  Buffer_SetData data size = Some (firstn (Z.to_nat size) data) /\
  Buffer_size (firstn (Z.to_nat size) data) = size.
Proof.
  intros H. unfold Buffer_SetData, Buffer_size in *.
  destruct (Z.ltb_spec (Z.of_nat (length data)) size); [lia|].
  split; [reflexivity|]. rewrite length_firstn. lia.
Qed.

Lemma Buffer_SetSize_size (b : Buffer) (size : Z) :
  0 <= size -> Buffer_size (Buffer_SetSize b size) = size.
Proof.
  intros H. unfold Buffer_SetSize, Buffer_size.
  rewrite length_app, length_firstn, repeat_length. lia.
Qed.

Lemma Buffer_SetSize_same (b : Buffer) : Buffer_SetSize b (Buffer_size b) = b.
Proof.
  unfold Buffer_SetSize, Buffer_size. rewrite Nat2Z.id, firstn_all, Nat.sub_diag.
  cbn. apply app_nil_r.
Qed.

Lemma Buffer_write_size (b : Buffer) (written : list byte) :
  Buffer_size (Buffer_write b written) = Buffer_size b.
Proof.
  unfold Buffer_write, Buffer_size. f_equal.
  rewrite length_firstn, length_app, length_skipn. lia.
Qed.

Lemma samples_of_length (b : list byte) :
  Z.of_nat (length (samples_of b)) = Z.of_nat (length b) / 2.
Proof.
  assert (G : forall n (l : list byte), (length l < n)%nat ->
            Z.of_nat (length (samples_of l)) = Z.of_nat (length l) / 2).
  { induction n as [|n IH]; intros l Hl; [lia|].
    destruct l as [|lo [|hi r]]; try reflexivity.
    cbn [samples_of length]. rewrite !Nat2Z.inj_succ, IH by (cbn in Hl; lia).
    replace (Z.succ (Z.succ (Z.of_nat (length r))))
      with (Z.of_nat (length r) + 1 * 2) by lia.
    rewrite Z.div_add by lia. lia. }
  apply (G (S (length b))). lia.
Qed.

Lemma samples_of_firstn (n : nat) (b : list byte) :
  samples_of (firstn (2 * n) b) = firstn n (samples_of b).
Proof.
  revert b. induction n as [|n IH]; intros b; [reflexivity|].
  replace (2 * S n)%nat with (S (S (2 * n))) by lia.
  destruct b as [|lo [|hi r]]; try reflexivity.
  cbn [firstn samples_of]. f_equal. apply IH.
Qed.

Lemma read_int16_ok (b : Buffer) (n : Z) :
  0 <= n -> n * 2 <= Buffer_size b ->
  read_int16 b n = Some (firstn (Z.to_nat n) (samples_of b)).
Proof.
  intros Hn H. unfold read_int16, sizeof_int16_t.
  destruct (Z.ltb_spec (Buffer_size b) (n * 2)); [lia | reflexivity].
Qed.

Lemma MaxAbs_fold_nonneg (v : list Z) :
  0 <= fold_right (fun x m => Z.max (Z.abs x) m) 0 v.
Proof. induction v as [|x v IH]; cbn; lia. Qed.

Lemma WebRtcSpl_MaxAbsValueW16_range (v : list Z) :
  0 <= WebRtcSpl_MaxAbsValueW16 v <= 32767.
Proof.
  unfold WebRtcSpl_MaxAbsValueW16. pose proof (MaxAbs_fold_nonneg v). lia.
Qed.

Lemma WebRtcSpl_MaxAbsValueW16_zero (v : list Z) :
  (WebRtcSpl_MaxAbsValueW16 v >? 0) = negb (forallb (fun s => s =? 0) v).
Proof.
  unfold WebRtcSpl_MaxAbsValueW16.
  induction v as [|x v IH]; [reflexivity|].
  cbn [fold_right forallb].
  pose proof (MaxAbs_fold_nonneg v) as P.
  set (m := fold_right (fun x m => Z.max (Z.abs x) m) 0 v) in *.
  destruct (Z.eqb_spec x 0) as [->|Hx]; cbn [andb].
  - rewrite <- IH. f_equal. lia.
  - destruct (Z.gtb_spec (Z.min 32767 (Z.max (Z.abs x) m)) 0); [reflexivity|lia].
Qed.

(** ** SetRecordedBuffer *)

Lemma rec_call_ok_inv c data n :
  rec_call_ok c (data, n) = true ->
  0 <= c /\ 0 <= n /\ n * c * 2 < 2 ^ 64 /\ n * c * 2 <= Buffer_size data.
Proof.
  unfold rec_call_ok, size_bits. intros H.
  apply andb_prop in H as [H H4]. apply andb_prop in H as [H H3].
  apply andb_prop in H as [H1 H2].
  apply Z.leb_le in H1, H2, H4. apply Z.ltb_lt in H3. auto.
Qed.

Lemma SetRecordedBuffer_step data n w :
  let c := rec_channels_ (obj w) in
  let k := rec_stat_count_ (obj w) in
  let m := rec_level k c (data, n) in
  0 <= k < 50 ->
  rec_call_ok c (data, n) = true ->
  exists new,
    SetRecordedBuffer data n w =
      Ok 0 (mkWorld
        (set_task_queue_
           (TaskQueue_PostTask (TaskUpdateRecStats m n) (task_queue_ (obj w)))
           (set_only_silence_recorded_
              (only_silence_recorded_ (obj w) && (m =? 0))
              (set_rec_stat_count_ (next_count k)
                 (set_rec_buffer_ (firstn (Z.to_nat (n * c * 2)) data) (obj w)))))
        (clock_ms w) (dcheck_is_on w) (new ++ trace w)) /\
    filter is_peak new =
      (if k + 1 >=? 50 then [EvMaxAbsValueW16 (n * c) m] else []) /\
    Forall (fun e => is_peak e = true \/ exists l, e = EvLog l) new.
Proof.
  intros c k m Hk Hok.
  destruct (rec_call_ok_inv _ _ _ Hok) as (Hc & Hn & Hsz & Hdata).
  assert (Hnc : 0 <= n * c) by nia.
  unfold SetRecordedBuffer. fold c. 
  unfold bind at 1. unfold gets at 1. cbn [obj]. fold c.
  rewrite to_size_t_mul_l. unfold sizeof_int16_t.
  rewrite (to_size_t_small (n * c * 2)) by lia.
  rewrite (to_size_t_small (n * c)) by lia.
  destruct (Buffer_SetData_ok data (n * c * 2) ltac:(lia)) as [E1 E2].
  rewrite E1. unfold lift_option, RTC_DCHECK. exec. rewrite E2. fold k.
  assert (K : (k <? 50) = true) by (apply Z.ltb_lt; lia).
  assert (R : read_int16 (firstn (Z.to_nat (n * c * 2)) data) (n * c) =
              Some (delivered c (data, n))).
  { rewrite read_int16_ok by lia. unfold delivered. f_equal.
    replace (Z.to_nat (n * c * 2)) with (2 * Z.to_nat (n * c))%nat by lia.
    rewrite samples_of_firstn, firstn_firstn. f_equal. lia. }
  rewrite R. clear R E1.
  pose proof (WebRtcSpl_MaxAbsValueW16_zero (delivered c (data, n))) as Z0.
  pose proof (WebRtcSpl_MaxAbsValueW16_range (delivered c (data, n))) as Rg.
  subst m. unfold rec_level, next_count.
  set (peak := WebRtcSpl_MaxAbsValueW16 (delivered c (data, n))) in *.
  destruct (negb (Buffer_size (rec_buffer_ (obj w)) =? n * c * 2));
    cbn; fold k; rewrite K, andb_false_r, to_int16_small by lia;
    destruct (k + 1 >=? 50) eqn:E50; cbn.
  all: assert (P0 : (peak =? 0) = negb (peak >? 0))
    by (destruct (Z.eqb_spec peak 0), (Z.gtb_spec peak 0); cbn; lia).
  all: try rewrite P0; try destruct (peak >? 0); cbn.
  all: rewrite ?andb_true_r, ?andb_false_r.
  all: [> exists [EvMaxAbsValueW16 (n * c) peak; EvLog (LogRecBufferSize (n * c * 2))]
        | exists [EvMaxAbsValueW16 (n * c) peak; EvLog (LogRecBufferSize (n * c * 2))]
        | exists [EvLog (LogRecBufferSize (n * c * 2))]
        | exists [EvLog (LogRecBufferSize (n * c * 2))]
        | exists [EvMaxAbsValueW16 (n * c) peak]
        | exists [EvMaxAbsValueW16 (n * c) peak]
        | exists (@nil Event) | exists (@nil Event) ].
  all: split;
    [ | split;
        [ reflexivity
        | repeat first
            [ apply Forall_nil
            | apply Forall_cons;
              [ first [ left; reflexivity | right; eexists; reflexivity ] | ] ] ] ].
  all: cbn [app]; do 2 f_equal; subst peak k c; clear; destruct (obj w); reflexivity.
Qed.

Lemma next_count_range (k : Z) : 0 <= k < 50 -> 0 <= next_count k < 50.
Proof.
  intros H. unfold next_count. destruct (Z.geb_spec (k + 1) 50); lia.
Qed.

Lemma next_count_mod (k : Z) : 0 <= k < 50 -> next_count k = (k + 1) mod 50.
Proof.
  intros H. unfold next_count. destruct (Z.geb_spec (k + 1) 50).
  - replace (k + 1) with 50 by lia. reflexivity.
  - rewrite Z.mod_small; lia.
Qed.

Lemma sampled_length {A : Type} (l : list A) (k : Z) :
  0 <= k < 50 ->
  Z.of_nat (length (sampled k l)) = (k + Z.of_nat (length l)) / 50.
Proof.
  revert k. induction l as [|a l IH]; intros k H.
  - cbn. rewrite Z.add_0_r, Z.div_small; lia.
  - cbn [sampled length]. destruct (Z.geb_spec (k + 1) 50).
    + cbn [length]. rewrite !Nat2Z.inj_succ, IH by lia.
      replace (k + Z.succ (Z.of_nat (length l)))
        with (0 + Z.of_nat (length l) + 1 * 50) by lia.
      rewrite Z.div_add by lia. lia.
    + rewrite IH by lia. rewrite Nat2Z.inj_succ. f_equal. lia.
Qed.

Lemma SetRecordedBuffer_calls_spec (calls : list RecCall) : forall w : World,
  let c := rec_channels_ (obj w) in
  let k := rec_stat_count_ (obj w) in
  0 <= k < 50 ->
  forallb (rec_call_ok c) calls = true ->
  exists w' new,
    SetRecordedBuffer_calls calls w = Ok tt w' /\
    clock_ms w' = clock_ms w /\
    dcheck_is_on w' = dcheck_is_on w /\
    trace w' = new ++ trace w /\
    filter is_peak new = rev (map (peak_event c) (sampled k calls)) /\
    Forall (fun e => is_peak e = true \/ exists l, e = EvLog l) new /\
    rec_stat_count_ (obj w') = (k + Z.of_nat (length calls)) mod 50 /\
    only_silence_recorded_ (obj w') =
      only_silence_recorded_ (obj w) && forallb (silent c) (sampled k calls) /\
    task_queue_ (obj w') =
      mkTaskQueue (ready_tasks w ++ rec_updates k c calls) (delayed_tasks w) /\
    rec_channels_ (obj w') = c /\
    recording_ (obj w') = recording_ (obj w) /\
    playing_ (obj w') = playing_ (obj w) /\
    rec_start_time_ (obj w') = rec_start_time_ (obj w) /\
    audio_transport_cb_ (obj w') = audio_transport_cb_ (obj w).
Proof.
  induction calls as [|[data n] calls IH]; intros w c k Hk Hok.
  - exists w, []. cbn. rewrite Z.add_0_r, Z.mod_small, andb_true_r, app_nil_r by lia.
    repeat split; auto. unfold ready_tasks, delayed_tasks.
    destruct (task_queue_ (obj w)); reflexivity.
  - cbn [forallb] in Hok. apply andb_prop in Hok as [Hok1 Hok].
    destruct (SetRecordedBuffer_step data n w Hk Hok1) as (new1 & E1 & P1 & F1).
    fold c k in E1, P1.
    set (w1 := mkWorld _ _ _ _) in E1.
    destruct (IH w1) as (w' & new & E & Hclk & Hd & Htr & Hpk & Hlog & Hcnt & Hflag
                          & Hq & Hc & Hr & Hp & Hst & Hcb).
    { subst w1. cbn. apply next_count_range. exact Hk. }
    { subst w1. cbn. exact Hok. }
    replace (rec_channels_ (obj w1)) with c in * by (subst w1; cbn; reflexivity).
    replace (rec_stat_count_ (obj w1)) with (next_count k) in *
      by (subst w1; cbn; reflexivity).
    exists w', (new ++ new1).
    split.
    { cbn [SetRecordedBuffer_calls]. unfold bind at 1. rewrite E1. exact E. }
    split; [rewrite Hclk; reflexivity|].
    split; [rewrite Hd; reflexivity|].
    split; [rewrite Htr; subst w1; cbn; rewrite app_assoc; reflexivity|].
    split.
    { rewrite filter_app, Hpk, P1. cbn [sampled].
      unfold next_count, peak_event, rec_level.
      destruct (k + 1 >=? 50); cbn [map rev snd]; [reflexivity|].
      rewrite app_nil_r. reflexivity. }
    split; [apply Forall_app; split; assumption|].
    split.
    { rewrite Hcnt, next_count_mod, Zplus_mod_idemp_l by exact Hk.
      cbn [length]. rewrite Nat2Z.inj_succ. f_equal. lia. }
    split.
    { rewrite Hflag. subst w1. cbn [obj only_silence_recorded_ set_task_queue_
        set_only_silence_recorded_]. cbn [sampled]. unfold next_count, rec_level.
      destruct (k + 1 >=? 50); cbn [forallb].
      - unfold silent at 2.
        pose proof (WebRtcSpl_MaxAbsValueW16_zero (delivered c (data, n))) as Z0.
        pose proof (WebRtcSpl_MaxAbsValueW16_range (delivered c (data, n))) as Rg.
        set (peak := WebRtcSpl_MaxAbsValueW16 (delivered c (data, n))) in *.
        replace (peak =? 0) with (negb (peak >? 0))
          by (destruct (Z.eqb_spec peak 0), (Z.gtb_spec peak 0); cbn; lia).
        rewrite Z0, negb_involutive, andb_assoc. reflexivity.
      - rewrite andb_true_r. reflexivity. }
    split.
    { rewrite Hq. subst w1. unfold ready_tasks, delayed_tasks. cbn.
      rewrite <- app_assoc. reflexivity. }
    split; [exact Hc|].
    subst w1; cbn in *. repeat split; congruence.
Qed.

(** ** Invariants of monadic code *)

Section Preservation.

Variable I : World -> Prop.

Lemma preserves_ret {A : Type} (a : A) : preserves I (ret a).
Proof. intros w a' w' H E. inversion E; subst. exact H. Qed.

Lemma preserves_abort {A : Type} : preserves I (@abort A).
Proof. intros w a' w' H E. discriminate E. Qed.

Lemma preserves_bind {A B : Type} (c : M A) (k : A -> M B) :
  preserves I c -> (forall a, preserves I (k a)) -> preserves I (bind c k).
Proof.
  intros Hc Hk w b w' H E. unfold bind in E.
  destruct (c w) as [a w1|] eqn:E1; [|discriminate E].
  exact (Hk a w1 b w' (Hc w a w1 H E1) E).
Qed.

Lemma preserves_gets {A : Type} (f : AudioDeviceBuffer -> A) :
  preserves I (gets f).
Proof. intros w a w' H E. inversion E; subst. exact H. Qed.

Lemma preserves_TimeMillis : preserves I TimeMillis.
Proof. intros w a w' H E. inversion E; subst. exact H. Qed.

Lemma preserves_RTC_DCHECK (cond : bool) : preserves I (RTC_DCHECK cond).
Proof.
  intros w a w' H E. unfold RTC_DCHECK in E.
  destruct (dcheck_is_on w && negb cond); inversion E; subst. exact H.
Qed.

Lemma preserves_modify (g : AudioDeviceBuffer -> AudioDeviceBuffer) :
  (forall w, I w -> I (mkWorld (g (obj w)) (clock_ms w) (dcheck_is_on w) (trace w))) ->
  preserves I (modify g).
Proof. intros Hg w a w' H E. inversion E; subst. apply Hg. exact H. Qed.

Lemma preserves_emit (e : Event) :
  (forall w, I w -> I (mkWorld (obj w) (clock_ms w) (dcheck_is_on w) (e :: trace w))) ->
  preserves I (emit e).
Proof. intros He w a w' H E. inversion E; subst. apply He. exact H. Qed.

Lemma preserves_set_clock (t : Z) :
  (forall w, I w -> I (mkWorld (obj w) t (dcheck_is_on w) (trace w))) ->
  preserves I (set_clock t).
Proof. intros Ht w a w' H E. inversion E; subst. apply Ht. exact H. Qed.

End Preservation.

Ltac preserve_step :=
  lazymatch goal with
  | |- preserves _ (bind _ _) => apply preserves_bind; [ | intro ]
  | |- preserves _ (ret _) => apply preserves_ret
  | |- preserves _ abort => apply preserves_abort
  | |- preserves _ (gets _) => apply preserves_gets
  | |- preserves _ TimeMillis => apply preserves_TimeMillis
  | |- preserves _ (RTC_DCHECK _) => apply preserves_RTC_DCHECK
  | |- preserves _ (modify _) =>
      apply preserves_modify; intros ? ?; first [ assumption | exact eq_refl ]
  | |- preserves _ (emit _) => apply preserves_emit; intros ? ?; assumption
  | |- preserves _ (set_clock _) =>
      apply preserves_set_clock; intros ? ?; assumption
  | |- preserves _ (if ?b then _ else _) => destruct b
  | |- preserves _ (match ?x with _ => _ end) => destruct x
  end.

Ltac preserve :=
  repeat first
    [ preserve_step
    | progress
        (unfold discard, when, LOG, RTC_HISTOGRAM_BOOLEAN, TimeSince, PostTask,
           PostDelayedTask, StartPeriodicLogging, StopPeriodicLogging, Sleep,
           lift_option, div_size_t;
         cbv zeta) ].

Lemma flag_cleared_UpdateRecStats m n : preserves flag_cleared (UpdateRecStats m n).
Proof. unfold UpdateRecStats. preserve. Qed.

Lemma flag_cleared_LogStats s : preserves flag_cleared (LogStats s).
Proof. unfold LogStats. preserve. Qed.

Lemma flag_cleared_run_task t : preserves flag_cleared (run_task t).
Proof.
  destruct t; cbn [run_task];
    [ unfold ResetPlayStats | unfold ResetRecStats | unfold UpdateRecStats
    | unfold UpdatePlayStats | unfold LogStats ]; preserve.
Qed.

Lemma flag_cleared_run_tasks ts : preserves flag_cleared (run_tasks ts).
Proof.
  induction ts as [|t ts IH]; cbn [run_tasks]; [apply preserves_ret|].
  apply preserves_bind; [apply flag_cleared_run_task | intros _; exact IH].
Qed.

Lemma flag_cleared_ProcessReady : preserves flag_cleared ProcessReady.
Proof.
  unfold ProcessReady. apply preserves_bind; [apply preserves_gets|intro].
  apply preserves_bind; [apply preserves_modify; intros ? ?; assumption|intro].
  apply flag_cleared_run_tasks.
Qed.

Lemma flag_cleared_RunUntil fuel deadline :
  preserves flag_cleared (RunUntil fuel deadline).
Proof.
  induction fuel as [|fuel IH]; cbn [RunUntil];
    (apply preserves_bind; [apply flag_cleared_ProcessReady|intro]);
    preserve. exact IH.
Qed.

Lemma flag_cleared_SetRecordedBuffer data n :
  preserves flag_cleared (SetRecordedBuffer data n).
Proof. unfold SetRecordedBuffer. preserve. Qed.

Lemma flag_cleared_run_op op :
  is_StartRecording op = false -> preserves flag_cleared (run_op op).
Proof.
  destruct op; cbn [is_StartRecording run_op]; intros H; try discriminate H;
    try apply flag_cleared_ProcessReady;
    try (unfold discard; apply preserves_bind;
         [first [apply flag_cleared_RunUntil | apply flag_cleared_SetRecordedBuffer]
         | intro; apply preserves_ret]).
  all: unfold RegisterAudioCallback, StartPlayout, StopPlayout, StopRecording,
    SetRecordingSampleRate, SetPlayoutSampleRate, SetRecordingChannels,
    SetPlayoutChannels, SetRecordingChannel, RecordingChannel, SetCurrentMicLevel,
    SetTypingStatus, SetVQEData, StartInputFileRecording, StopInputFileRecording,
    StartOutputFileRecording, StopOutputFileRecording, DeliverRecordedData,
    RequestPlayoutData, GetPlayoutData; preserve.
Qed.

(** ** The tick counters stay below 50 *)

Ltac case_innermost E :=
  match type of E with
  | context [match ?x with _ => _ end] =>
      lazymatch x with
      | context [match _ with _ => _ end] => fail
      | _ => destruct x eqn:?; try discriminate E
      end
  end.

Ltac order_facts :=
  repeat match goal with
         | H : (_ >=? _) = true |- _ => apply Z.geb_le in H
         | H : (_ >=? _) = false |- _ => rewrite Z.geb_leb in H; apply Z.leb_gt in H
         | H : (_ <? _) = true |- _ => apply Z.ltb_lt in H
         | H : (_ <? _) = false |- _ => apply Z.ltb_ge in H
         end.

Lemma counters_ok_SetRecordedBuffer data n :
  preserves counters_ok (SetRecordedBuffer data n).
Proof.
  intros w a w' [Hr Hp] E.
  unfold SetRecordedBuffer, lift_option, RTC_DCHECK, when, LOG, PostTask in E.
  unfold bind, gets, modify, emit, ret, abort in E.
  repeat first
    [ progress (cbn in E)
    | rewrite (to_int16_small (rec_stat_count_ (obj w) + 1)) in E by lia
    | case_innermost E ].
  all: inversion E; subst; unfold counters_ok; cbn; order_facts; lia.
Qed.

Lemma counters_ok_RequestPlayoutData n :
  preserves counters_ok (RequestPlayoutData n).
Proof.
  intros w a w' [Hr Hp] E.
  unfold RequestPlayoutData, lift_option, RTC_DCHECK, when, LOG, PostTask in E.
  unfold bind, gets, modify, emit, ret, abort in E.
  repeat first
    [ progress (cbn -[Buffer_write Buffer_SetSize] in E)
    | rewrite (to_int16_small (play_stat_count_ (obj w) + 1)) in E by lia
    | case_innermost E ].
  all: inversion E; subst; unfold counters_ok; cbn; order_facts; lia.
Qed.

Lemma counters_ok_run_tasks ts : preserves counters_ok (run_tasks ts).
Proof.
  induction ts as [|t ts IH]; cbn [run_tasks]; [apply preserves_ret|].
  apply preserves_bind; [|intros _; exact IH].
  destruct t; cbn [run_task];
    [ unfold ResetPlayStats | unfold ResetRecStats | unfold UpdateRecStats
    | unfold UpdatePlayStats | unfold LogStats ]; preserve.
Qed.

Lemma counters_ok_ProcessReady : preserves counters_ok ProcessReady.
Proof.
  unfold ProcessReady. apply preserves_bind; [apply preserves_gets|intro].
  apply preserves_bind; [apply preserves_modify; intros ? ?; assumption|intro].
  apply counters_ok_run_tasks.
Qed.

Lemma counters_ok_RunUntil fuel deadline :
  preserves counters_ok (RunUntil fuel deadline).
Proof.
  induction fuel as [|fuel IH]; cbn [RunUntil];
    (apply preserves_bind; [apply counters_ok_ProcessReady|intro]);
    preserve. exact IH.
Qed.

Lemma counters_ok_run_op op : preserves counters_ok (run_op op).
Proof.
  destruct op; cbn [run_op];
    try apply counters_ok_ProcessReady;
    try (unfold discard; apply preserves_bind;
         [first [ apply counters_ok_RunUntil
                | apply counters_ok_SetRecordedBuffer
                | apply counters_ok_RequestPlayoutData ]
         | intro; apply preserves_ret]).
  all: unfold RegisterAudioCallback, StartPlayout, StartRecording, StopPlayout,
    StopRecording,
    SetRecordingSampleRate, SetPlayoutSampleRate, SetRecordingChannels,
    SetPlayoutChannels, SetRecordingChannel, RecordingChannel, SetCurrentMicLevel,
    SetTypingStatus, SetVQEData, StartInputFileRecording, StopInputFileRecording,
    StartOutputFileRecording, StopOutputFileRecording, DeliverRecordedData,
    GetPlayoutData; preserve.
Qed.

(** In every world the operations can lead to from a new object, the two
    tick counters are below 50, as [RTC_DCHECK_LT] expects. *)
Lemma counters_ok_reachable (ops : list Op) : forall w w',
  counters_ok w -> run_ops ops w = Ok tt w' -> counters_ok w'.
Proof.
  induction ops as [|op ops IH]; intros w w' H E.
  - inversion E; subst. exact H.
  - cbn [run_ops] in E. unfold bind in E.
    destruct (run_op op w) as [[] w1|] eqn:E1; [|discriminate E].
    exact (IH w1 w' (counters_ok_run_op op w tt w1 H E1) E).
Qed.

Lemma counters_ok_new_world dcheck now : counters_ok (new_world dcheck now).
Proof. split; cbn; lia. Qed.

(** ** The silence flag *)

Lemma StartRecording_spec (w : World) :
  recording_ (obj w) = false ->
  exists w',
    StartRecording w = Ok tt w' /\
    only_silence_recorded_ (obj w') = true /\
    recording_ (obj w') = true /\
    rec_start_time_ (obj w') = clock_ms w /\
    rec_stat_count_ (obj w') = rec_stat_count_ (obj w) /\
    rec_channels_ (obj w') = rec_channels_ (obj w) /\
    playing_ (obj w') = playing_ (obj w) /\
    audio_transport_cb_ (obj w') = audio_transport_cb_ (obj w) /\
    clock_ms w' = clock_ms w /\
    dcheck_is_on w' = dcheck_is_on w /\
    trace w' = EvLog (LogFunction "StartRecording") :: trace w /\
    task_queue_ (obj w') =
      mkTaskQueue
        (ready_tasks w ++ TaskResetRecStats ::
           (if playing_ (obj w) then [] else [TaskLogStats LOG_START]))
        (delayed_tasks w).
Proof.
  intros R. unfold StartRecording. exec. rewrite R. cbn.
  unfold ready_tasks, delayed_tasks, TaskQueue_PostTask.
  destruct (playing_ (obj w)) eqn:P; cbn; eexists; (split; [reflexivity|]);
    unfold TaskQueue_PostTask; cbn;
    rewrite <- ?app_assoc, ?P; repeat split; reflexivity.
Qed.

Lemma StopRecording_keeps_flag : preserves (fun w => only_silence_recorded_ (obj w) = true) StopRecording.
Proof. unfold StopRecording. preserve. Qed.

Lemma StopRecording_returns (w : World) : exists w', StopRecording w = Ok tt w'.
Proof.
  unfold StopRecording. exec.
  destruct (recording_ (obj w)); cbn; [|eexists; reflexivity].
  destruct (playing_ (obj w)); cbn;
  match goal with |- context [if ?b then _ else _] => destruct b end; cbn;
  eexists; reflexivity.
Qed.

Lemma sampled_incl {A : Type} (l : list A) : forall k x, In x (sampled k l) -> In x l.
Proof.
  induction l as [|a l IH]; intros k x H; [exact H|].
  cbn [sampled] in H. destruct (k + 1 >=? 50).
  - destruct H as [->|H]; [left; reflexivity | right; exact (IH _ _ H)].
  - right. exact (IH _ _ H).
Qed.

(** C2, as the code has it. A recording session started while recording is
    off, with the tick counter at [k] and well-formed deliveries: at stop the
    silence flag says whether every *measured* delivery (every 50th call,
    [sampled k calls]) was all-zero.  So it is still set when every
    delivered sample is zero, and cleared as soon as one measured delivery
    holds a non-zero sample.  And no operation but [StartRecording] sets a
    cleared flag again. *)
Theorem silence_flag_follows_measured_deliveries :
  (forall (w : World) (calls : list RecCall) (ms : Z),
     let c := rec_channels_ (obj w) in
     let k := rec_stat_count_ (obj w) in
     recording_ (obj w) = false ->
     0 <= k < 50 ->
     forallb (rec_call_ok c) calls = true ->
     exists w',
       recording_session calls ms w = Ok tt w' /\
       only_silence_recorded_ (obj w') = forallb (silent c) (sampled k calls) /\
       (forallb (silent c) calls = true ->
        only_silence_recorded_ (obj w') = true) /\
       (forall call, In call (sampled k calls) -> silent c call = false ->
        only_silence_recorded_ (obj w') = false)) /\
  (forall (op : Op) (w w' : World),
     is_StartRecording op = false ->
     run_op op w = Ok tt w' ->
     only_silence_recorded_ (obj w) = false ->
     only_silence_recorded_ (obj w') = false).
Proof.
  split.
  - intros w calls ms c k R Hk Hok.
    destruct (StartRecording_spec w R)
      as (w1 & E1 & F1 & R1 & _ & K1 & C1 & _ & _ & _ & _ & _ & _).
    destruct (SetRecordedBuffer_calls_spec calls w1) as (w2 & new & E2 & H2).
    { rewrite K1. exact Hk. }
    { rewrite C1. exact Hok. }
    destruct H2 as (_ & _ & _ & _ & _ & _ & F2 & _).
    rewrite F1, C1, K1 in F2. cbn [andb] in F2. fold c k in F2.
    assert (E3 : exists w3, Sleep ms w2 = Ok tt w3 /\ obj w3 = obj w2).
    { unfold Sleep. exec. eexists. split; reflexivity. }
    destruct E3 as (w3 & E3 & O3).
    destruct (StopRecording_returns w3) as (w4 & E4).
    assert (F4 : only_silence_recorded_ (obj w4) = only_silence_recorded_ (obj w3)).
    { destruct (only_silence_recorded_ (obj w3)) eqn:F3.
      - exact (StopRecording_keeps_flag w3 tt w4 F3 E4).
      - assert (G : preserves flag_cleared StopRecording)
          by (unfold StopRecording; preserve).
        exact (G w3 tt w4 F3 E4). }
    exists w4. split.
    { unfold recording_session. unfold bind. rewrite E1, E2, E3. exact E4. }
    rewrite F4, O3, F2. split; [reflexivity|]. split.
    + intros Hall. apply forallb_forall. intros x Hx.
      rewrite forallb_forall in Hall. apply Hall. exact (sampled_incl _ _ _ Hx).
    + intros call Hin Hs.
      destruct (forallb (silent c) (sampled k calls)) eqn:E; [|reflexivity].
      rewrite forallb_forall in E. rewrite (E call Hin) in Hs. discriminate Hs.
  - intros op w w' Hop E F.
    exact (flag_cleared_run_op op Hop w tt w' F E).
Qed.

(** ** RequestPlayoutData *)

Lemma play_call_ok_inv c n :
  play_call_ok c n = true -> 0 <= c /\ 0 <= n /\ n * c * 2 < 2 ^ 64.
Proof.
  unfold play_call_ok, size_bits. intros H.
  apply andb_prop in H as [H H3]. apply andb_prop in H as [H1 H2].
  apply Z.leb_le in H1, H2. apply Z.ltb_lt in H3. auto.
Qed.

Lemma play_size_in_bytes n c :
  0 <= c -> 0 <= n -> n * c * 2 < 2 ^ 64 ->
  to_size_t (n * to_size_t (c * sizeof_int16_t)) = n * c * 2.
Proof.
  intros Hc Hn H. rewrite to_size_t_mul_r. unfold sizeof_int16_t.
  rewrite to_size_t_small by nia. lia.
Qed.

Lemma cons_prefix {A : Type} (a : A) (l new tl : list A) :
  l = new ++ tl -> a :: l = (a :: new) ++ tl.
Proof. intros ->. reflexivity. Qed.

Ltac split_trace :=
  repeat (eapply cons_prefix); exact (eq_refl : _ = [] ++ _).

Lemma RequestPlayoutData_step n transport w :
  let c := play_channels_ (obj w) in
  let k := play_stat_count_ (obj w) in
  audio_transport_cb_ (obj w) = Some transport ->
  0 <= k < 50 ->
  play_call_ok c n = true ->
  exists w' new args m,
    RequestPlayoutData n w =
      Ok (to_int32 (to_size_t (pr_nSamplesOut (NeedMorePlayData transport args)))) w' /\
    pa_nSamples args = n /\
    clock_ms w' = clock_ms w /\
    dcheck_is_on w' = dcheck_is_on w /\
    trace w' = new ++ trace w /\
    filter is_peak new =
      (if k + 1 >=? 50 then [EvMaxAbsValueW16 (n * c) m] else []) /\
    task_queue_ (obj w') =
      mkTaskQueue
        (ready_tasks w ++
         [TaskUpdatePlayStats (if k + 1 >=? 50 then m else 0)
            (to_size_t (pr_nSamplesOut (NeedMorePlayData transport args)))])
        (delayed_tasks w) /\
    play_stat_count_ (obj w') = next_count k /\
    play_channels_ (obj w') = c /\
    audio_transport_cb_ (obj w') = Some transport /\
    Buffer_size (play_buffer_ (obj w')) = n * c * 2.
Proof.
  intros c k Hcb Hk Hok.
  destruct (play_call_ok_inv _ _ Hok) as (Hc & Hn & Hsz).
  assert (Hnc : 0 <= n * c) by nia.
  unfold RequestPlayoutData, RTC_DCHECK, lift_option.
  unfold bind at 1. unfold gets at 1. cbn [obj]. fold c.
  rewrite play_size_in_bytes by assumption.
  rewrite (to_size_t_small (n * c)) by lia.
  assert (K : (k <? 50) = true) by (apply Z.ltb_lt; lia).
  exec.
  assert (S1 : Buffer_size (Buffer_SetSize (play_buffer_ (obj w)) (n * c * 2))
               = n * c * 2) by (apply Buffer_SetSize_size; lia).
  destruct (Z.eqb_spec (Buffer_size (play_buffer_ (obj w))) (n * c * 2)) as [Es|Es];
    cbn -[Buffer_write Buffer_SetSize]; rewrite Hcb; cbn -[Buffer_write Buffer_SetSize];
    match goal with
    | |- context [NeedMorePlayData transport ?a] =>
        set (args := a); set (r := NeedMorePlayData transport args)
    end;
    destruct (negb (to_uint32 (pr_res r) =? 0)); cbn -[Buffer_write Buffer_SetSize];
    fold k; rewrite K, andb_false_r, to_int16_small by lia;
    unfold next_count; destruct (k + 1 >=? 50) eqn:E50; cbn -[Buffer_write Buffer_SetSize];
    rewrite ?read_int16_ok by (rewrite ?Buffer_write_size, ?S1; lia);
    cbn -[Buffer_write Buffer_SetSize].
  all: eexists _, _, args, _; (split; [reflexivity|]).
  all: cbn -[Z.mul Buffer_write Buffer_SetSize]; unfold ready_tasks, delayed_tasks, TaskQueue_PostTask.
  all: split; [reflexivity|]; split; [reflexivity|]; split; [reflexivity|].
  all: split; [split_trace|].
  all: cbn -[Z.mul Buffer_write Buffer_SetSize]; rewrite ?Buffer_write_size, ?S1.
  all: repeat split; try reflexivity; try assumption.
  Unshelve. all: exact 0.
Qed.

Lemma RequestPlayoutData_calls_spec (transport : AudioTransport) (calls : list Z) :
  forall w : World,
  let c := play_channels_ (obj w) in
  let k := play_stat_count_ (obj w) in
  audio_transport_cb_ (obj w) = Some transport ->
  0 <= k < 50 ->
  forallb (play_call_ok c) calls = true ->
  exists w',
    RequestPlayoutData_calls calls w = Ok tt w' /\
    count is_peak (trace w') =
      count is_peak (trace w) + (k + Z.of_nat (length calls)) / 50 /\
    count is_play_update (ready_tasks w') =
      count is_play_update (ready_tasks w) + Z.of_nat (length calls) /\
    play_stat_count_ (obj w') = (k + Z.of_nat (length calls)) mod 50.
Proof.
  induction calls as [|n calls IH]; intros w c k Hcb Hk Hok.
  - exists w. cbn. rewrite Z.add_0_r, Z.div_small, Z.mod_small by lia.
    repeat split; lia.
  - cbn [forallb] in Hok. apply andb_prop in Hok as [Hok1 Hok].
    destruct (RequestPlayoutData_step n transport w Hcb Hk Hok1)
      as (w1 & new & args & m & E1 & _ & _ & _ & T1 & P1 & Q1 & K1 & C1 & B1 & _).
    fold c k in P1, Q1, K1, C1.
    destruct (IH w1) as (w' & E & Hpk & Hup & Hcnt).
    { exact B1. }
    { rewrite K1. apply next_count_range. exact Hk. }
    { rewrite C1. exact Hok. }
    exists w'. split.
    { cbn [RequestPlayoutData_calls]. unfold bind at 1. rewrite E1. exact E. }
    rewrite K1 in Hpk, Hcnt. cbn [length]. rewrite Nat2Z.inj_succ.
    split; [|split].
    + rewrite Hpk, T1. unfold count. rewrite filter_app, length_app, P1.
      unfold next_count. destruct (Z.geb_spec (k + 1) 50); cbn [length].
      * replace (k + Z.succ (Z.of_nat (length calls)))
          with (0 + Z.of_nat (length calls) + 1 * 50) by lia.
        rewrite Z.div_add by lia. lia.
      * replace (k + Z.succ (Z.of_nat (length calls)))
          with (k + 1 + Z.of_nat (length calls)) by lia. lia.
    + rewrite Hup. unfold ready_tasks at 1. rewrite Q1. cbn [tq_ready].
      unfold count. rewrite filter_app, length_app. cbn. lia.
    + rewrite Hcnt, next_count_mod, Zplus_mod_idemp_l by exact Hk.
      f_equal. lia.
Qed.


(** ** Cadence of the level measurement *)

Lemma forallb_firstn {A : Type} (p : A -> bool) (i : nat) (l : list A) :
  forallb p l = true -> forallb p (firstn i l) = true.
Proof.
  revert i. induction l as [|a l IH]; intros i H; destruct i; cbn; auto.
  cbn in H. apply andb_prop in H as [Ha Hl]. rewrite Ha, IH by exact Hl.
  reflexivity.
Qed.

Lemma rec_updates_count (calls : list RecCall) : forall k c,
  count is_rec_update (rec_updates k c calls) = Z.of_nat (length calls).
Proof.
  unfold count. induction calls as [|call calls IH]; intros k c; [reflexivity|].
  cbn [rec_updates filter is_rec_update length]. rewrite !Nat2Z.inj_succ, IH.
  reflexivity.
Qed.

Lemma count_app {A : Type} (p : A -> bool) (l1 l2 : list A) :
  count p (l1 ++ l2) = count p l1 + count p l2.
Proof. unfold count. rewrite filter_app, length_app. lia. Qed.

Lemma measured_O (k : Z) : 0 <= k < 50 -> measured k 0 = (k + 1 >=? 50).
Proof.
  intros H. unfold measured. cbn [Z.of_nat]. rewrite Z.add_0_r.
  destruct (Z.geb_spec (k + 1) 50).
  - replace (k + 1) with 50 by lia. reflexivity.
  - rewrite Z.mod_small by lia. apply Z.eqb_neq. lia.
Qed.

Lemma measured_S (k : Z) (j : nat) :
  0 <= k < 50 -> measured k (S j) = measured (next_count k) j.
Proof.
  intros H. unfold measured. rewrite next_count_mod by exact H.
  rewrite Nat2Z.inj_succ.
  replace (k + Z.succ (Z.of_nat j) + 1) with (k + 1 + (Z.of_nat j + 1)) by lia.
  replace ((k + 1) mod 50 + Z.of_nat j + 1)
    with ((k + 1) mod 50 + (Z.of_nat j + 1)) by lia.
  rewrite Zplus_mod_idemp_l. reflexivity.
Qed.

Lemma rec_updates_nth_error (c : Z) (calls : list RecCall) :
  forall (k : Z) (j : nat) (call : RecCall),
  0 <= k < 50 ->
  nth_error calls j = Some call ->
  nth_error (rec_updates k c calls) j =
    Some (TaskUpdateRecStats
            (if measured k j
             then WebRtcSpl_MaxAbsValueW16 (delivered c call) else 0)
            (snd call)).
Proof.
  induction calls as [|a calls IH]; intros k j call Hk H; [destruct j; discriminate H|].
  destruct j as [|j]; cbn [nth_error rec_updates] in *.
  - inversion H; subst a. unfold rec_level. rewrite measured_O by exact Hk.
    reflexivity.
  - rewrite measured_S by exact Hk.
    apply IH; [apply next_count_range; exact Hk | exact H].
Qed.

Lemma rec_updates_length (c : Z) (calls : list RecCall) : forall k,
  length (rec_updates k c calls) = length calls.
Proof.
  induction calls as [|a calls IH]; intros k; [reflexivity|].
  cbn [rec_updates length]. rewrite IH. reflexivity.
Qed.

(** A run of [RequestPlayoutData] calls: the level and the frame count of
    each posted update, and the measurements made. *)
Lemma RequestPlayoutData_calls_updates (transport : AudioTransport) (calls : list Z) :
  forall w : World,
  let c := play_channels_ (obj w) in
  let k := play_stat_count_ (obj w) in
  audio_transport_cb_ (obj w) = Some transport ->
  0 <= k < 50 ->
  forallb (play_call_ok c) calls = true ->
  exists w' new levels outs,
    RequestPlayoutData_calls calls w = Ok tt w' /\
    trace w' = new ++ trace w /\
    length levels = length calls /\
    length outs = length calls /\
    ready_tasks w' =
      ready_tasks w ++
      map (fun p => TaskUpdatePlayStats (fst p) (snd p)) (combine levels outs) /\
    (forall j, measured k j = false -> nth j levels 0 = 0) /\
    filter is_peak new =
      rev (map (fun p => EvMaxAbsValueW16 (fst p * c) (snd p))
             (sampled k (combine calls levels))).
Proof.
  induction calls as [|n calls IH]; intros w c k Hcb Hk Hok.
  - exists w, [], [], []. cbn. rewrite app_nil_r.
    repeat split; try reflexivity. intros j _. destruct j; reflexivity.
  - cbn [forallb] in Hok. apply andb_prop in Hok as [Hok1 Hok].
    destruct (RequestPlayoutData_step n transport w Hcb Hk Hok1)
      as (w1 & new1 & args & m & E1 & _ & _ & _ & T1 & P1 & Q1 & K1 & C1 & B1 & _).
    fold c k in P1, Q1, K1, C1.
    destruct (IH w1) as (w' & new & levels & outs & E & T & Ll & Lo & Q & Z0 & P).
    { exact B1. }
    { rewrite K1. apply next_count_range. exact Hk. }
    { rewrite C1. exact Hok. }
    rewrite K1, C1 in *.
    exists w', (new ++ new1), ((if k + 1 >=? 50 then m else 0) :: levels),
      (to_size_t (pr_nSamplesOut (NeedMorePlayData transport args)) :: outs).
    split.
    { cbn [RequestPlayoutData_calls]. unfold bind at 1. rewrite E1. exact E. }
    split; [rewrite T, T1, app_assoc; reflexivity|].
    split; [cbn [length]; rewrite Ll; reflexivity|].
    split; [cbn [length]; rewrite Lo; reflexivity|].
    split.
    { rewrite Q. unfold ready_tasks at 1. rewrite Q1. cbn [tq_ready combine map fst snd].
      rewrite <- app_assoc. reflexivity. }
    split.
    { intros [|j] Hj.
      - rewrite measured_O in Hj by exact Hk. cbn [nth]. rewrite Hj. reflexivity.
      - rewrite measured_S in Hj by exact Hk. cbn [nth]. apply Z0. exact Hj. }
    rewrite filter_app, P, P1. cbn [combine sampled]. unfold next_count.
    destruct (k + 1 >=? 50); cbn [map rev fst snd].
    + reflexivity.
    + rewrite app_nil_r. reflexivity.
Qed.

(** C3, as the code has it. From a tick counter [k], after the first [i]
    calls of any run of well-formed [SetRecordedBuffer] calls the level has
    been measured exactly [(k + i) / 50] times, that is on the calls that
    bring the counter to 50 (the 50th, 100th, ... when [k = 0]), while a
    statistics update has been posted by every one of the [i] calls, in
    order behind the tasks that were ready: the update of the call at
    position [j] carries the call's frame count and the level measured on
    it when it is one of those calls ([measured k j]), and the level 0 when
    it is not.  Likewise for [RequestPlayoutData] with a registered
    transport: one update per call, whose level is the one measured on the
    call (the measurements, in order, are those of the [sampled] calls) and
    0 on every other call. *)
Theorem level_every_50th_call_update_every_call :
  (forall (w : World) (calls : list RecCall) (i : nat),
     let c := rec_channels_ (obj w) in
     let k := rec_stat_count_ (obj w) in
     0 <= k < 50 ->
     forallb (rec_call_ok c) calls = true ->
     (i <= length calls)%nat ->
     exists wi new updates,
       SetRecordedBuffer_calls (firstn i calls) w = Ok tt wi /\
       count is_peak (trace wi) =
         count is_peak (trace w) + (k + Z.of_nat i) / 50 /\
       count is_rec_update (ready_tasks wi) =
         count is_rec_update (ready_tasks w) + Z.of_nat i /\
       trace wi = new ++ trace w /\
       filter is_peak new =
         rev (map (peak_event c) (sampled k (firstn i calls))) /\
       ready_tasks wi = ready_tasks w ++ updates /\
       length updates = i /\
       (forall (j : nat) (call : RecCall),
          nth_error (firstn i calls) j = Some call ->
          nth_error updates j =
            Some (TaskUpdateRecStats
                    (if measured k j
                     then WebRtcSpl_MaxAbsValueW16 (delivered c call) else 0)
                    (snd call)))) /\
  (forall (w : World) (transport : AudioTransport) (calls : list Z) (i : nat),
     let c := play_channels_ (obj w) in
     let k := play_stat_count_ (obj w) in
     audio_transport_cb_ (obj w) = Some transport ->
     0 <= k < 50 ->
     forallb (play_call_ok c) calls = true ->
     (i <= length calls)%nat ->
     exists wi new levels outs,
       RequestPlayoutData_calls (firstn i calls) w = Ok tt wi /\
       count is_peak (trace wi) =
         count is_peak (trace w) + (k + Z.of_nat i) / 50 /\
       count is_play_update (ready_tasks wi) =
         count is_play_update (ready_tasks w) + Z.of_nat i /\
       trace wi = new ++ trace w /\
       filter is_peak new =
         rev (map (fun p => EvMaxAbsValueW16 (fst p * c) (snd p))
                (sampled k (combine (firstn i calls) levels))) /\
       ready_tasks wi =
         ready_tasks w ++
         map (fun p => TaskUpdatePlayStats (fst p) (snd p)) (combine levels outs) /\
       length levels = i /\
       length outs = i /\
       (forall j : nat, measured k j = false -> nth j levels 0 = 0)).
Proof.
  split.
  - intros w calls i c k Hk Hok Hi.
    destruct (SetRecordedBuffer_calls_spec (firstn i calls) w Hk
                (forallb_firstn _ i _ Hok))
      as (wi & new & E & _ & _ & T & P & _ & _ & _ & Q & _).
    fold c k in P, Q.
    assert (L : length (firstn i calls) = i)
      by (rewrite length_firstn; apply Nat.min_l; exact Hi).
    exists wi, new, (rec_updates k c (firstn i calls)).
    split; [exact E|]. split.
    { rewrite T, count_app. unfold count at 1. rewrite P.
      rewrite length_rev, length_map, sampled_length by exact Hk.
      rewrite L. lia. }
    split.
    { unfold ready_tasks at 1. rewrite Q. cbn [tq_ready].
      rewrite count_app, rec_updates_count, L. lia. }
    split; [exact T|]. split; [exact P|].
    split; [unfold ready_tasks at 1; rewrite Q; reflexivity|].
    split; [rewrite rec_updates_length; exact L|].
    intros j call Hj. apply rec_updates_nth_error; assumption.
  - intros w transport calls i c k Hcb Hk Hok Hi.
    assert (L : length (firstn i calls) = i)
      by (rewrite length_firstn; apply Nat.min_l; exact Hi).
    destruct (RequestPlayoutData_calls_spec transport (firstn i calls) w Hcb Hk
                (forallb_firstn _ i _ Hok)) as (wi & E & P & Q & _).
    destruct (RequestPlayoutData_calls_updates transport (firstn i calls) w Hcb Hk
                (forallb_firstn _ i _ Hok))
      as (wi' & new & levels & outs & E' & T & Ll & Lo & Qt & Z0 & Pk).
    rewrite E in E'. injection E' as <-.
    fold c k in Z0, Pk. rewrite L in *.
    exists wi, new, levels, outs. repeat split; assumption.
Qed.

Lemma level_every_50th_call_update_every_call_witness :
  (0 <= rec_stat_count_ (obj mono_world) < 50 /\
   forallb (rec_call_ok (rec_channels_ (obj mono_world)))
     (repeat ([x00; x00], 1) 100) = true /\
   (50 <= length (repeat ([x00; x00] : list byte, 1) 100))%nat) /\
  (exists wi new updates,
     SetRecordedBuffer_calls (firstn 50 (repeat ([x00; x00], 1) 100)) mono_world
       = Ok tt wi /\
     count is_peak (trace wi) = count is_peak (trace mono_world) + (0 + 50) / 50 /\
     count is_rec_update (ready_tasks wi) =
       count is_rec_update (ready_tasks mono_world) + 50 /\
     trace wi = new ++ trace mono_world /\
     filter is_peak new =
       rev (map (peak_event 1)
              (sampled 0 (firstn 50 (repeat ([x00; x00], 1) 100)))) /\
     ready_tasks wi = ready_tasks mono_world ++ updates /\
     length updates = 50%nat /\
     (forall (j : nat) (call : RecCall),
        nth_error (firstn 50 (repeat ([x00; x00], 1) 100)) j = Some call ->
        nth_error updates j =
          Some (TaskUpdateRecStats
                  (if measured 0 j
                   then WebRtcSpl_MaxAbsValueW16 (delivered 1 call) else 0)
                  (snd call)))) /\
  (audio_transport_cb_ (obj (playout_world true 2 (Some one_frame_transport)))
     = Some one_frame_transport /\
   0 <= play_stat_count_ (obj (playout_world true 2 (Some one_frame_transport)))
     < 50 /\
   forallb
     (play_call_ok
        (play_channels_ (obj (playout_world true 2 (Some one_frame_transport)))))
     (repeat 480 120) = true /\
   (100 <= length (repeat 480 120))%nat) /\
  (exists wi new levels outs,
     RequestPlayoutData_calls (firstn 100 (repeat 480 120))
       (playout_world true 2 (Some one_frame_transport)) = Ok tt wi /\
     count is_peak (trace wi) =
       count is_peak (trace (playout_world true 2 (Some one_frame_transport)))
         + (0 + 100) / 50 /\
     count is_play_update (ready_tasks wi) =
       count is_play_update
         (ready_tasks (playout_world true 2 (Some one_frame_transport))) + 100 /\
     trace wi = new ++ trace (playout_world true 2 (Some one_frame_transport)) /\
     filter is_peak new =
       rev (map (fun p => EvMaxAbsValueW16 (fst p * 2) (snd p))
              (sampled 0 (combine (firstn 100 (repeat 480 120)) levels))) /\
     ready_tasks wi =
       ready_tasks (playout_world true 2 (Some one_frame_transport)) ++
       map (fun p => TaskUpdatePlayStats (fst p) (snd p)) (combine levels outs) /\
     length levels = 100%nat /\
     length outs = 100%nat /\
     (forall j : nat, measured 0 j = false -> nth j levels 0 = 0)).
Proof.
  split; [|split; [|split]].
  - split; [vm_compute; split; [discriminate | reflexivity]|].
    split; [vm_compute; reflexivity | simpl; lia].
  - apply (proj1 level_every_50th_call_update_every_call mono_world
             (repeat ([x00; x00], 1) 100) 50%nat).
    + vm_compute. split; [discriminate | reflexivity].
    + vm_compute. reflexivity.
    + simpl. lia.
  - split; [reflexivity|].
    split; [vm_compute; split; [discriminate | reflexivity]|].
    split; [vm_compute; reflexivity | simpl; lia].
  - apply (proj2 level_every_50th_call_update_every_call
             (playout_world true 2 (Some one_frame_transport))
             one_frame_transport (repeat 480 120) 100%nat).
    + reflexivity.
    + vm_compute. split; [discriminate | reflexivity].
    + vm_compute. reflexivity.
    + simpl. lia.
Defined.

Lemma stats_update_posted_by_first_call :
  exists w1 w2,
    SetRecordedBuffer [x00; x00] 1 mono_world = Ok 0 w1 /\
    count is_peak (trace w1) = 0 /\
    ready_tasks w1 = [TaskUpdateRecStats 0 1] /\
    ProcessReady w1 = Ok tt w2 /\
    rec_callbacks_ (obj w2) = 1 /\
    rec_samples_ (obj w2) = 1.
Proof.
  eexists _, _. split; [vm_compute; reflexivity|].
  split; [reflexivity|]. split; [reflexivity|].
  split; [vm_compute; reflexivity|]. split; reflexivity.
Qed.

(** ** The periodic reporter *)

Lemma LogStats_LOG_START (w : World) :
  0 <= clock_ms w < 2 ^ 63 - 10000 ->
  exists w',
    LogStats LOG_START w = Ok tt w' /\
    trace w' = trace w /\
    clock_ms w' = clock_ms w /\
    dcheck_is_on w' = dcheck_is_on w /\
    ready_tasks w' = ready_tasks w /\
    delayed_tasks w' =
      insert_delayed (clock_ms w + 10000, TaskLogStats LOG_ACTIVE)
        (delayed_tasks w) /\
    num_stat_reports_ (obj w') = 1 /\
    last_timer_task_time_ (obj w') = clock_ms w.
Proof.
  intros H. unfold LogStats, RTC_DCHECK, TimeDiff. exec. cbn.
  change kTimerIntervalInMilliseconds with 10000.
  rewrite (to_int64_small (clock_ms w + 10000)) by lia.
  replace (clock_ms w + 10000 - clock_ms w) with 10000 by lia.
  change (to_int64 10000) with 10000. change (to_uint32 10000) with 10000.
  change (to_size_t (0 + 1)) with 1. cbn.
  rewrite andb_false_r.
  eexists. split; [reflexivity|]. cbn. repeat split; reflexivity.
Qed.

Lemma LogStats_LOG_ACTIVE (w : World) :
  0 <= last_timer_task_time_ (obj w) < clock_ms w ->
  clock_ms w < 2 ^ 63 - 10000 ->
  1 <= num_stat_reports_ (obj w) < 2 ^ 64 - 1 ->
  exists w' rec_line play_line,
    LogStats LOG_ACTIVE w = Ok tt w' /\
    trace w' = EvLog play_line :: EvLog rec_line :: trace w /\
    is_rec_report (EvLog rec_line) = true /\
    is_play_report (EvLog play_line) = true /\
    clock_ms w' = clock_ms w /\
    dcheck_is_on w' = dcheck_is_on w /\
    ready_tasks w' = ready_tasks w /\
    delayed_tasks w' =
      insert_delayed (clock_ms w + 10000, TaskLogStats LOG_ACTIVE)
        (delayed_tasks w) /\
    num_stat_reports_ (obj w') = num_stat_reports_ (obj w) + 1 /\
    last_timer_task_time_ (obj w') = clock_ms w.
Proof.
  intros Hl Hc Hr. unfold LogStats, RTC_DCHECK, TimeDiff. exec. cbn.
  change kTimerIntervalInMilliseconds with 10000.
  rewrite (to_int64_small (clock_ms w + 10000)) by lia.
  rewrite (to_int64_small (clock_ms w - _)) by lia.
  rewrite to_size_t_small by lia.
  destruct (Z.gtb_spec (num_stat_reports_ (obj w) + 1) 1); [|lia].
  destruct (Z.gtb_spec (clock_ms w - last_timer_task_time_ (obj w)) 0); [|lia].
  cbn.
  replace (clock_ms w + 10000 - clock_ms w) with 10000 by lia.
  change (to_int64 10000) with 10000. change (to_uint32 10000) with 10000.
  cbn. rewrite andb_false_r.
  eexists _, _, _. split; [reflexivity|]. cbn. repeat split; reflexivity.
Qed.

Lemma count_cons {A : Type} (p : A -> bool) (a : A) (l : list A) :
  count p (a :: l) = (if p a then 1 else 0) + count p l.
Proof.
  unfold count. cbn [filter]. destruct (p a); cbn [length]; lia.
Qed.

Lemma bind_gets {A B : Type} (f : AudioDeviceBuffer -> A) (k : A -> M B) w :
  bind (gets f) k w = k (f (obj w)) w.
Proof. reflexivity. Qed.

Lemma bind_modify {B : Type} g (k : unit -> M B) w :
  bind (modify g) k w =
  k tt (mkWorld (g (obj w)) (clock_ms w) (dcheck_is_on w) (trace w)).
Proof. reflexivity. Qed.

Lemma bind_TimeMillis {B : Type} (k : Z -> M B) w :
  bind TimeMillis k w = k (clock_ms w) w.
Proof. reflexivity. Qed.

Lemma bind_set_clock {B : Type} t (k : unit -> M B) w :
  bind (set_clock t) k w =
  k tt (mkWorld (obj w) t (dcheck_is_on w) (trace w)).
Proof. reflexivity. Qed.

Lemma bind_ret {A B : Type} (a : A) (k : A -> M B) w : bind (ret a) k w = k a w.
Proof. reflexivity. Qed.

Lemma bind_Ok {A B : Type} (c : M A) (k : A -> M B) w a w1 :
  c w = Ok a w1 -> bind c k w = k a w1.
Proof. intros E. unfold bind. rewrite E. reflexivity. Qed.

Lemma bind_bind {A B C : Type} (c : M A) (k1 : A -> M B) (k2 : B -> M C) w :
  bind (bind c k1) k2 w = bind c (fun a => bind (k1 a) k2) w.
Proof. unfold bind. destruct (c w); reflexivity. Qed.

(** The worker with one ready task. *)
Lemma ProcessReady_one (t : Task) (w : World) :
  ready_tasks w = [t] ->
  ProcessReady w =
  run_task t
    (mkWorld (set_task_queue_ (mkTaskQueue [] (delayed_tasks w)) (obj w))
       (clock_ms w) (dcheck_is_on w) (trace w)).
Proof.
  intros H. unfold ProcessReady. rewrite bind_gets. unfold ready_tasks in H.
  rewrite H, bind_modify. cbn [run_tasks]. unfold bind, delayed_tasks.
  match goal with |- match ?x with _ => _ end = _ => destruct x as [[] ?|] end;
    reflexivity.
Qed.

Lemma RunUntil_unfold (fuel : nat) (deadline : Z) :
  RunUntil fuel deadline =
  (ProcessReady ;;
   now <- TimeMillis ;;
   delayed <- gets (fun o => tq_delayed (task_queue_ o)) ;;
   match delayed with
   | (due, t) :: rest =>
     if due <=? deadline then
       match fuel with
       | O => ret false
       | S fuel' =>
         set_clock (Z.max now due) ;;
         modify (set_task_queue_ (mkTaskQueue [t] rest)) ;;
         RunUntil fuel' deadline
       end
     else set_clock (Z.max now deadline) ;; ret true
   | [] => set_clock (Z.max now deadline) ;; ret true
   end).
Proof. destruct fuel; reflexivity. Qed.

Lemma RunUntil_from_tick (fuel : nat) : forall (w : World) (deadline : Z),
  ready_tasks w = [TaskLogStats LOG_ACTIVE] ->
  delayed_tasks w = [] ->
  0 <= last_timer_task_time_ (obj w) < clock_ms w ->
  clock_ms w <= deadline ->
  deadline < 2 ^ 63 - 10000 ->
  1 <= num_stat_reports_ (obj w) ->
  num_stat_reports_ (obj w) + (deadline - clock_ms w) / 10000 < 2 ^ 64 - 1 ->
  (deadline - clock_ms w) / 10000 <= Z.of_nat fuel ->
  exists w',
    RunUntil fuel deadline w = Ok true w' /\
    count is_rec_report (trace w') =
      count is_rec_report (trace w) + 1 + (deadline - clock_ms w) / 10000 /\
    count is_play_report (trace w') =
      count is_play_report (trace w) + 1 + (deadline - clock_ms w) / 10000 /\
    clock_ms w' = deadline /\
    dcheck_is_on w' = dcheck_is_on w /\
    ready_tasks w' = [] /\
    exists due, delayed_tasks w' = [(due, TaskLogStats LOG_ACTIVE)] /\
                deadline < due.
Proof.
  induction fuel as [|fuel IH]; intros w deadline Hrdy Hdel Hlast Hdl Hmax Hr Hrmax Hfuel.
  all: pose proof (Z.div_pos (deadline - clock_ms w) 10000 ltac:(lia) ltac:(lia)) as Hq.
  all: destruct (LogStats_LOG_ACTIVE
         (mkWorld (set_task_queue_ (mkTaskQueue [] (delayed_tasks w)) (obj w))
            (clock_ms w) (dcheck_is_on w) (trace w)))
       as (w2 & rl & pl & E & T & Rl & Pl & C & D & Q & Dl & N & L);
       [ cbn; lia | cbn; lia | cbn; lia | ].
  all: cbn in T, C, D, Q, Dl, N, L; rewrite Hdel in Dl; cbn in Dl.
  all: destruct pl; try discriminate Pl; destruct rl; try discriminate Rl.
  all: assert (EP : ProcessReady w = Ok tt w2)
         by (rewrite (ProcessReady_one _ w Hrdy); exact E).
  all: rewrite RunUntil_unfold, (bind_Ok _ _ _ _ _ EP), bind_TimeMillis, bind_gets.
  all: unfold delayed_tasks in Dl; rewrite Dl; rewrite C.
  all: destruct (Z.leb_spec (clock_ms w + 10000) deadline) as [Hdue|Hdue].
  - (* no fuel, but a tick is due: excluded by the fuel bound *)
    exfalso.
    assert (1 <= (deadline - clock_ms w) / 10000)
      by (apply Z.div_le_lower_bound; lia).
    lia.
  - (* no tick due before the deadline *)
    rewrite (Z.div_small (deadline - clock_ms w) 10000) by lia.
    rewrite bind_set_clock. unfold ret. eexists. split; [reflexivity|].
    unfold ready_tasks, delayed_tasks in *.
    cbn [trace clock_ms obj dcheck_is_on]. rewrite T, !count_cons, Dl, Q. cbn [is_rec_report is_play_report].
    cbn [tq_ready task_queue_ set_task_queue_].
    repeat split; try lia; try assumption.
    exists (clock_ms w + 10000). split; [reflexivity|lia].
  - (* a tick is due *)
    assert (Hdiv : (deadline - clock_ms w) / 10000 =
                   1 + (deadline - (clock_ms w + 10000)) / 10000).
    { replace (deadline - clock_ms w)
        with (deadline - (clock_ms w + 10000) + 1 * 10000) by lia.
      rewrite Z.div_add by lia. lia. }
    rewrite bind_set_clock, bind_modify.
    replace (Z.max (clock_ms w) (clock_ms w + 10000)) with (clock_ms w + 10000)
      by lia.
    match goal with
    | |- context [RunUntil fuel deadline ?w0] =>
        destruct (IH w0 deadline) as (w' & E' & R' & P' & C' & D' & Q' & Dl')
    end.
    all: cbn [obj clock_ms trace dcheck_is_on].
    all: try (unfold ready_tasks, delayed_tasks; cbn; reflexivity).
    all: try (cbn; rewrite ?L, ?N; lia).
    exists w'. split; [exact E'|].
    cbn [trace clock_ms dcheck_is_on] in R', P', D'.
    rewrite T, !count_cons in *. cbn [is_rec_report is_play_report] in *.
    repeat split; try assumption; try lia. congruence.
  - rewrite (Z.div_small (deadline - clock_ms w) 10000) by lia.
    rewrite bind_set_clock. unfold ret. eexists. split; [reflexivity|].
    unfold ready_tasks, delayed_tasks in *.
    cbn [trace clock_ms obj dcheck_is_on]. rewrite T, !count_cons, Dl, Q. cbn [is_rec_report is_play_report].
    cbn [tq_ready task_queue_ set_task_queue_].
    repeat split; try lia; try assumption.
    exists (clock_ms w + 10000). split; [reflexivity|lia].
Qed.

(** C8, as the code has it. The reporter started on an idle queue and left
    running for [ms] milliseconds of simulated time (every timer due by then
    has fired) has logged exactly [ms / 10000] pairs of lines, one [REC] and
    one [PLAY]: one pair at each of the ticks at 10 s, 20 s, ... The only
    round without a log is the [LOG_START] round at time 0; for [T] seconds,
    a multiple of 10, that makes [T / 10] emissions. *)
Theorem periodic_reporter_emissions (w : World) (ms : Z) (fuel : nat) :
  ready_tasks w = [] ->
  delayed_tasks w = [] ->
  0 <= clock_ms w ->
  0 <= ms ->
  clock_ms w + ms < 2 ^ 63 - 10000 ->
  ms / 10000 <= Z.of_nat fuel ->
  exists w',
    (StartPeriodicLogging ;; RunFor fuel ms) w = Ok true w' /\
    count is_rec_report (trace w') = count is_rec_report (trace w) + ms / 10000 /\
    count is_play_report (trace w') = count is_play_report (trace w) + ms / 10000 /\
    clock_ms w' = clock_ms w + ms.
Proof.
  intros Hrdy Hdel Hc Hms Hmax Hfuel.
  pose proof (Z.div_pos ms 10000 ltac:(lia) ltac:(lia)) as Hq.
  unfold StartPeriodicLogging, PostTask, RunFor.
  rewrite bind_modify, bind_TimeMillis. cbn [clock_ms].
  set (w0 := mkWorld _ _ _ _).
  assert (R0 : ready_tasks w0 = [TaskLogStats LOG_START]).
  { subst w0. unfold ready_tasks in *. cbn. rewrite Hrdy. reflexivity. }
  destruct (LogStats_LOG_START
         (mkWorld (set_task_queue_ (mkTaskQueue [] (delayed_tasks w0)) (obj w0))
            (clock_ms w0) (dcheck_is_on w0) (trace w0)))
    as (w1 & E & T & C & D & Q & Dl & N & L); [subst w0; cbn; lia|].
  assert (EP : ProcessReady w0 = Ok tt w1)
    by (rewrite (ProcessReady_one _ w0 R0); exact E).
  subst w0. cbn in T, C, D, Q, Dl, N, L. unfold delayed_tasks in Hdel.
  rewrite Hdel in Dl. cbn in Dl.
  rewrite RunUntil_unfold, (bind_Ok _ _ _ _ _ EP), bind_TimeMillis, bind_gets.
  unfold delayed_tasks in Dl. rewrite Dl, C.
  destruct (Z.leb_spec (clock_ms w + 10000) (clock_ms w + ms)) as [Hdue|Hdue].
  - assert (Hdiv : ms / 10000 = 1 + (ms - 10000) / 10000).
    { replace ms with (ms - 10000 + 1 * 10000) at 1 by lia.
      rewrite Z.div_add by lia. lia. }
    destruct fuel as [|fuel]; [exfalso; pose proof (Z.div_pos (ms - 10000) 10000); lia|].
    assert (Hb : (ms - 10000) / 10000 < 2 ^ 63)
      by (apply Z.div_lt_upper_bound; lia).
    rewrite bind_set_clock, bind_modify.
    replace (Z.max (clock_ms w) (clock_ms w + 10000)) with (clock_ms w + 10000)
      by lia.
    match goal with
    | |- context [RunUntil fuel ?d ?w0] =>
        destruct (RunUntil_from_tick fuel w0 d) as (w' & E' & R' & P' & C' & _)
    end.
    all: cbn [obj clock_ms trace dcheck_is_on].
    all: try (unfold ready_tasks, delayed_tasks; cbn; reflexivity).
    all: replace (clock_ms w + ms - (clock_ms w + 10000)) with (ms - 10000) by lia.
    all: try (cbn; rewrite ?L, ?N; lia).
    exists w'. split; [exact E'|]. cbn [trace clock_ms] in R', P'. rewrite T in *.
    replace (clock_ms w + ms - (clock_ms w + 10000)) with (ms - 10000)
      in R', P' by lia.
    repeat split; try assumption; lia.
  - rewrite (Z.div_small ms 10000) by lia.
    rewrite bind_set_clock. unfold ret. eexists. split; [reflexivity|].
    cbn [trace clock_ms]. rewrite T. repeat split; lia.
Qed.

Lemma periodic_reporter_emissions_witness :
  (ready_tasks (new_world true 0) = [] /\
   delayed_tasks (new_world true 0) = [] /\
   0 <= clock_ms (new_world true 0) /\
   0 <= 30000 /\
   clock_ms (new_world true 0) + 30000 < 2 ^ 63 - 10000 /\
   30000 / 10000 <= Z.of_nat 3) /\
  exists w',
    (StartPeriodicLogging ;; RunFor 3 30000) (new_world true 0) = Ok true w' /\
    count is_rec_report (trace w') =
      count is_rec_report (trace (new_world true 0)) + 30000 / 10000 /\
    count is_play_report (trace w') =
      count is_play_report (trace (new_world true 0)) + 30000 / 10000 /\
    clock_ms w' = clock_ms (new_world true 0) + 30000.
Proof.
  split.
  - repeat split; try reflexivity; try (simpl; lia); vm_compute; discriminate.
  - apply (periodic_reporter_emissions (new_world true 0) 30000 3).
    + reflexivity.
    + reflexivity.
    + simpl. lia.
    + lia.
    + simpl. lia.
    + vm_compute. discriminate.
Defined.

(** C8 as stated fails: after 20 seconds there are two emissions, not
    [20 / 10 - 1 = 1], the first of them at the end of the first 10-second
    interval. *)
Lemma periodic_reporter_two_emissions_in_20_seconds :
  exists w10 w20,
    (StartPeriodicLogging ;; RunFor 1 (10 * kNumMillisecsPerSec))
      (new_world true 0) = Ok true w10 /\
    count is_rec_report (trace w10) = 1 /\
    (StartPeriodicLogging ;; RunFor 2 (20 * kNumMillisecsPerSec))
      (new_world true 0) = Ok true w20 /\
    count is_rec_report (trace w20) = 2 /\
    count is_rec_report (trace w20) <> 20 / 10 - 1.
Proof.
  eexists _, _. split; [vm_compute; reflexivity|]. split; [reflexivity|].
  split; [vm_compute; reflexivity|]. split; [reflexivity|].
  vm_compute. discriminate.
Qed.

(** ** RequestPlayoutData without a transport *)

Lemma set_play_buffer__same (o : AudioDeviceBuffer) :
  set_play_buffer_ (play_buffer_ o) o = o.
Proof. destruct o; reflexivity. Qed.

(** C7, as the code has it. Without a registered transport
    [RequestPlayoutData n] returns 0 frames and does not fail; the playout
    buffer then has [n * channels * 2] bytes as the [size_t] the code
    computes, that is the product modulo [2 ^ 64], and so the plain product
    whenever that is below [2 ^ 64]; no other member changes, nothing is
    posted and the clock is not read: the only other trace of the call are
    lines in the log. *)
Theorem RequestPlayoutData_without_transport (n : Z) (w : World) :
  audio_transport_cb_ (obj w) = None ->
  exists w' lines,
    RequestPlayoutData n w = Ok 0 w' /\
    Buffer_size (play_buffer_ (obj w')) =
      to_size_t (n * play_channels_ (obj w) * sizeof_int16_t) /\
    (0 <= n * play_channels_ (obj w) * 2 < 2 ^ 64 ->
     Buffer_size (play_buffer_ (obj w')) = n * play_channels_ (obj w) * 2) /\
    obj w' =
      set_play_buffer_
        (Buffer_SetSize (play_buffer_ (obj w))
           (to_size_t (n * play_channels_ (obj w) * sizeof_int16_t)))
        (obj w) /\
    clock_ms w' = clock_ms w /\
    dcheck_is_on w' = dcheck_is_on w /\
    trace w' = map EvLog lines ++ trace w.
Proof.
  intros Hcb. unfold RequestPlayoutData.
  rewrite bind_gets, to_size_t_mul_r, Z.mul_assoc.
  set (size := to_size_t (n * play_channels_ (obj w) * sizeof_int16_t)).
  assert (Hsize : 0 <= size) by (apply to_size_t_range).
  rewrite bind_gets. unfold when.
  destruct (Z.eqb_spec (Buffer_size (play_buffer_ (obj w))) size) as [Es|Es];
    cbn [negb].
  - rewrite bind_ret, bind_gets, Hcb. unfold LOG, emit, bind, ret.
    exists (mkWorld (obj w) (clock_ms w) (dcheck_is_on w)
              (EvLog LogInvalidTransport :: trace w)), [LogInvalidTransport].
    cbn [obj clock_ms dcheck_is_on trace map app].
    rewrite <- Es, Buffer_SetSize_same, set_play_buffer__same.
    repeat split; try reflexivity.
    intros Hfit. rewrite Es. subst size. unfold sizeof_int16_t.
    apply to_size_t_small. exact Hfit.
  - rewrite bind_bind, bind_modify, bind_bind, bind_gets.
    unfold LOG, emit, bind, ret, gets. cbn. rewrite Hcb.
    eexists _, [LogInvalidTransport; LogPlayBufferSize _].
    split; [reflexivity|]. cbn.
    rewrite Buffer_SetSize_size by exact Hsize.
    repeat split; try reflexivity.
    intros Hfit. subst size. unfold sizeof_int16_t.
    apply to_size_t_small. exact Hfit.
Qed.

Lemma RequestPlayoutData_without_transport_witness :
  audio_transport_cb_ (obj (playout_world true 2 None)) = None /\
  exists w' lines,
    RequestPlayoutData 480 (playout_world true 2 None) = Ok 0 w' /\
    Buffer_size (play_buffer_ (obj w')) = 1920 /\
    trace w' = map EvLog lines ++ trace (playout_world true 2 None).
Proof.
  split; [reflexivity|].
  destruct (RequestPlayoutData_without_transport 480 (playout_world true 2 None)
              eq_refl)
    as (w' & lines & E & S & _ & _ & _ & _ & T).
  exists w', lines. repeat split; assumption.
Defined.

(** C7 as stated fails where the byte count leaves [size_t]: a request for
    [2 ^ 63] mono frames leaves the buffer empty. *)
Lemma RequestPlayoutData_size_wraps :
  exists w',
    RequestPlayoutData (2 ^ 63) (playout_world true 1 None) = Ok 0 w' /\
    play_channels_ (obj (playout_world true 1 None)) = 1 /\
    Buffer_size (play_buffer_ (obj w')) = 0 /\
    Buffer_size (play_buffer_ (obj w')) <> 2 ^ 63 * 1 * 2.
Proof.
  eexists. split; [vm_compute; reflexivity|]. split; [reflexivity|].
  split; [reflexivity | vm_compute; discriminate].
Qed.

(** ** From SetRecordedBuffer to the transport *)

Lemma recorded_calls_app (l1 l2 : list Event) :
  recorded_calls (l1 ++ l2) = recorded_calls l1 ++ recorded_calls l2.
Proof. unfold recorded_calls. apply flat_map_app. Qed.

Lemma recorded_calls_peaks_and_logs (new : list Event) :
  Forall (fun e => is_peak e = true \/ exists l, e = EvLog l) new ->
  recorded_calls new = [].
Proof.
  induction 1 as [|e new He _ IH]; [reflexivity|].
  unfold recorded_calls in *. cbn [flat_map].
  rewrite IH. destruct He as [He|[l ->]]; [|reflexivity].
  destruct e; try discriminate He; reflexivity.
Qed.

(** What [DeliverRecordedData] hands to a registered transport. *)
Lemma DeliverRecordedData_with_transport (transport : AudioTransport) (w : World) :
  audio_transport_cb_ (obj w) = Some transport ->
  to_size_t (rec_channels_ (obj w) * sizeof_int16_t) <> 0 ->
  exists w' args,
    DeliverRecordedData w = Ok 0 w' /\
    recorded_calls (trace w') = args :: recorded_calls (trace w) /\
    ra_audioSamples args = rec_buffer_ (obj w) /\
    ra_nSamples args =
      Buffer_size (rec_buffer_ (obj w))
        / to_size_t (rec_channels_ (obj w) * sizeof_int16_t) /\
    ra_nBytesPerSample args = to_size_t (rec_channels_ (obj w) * sizeof_int16_t) /\
    ra_nChannels args = rec_channels_ (obj w).
Proof.
  intros Hcb Hbps. unfold DeliverRecordedData, div_size_t.
  rewrite bind_gets, Hcb. rewrite !bind_gets.
  destruct (Z.eqb_spec (to_size_t (rec_channels_ (obj w) * sizeof_int16_t)) 0)
    as [E|_]; [contradiction|].
  rewrite bind_ret, !bind_gets. unfold LOG, emit, bind, ret, modify.
  match goal with
  | |- context [RecordedDataIsAvailable transport ?a] =>
      destruct (RecordedDataIsAvailable transport a) as [res new_mic_level]
  end.
  destruct (negb (to_int32 res =? -1)); cbn;
    eexists _, _; (split; [reflexivity|]); cbn; repeat split; reflexivity.
Qed.

(** C5. With a registered transport, [n > 0] frames and [c > 0] channels
    held by the caller's buffer [data] (its [n * c * 2] bytes are there to
    be read, a byte count that is a [size_t] as that of every buffer in
    memory), [SetRecordedBuffer data n] followed by [DeliverRecordedData]
    invokes [RecordedDataIsAvailable] once, with the [n * c * 2] bytes
    copied and a sample count of exactly [n].  (The tick counter is below
    50 in every world the operations lead to from a new object:
    [counters_ok_reachable].) *)
Theorem recorded_sample_count_reaches_transport
  (w : World) (transport : AudioTransport) (data : list byte) (n : Z) :
  let c := rec_channels_ (obj w) in
  audio_transport_cb_ (obj w) = Some transport ->
  0 <= rec_stat_count_ (obj w) < 50 ->
  0 < n ->
  0 < c ->
  n * c * 2 < 2 ^ 64 ->
  n * c * 2 <= Buffer_size data ->
  exists w1 w2 args,
    SetRecordedBuffer data n w = Ok 0 w1 /\
    DeliverRecordedData w1 = Ok 0 w2 /\
    recorded_calls (trace w2) = args :: recorded_calls (trace w) /\
    ra_nSamples args = n /\
    ra_nChannels args = c /\
    ra_nBytesPerSample args = c * 2 /\
    ra_audioSamples args = firstn (Z.to_nat (n * c * 2)) data.
Proof.
  intros c Hcb Hk Hn Hc Hsz Hdata.
  assert (Hok : rec_call_ok c (data, n) = true).
  { unfold rec_call_ok, size_bits.
    rewrite !andb_true_iff, !Z.leb_le, Z.ltb_lt. lia. }
  destruct (SetRecordedBuffer_step data n w Hk Hok) as (new & E1 & _ & F1).
  fold c in E1. set (w1 := mkWorld _ _ _ _) in E1.
  assert (Hbps : to_size_t (c * sizeof_int16_t) = c * 2).
  { unfold sizeof_int16_t. apply to_size_t_small. nia. }
  destruct (DeliverRecordedData_with_transport transport w1)
    as (w2 & args & E2 & R2 & A1 & A2 & A3 & A4).
  { subst w1. cbn. exact Hcb. }
  { subst w1. cbn. fold c. rewrite Hbps. lia. }
  exists w1, w2, args. split; [exact E1|]. split; [exact E2|].
  subst w1. cbn in R2, A1, A2, A3, A4. fold c in A2, A3, A4.
  rewrite Hbps in A2, A3.
  split.
  { rewrite R2, recorded_calls_app, (recorded_calls_peaks_and_logs _ F1).
    reflexivity. }
  split.
  { rewrite A2. unfold Buffer_size. rewrite length_firstn.
    unfold Buffer_size in Hdata.
    replace (Z.of_nat (Nat.min (Z.to_nat (n * c * 2)) (length data)))
      with (n * (c * 2)) by lia.
    apply Z.div_mul. lia. }
  auto.
Qed.

Lemma recorded_sample_count_reaches_transport_witness :
  (audio_transport_cb_ (obj mono_transport_world) = Some idle_transport /\
   0 <= rec_stat_count_ (obj mono_transport_world) < 50 /\
   0 < 160 /\
   0 < rec_channels_ (obj mono_transport_world) /\
   160 * rec_channels_ (obj mono_transport_world) * 2 < 2 ^ 64 /\
   160 * rec_channels_ (obj mono_transport_world) * 2
     <= Buffer_size (repeat x00 320)) /\
  exists w1 w2 args,
    SetRecordedBuffer (repeat x00 320) 160 mono_transport_world = Ok 0 w1 /\
    DeliverRecordedData w1 = Ok 0 w2 /\
    recorded_calls (trace w2) =
      args :: recorded_calls (trace mono_transport_world) /\
    ra_nSamples args = 160.
Proof.
  split.
  - repeat split; try reflexivity; vm_compute; discriminate.
  - destruct (recorded_sample_count_reaches_transport mono_transport_world
                idle_transport (repeat x00 320) 160)
      as (w1 & w2 & args & E1 & E2 & R & N & _).
    + reflexivity.
    + vm_compute. split; [discriminate | reflexivity].
    + lia.
    + vm_compute. reflexivity.
    + vm_compute. reflexivity.
    + vm_compute. discriminate.
    + exists w1, w2, args. repeat split; assumption.
Defined.

(** ** GetPlayoutData *)

Lemma GetPlayoutData_whole_buffer (w : World) :
  0 < Buffer_size (play_buffer_ (obj w)) ->
  to_size_t (play_channels_ (obj w) * sizeof_int16_t) <> 0 ->
  GetPlayoutData w =
    Ok (play_buffer_ (obj w),
        to_int32 (Buffer_size (play_buffer_ (obj w))
                    / to_size_t (play_channels_ (obj w) * sizeof_int16_t))) w.
Proof.
  intros Hs Hb. unfold GetPlayoutData, RTC_DCHECK, div_size_t.
  rewrite bind_gets. unfold bind at 1.
  destruct (Z.gtb_spec (Buffer_size (play_buffer_ (obj w))) 0); [|lia].
  cbn [negb]. rewrite andb_false_r, bind_gets.
  destruct (Z.eqb_spec (to_size_t (play_channels_ (obj w) * sizeof_int16_t)) 0);
    [contradiction|].
  reflexivity.
Qed.

Lemma RequestPlayoutData_None_size (n : Z) (w : World) :
  audio_transport_cb_ (obj w) = None ->
  exists w',
    RequestPlayoutData n w = Ok 0 w' /\
    Buffer_size (play_buffer_ (obj w')) =
      to_size_t (n * play_channels_ (obj w) * sizeof_int16_t) /\
    play_channels_ (obj w') = play_channels_ (obj w).
Proof.
  intros Hcb. unfold RequestPlayoutData.
  rewrite bind_gets, to_size_t_mul_r, Z.mul_assoc.
  set (size := to_size_t (n * play_channels_ (obj w) * sizeof_int16_t)).
  assert (Hsize : 0 <= size) by (apply to_size_t_range).
  rewrite bind_gets. unfold when.
  destruct (Z.eqb_spec (Buffer_size (play_buffer_ (obj w))) size) as [Es|Es];
    cbn [negb].
  - rewrite bind_ret, bind_gets, Hcb. unfold LOG, emit, bind, ret.
    eexists. split; [reflexivity|]. cbn. auto.
  - rewrite bind_bind, bind_modify, bind_bind, bind_gets.
    unfold LOG, emit, bind, ret, gets. cbn. rewrite Hcb.
    eexists. split; [reflexivity|]. cbn.
    rewrite Buffer_SetSize_size by exact Hsize. auto.
Qed.

(** [GetPlayoutData] after [RequestPlayoutData n]: the whole buffer, and
    [n] as an [int32_t], whatever the transport produced. *)
Lemma GetPlayoutData_after_RequestPlayoutData (w : World) (n : Z) :
  let c := play_channels_ (obj w) in
  0 <= play_stat_count_ (obj w) < 50 ->
  0 < n ->
  0 < c ->
  n * c * 2 < 2 ^ 64 ->
  exists r w1,
    RequestPlayoutData n w = Ok r w1 /\
    match audio_transport_cb_ (obj w) with
    | None => r = 0
    | Some transport =>
      exists args,
        pa_nSamples args = n /\
        r = to_int32 (to_size_t (pr_nSamplesOut (NeedMorePlayData transport args)))
    end /\
    Buffer_size (play_buffer_ (obj w1)) = n * c * 2 /\
    GetPlayoutData w1 = Ok (play_buffer_ (obj w1), to_int32 n) w1.
Proof.
  intros c Hk Hn Hc Hsz.
  assert (Hbps : to_size_t (c * sizeof_int16_t) = c * 2)
    by (unfold sizeof_int16_t; apply to_size_t_small; nia).
  assert (Hdiv : n * c * 2 / (c * 2) = n)
    by (rewrite <- Z.mul_assoc; apply Z.div_mul; lia).
  destruct (audio_transport_cb_ (obj w)) as [transport|] eqn:Hcb.
  - assert (Hok : play_call_ok c n = true).
    { unfold play_call_ok, size_bits.
      rewrite !andb_true_iff, !Z.leb_le, Z.ltb_lt. lia. }
    destruct (RequestPlayoutData_step n transport w Hcb Hk Hok)
      as (w1 & new & args & m & E & A & _ & _ & _ & _ & _ & _ & C1 & _ & S1).
    fold c in C1, S1.
    eexists _, w1. split; [exact E|]. split; [exists args; auto|].
    split; [exact S1|].
    rewrite GetPlayoutData_whole_buffer; rewrite ?C1, ?S1, ?Hbps, ?Hdiv;
      try reflexivity; nia.
  - destruct (RequestPlayoutData_None_size n w Hcb) as (w1 & E & S1 & C1).
    fold c in S1, C1. unfold sizeof_int16_t in S1.
    rewrite to_size_t_small in S1 by nia.
    exists 0, w1. split; [exact E|]. split; [reflexivity|].
    split; [exact S1|].
    rewrite GetPlayoutData_whole_buffer; rewrite ?C1, ?S1, ?Hbps, ?Hdiv;
      try reflexivity; nia.
Qed.

(** C10, as the code has it. With [channels > 0], a byte count
    [n * channels * 2] that is a [size_t] and [0 < n < 2 ^ 31],
    [GetPlayoutData] right after [RequestPlayoutData n] copies out the whole
    playout buffer of [n * channels * 2] bytes and returns [n], with or
    without a transport and whatever number of frames the transport said it
    produced (the value [r] that [RequestPlayoutData] returned).  (The tick
    counter is below 50 in every world the operations lead to from a new
    object: [counters_ok_reachable].) *)
Theorem GetPlayoutData_returns_requested_frames (w : World) (n : Z) :
  let c := play_channels_ (obj w) in
  0 <= play_stat_count_ (obj w) < 50 ->
  0 < n < 2 ^ 31 ->
  0 < c ->
  n * c * 2 < 2 ^ 64 ->
  exists r w1,
    RequestPlayoutData n w = Ok r w1 /\
    match audio_transport_cb_ (obj w) with
    | None => r = 0
    | Some transport =>
      exists args,
        pa_nSamples args = n /\
        r = to_int32 (to_size_t (pr_nSamplesOut (NeedMorePlayData transport args)))
    end /\
    Buffer_size (play_buffer_ (obj w1)) = n * c * 2 /\
    GetPlayoutData w1 = Ok (play_buffer_ (obj w1), n) w1.
Proof.
  intros c Hk Hn Hc Hsz.
  destruct (GetPlayoutData_after_RequestPlayoutData w n Hk ltac:(lia) Hc Hsz)
    as (r & w1 & E & R & S & G).
  exists r, w1. rewrite to_int32_small in G by lia. auto.
Qed.

Lemma GetPlayoutData_returns_requested_frames_witness :
  (0 <= play_stat_count_ (obj (playout_world true 2 (Some one_frame_transport))) < 50 /\
   0 < 480 < 2 ^ 31 /\
   0 < play_channels_ (obj (playout_world true 2 (Some one_frame_transport))) /\
   480 * play_channels_ (obj (playout_world true 2 (Some one_frame_transport))) * 2
     < 2 ^ 64) /\
  exists w1,
    RequestPlayoutData 480 (playout_world true 2 (Some one_frame_transport))
      = Ok 1 w1 /\
    Buffer_size (play_buffer_ (obj w1)) = 1920 /\
    GetPlayoutData w1 = Ok (play_buffer_ (obj w1), 480) w1.
Proof.
  split.
  - repeat split; try reflexivity; vm_compute; discriminate.
  - destruct (GetPlayoutData_returns_requested_frames
                (playout_world true 2 (Some one_frame_transport)) 480)
      as (r & w1 & E & R & S & G).
    + vm_compute. split; [discriminate | reflexivity].
    + lia.
    + vm_compute. reflexivity.
    + vm_compute. reflexivity.
    + exists w1. cbn in R. destruct R as (args & _ & ->).
      repeat split; assumption.
Defined.

(** C10 as stated fails: with the channel count still 0 the call that
    follows a request ends the process, in either build; [2 ^ 31] frames
    come back as [- 2 ^ 31]; and a channel count whose sample size leaves
    [size_t] ends the process as well. *)
Lemma GetPlayoutData_does_not_always_return_request :
  (forall dcheck, exists w1,
     RequestPlayoutData 480 (new_world dcheck 0) = Ok 0 w1 /\
     GetPlayoutData w1 = Fatal) /\
  (exists r w1 buf,
     RequestPlayoutData (2 ^ 31) (playout_world true 1 (Some idle_transport))
       = Ok r w1 /\
     GetPlayoutData w1 = Ok (buf, - 2 ^ 31) w1) /\
  (forall dcheck, exists w1,
     RequestPlayoutData 1 (playout_world dcheck (2 ^ 63) None) = Ok 0 w1 /\
     GetPlayoutData w1 = Fatal).
Proof.
  split; [|split].
  - intros []; eexists; (split; [vm_compute; reflexivity|]); reflexivity.
  - destruct (GetPlayoutData_after_RequestPlayoutData
                (playout_world true 1 (Some idle_transport)) (2 ^ 31))
      as (r & w1 & E & _ & _ & G).
    + vm_compute. split; [discriminate | reflexivity].
    + lia.
    + vm_compute. reflexivity.
    + vm_compute. reflexivity.
    + exists r, w1, (play_buffer_ (obj w1)). split; [exact E|].
      rewrite G. reflexivity.
  - intros []; eexists; (split; [vm_compute; reflexivity|]); reflexivity.
Qed.

(** ** The 16 kHz mono silence scenario *)

Lemma run_rec_updates (ts : list Task) : forall w : World,
  forallb is_rec_update ts = true ->
  0 <= rec_samples_ (obj w) < 2 ^ 64 ->
  0 <= rec_callbacks_ (obj w) < 2 ^ 64 ->
  exists w',
    run_tasks ts w = Ok tt w' /\
    rec_samples_ (obj w') = to_uint64 (rec_samples_ (obj w) + samples_posted ts) /\
    rec_callbacks_ (obj w') =
      to_uint64 (rec_callbacks_ (obj w) + Z.of_nat (length ts)) /\
    only_silence_recorded_ (obj w') = only_silence_recorded_ (obj w) /\
    task_queue_ (obj w') = task_queue_ (obj w) /\
    trace w' = trace w /\
    clock_ms w' = clock_ms w.
Proof.
  induction ts as [|t ts IH]; intros w Hts Hs Hc.
  - exists w. cbn. rewrite !Z.add_0_r, !to_uint64_small by assumption.
    repeat split; reflexivity.
  - destruct t; try discriminate Hts. cbn [forallb is_rec_update andb] in Hts.
    cbn [run_tasks run_task]. unfold UpdateRecStats.
    rewrite !bind_bind, bind_modify, !bind_bind, bind_modify, !bind_bind, bind_gets.
    cbn [obj].
    match goal with
    | |- context [bind (when ?b ?c) ?k ?w0] =>
        assert (E : exists w1, when b c w0 = Ok tt w1 /\
                  rec_samples_ (obj w1) = rec_samples_ (obj w0) /\
                  rec_callbacks_ (obj w1) = rec_callbacks_ (obj w0) /\
                  only_silence_recorded_ (obj w1) = only_silence_recorded_ (obj w0) /\
                  task_queue_ (obj w1) = task_queue_ (obj w0) /\
                  trace w1 = trace w0 /\ clock_ms w1 = clock_ms w0)
          by (unfold when; destruct b; eexists; (split; [reflexivity|]); cbn;
              repeat split; reflexivity)
    end.
    destruct E as (w1 & E & S1 & C1 & F1 & Q1 & T1 & K1).
    rewrite (bind_Ok _ _ _ _ _ E).
    cbn in S1, C1, F1, Q1, T1, K1.
    destruct (IH w1 Hts) as (w' & E' & S' & C' & F' & Q' & T' & K').
    { rewrite S1. apply wrap_range. lia. }
    { rewrite C1. apply wrap_range. lia. }
    exists w'. split; [exact E'|].
    rewrite S', C', F', Q', T', K', S1, C1, F1, Q1, T1, K1.
    cbn [samples_posted length]. rewrite Nat2Z.inj_succ.
    unfold to_uint64, wrap. rewrite !Zplus_mod_idemp_l.
    repeat split; f_equal; lia.
Qed.

Lemma LogStats_LOG_START_frame (w : World) :
  0 <= clock_ms w < 2 ^ 63 - 10000 ->
  exists w',
    LogStats LOG_START w = Ok tt w' /\
    trace w' = trace w /\
    rec_samples_ (obj w') = rec_samples_ (obj w) /\
    rec_callbacks_ (obj w') = rec_callbacks_ (obj w) /\
    only_silence_recorded_ (obj w') = only_silence_recorded_ (obj w) /\
    ready_tasks w' = ready_tasks w.
Proof.
  intros H. unfold LogStats, RTC_DCHECK, TimeDiff. exec. cbn.
  change kTimerIntervalInMilliseconds with 10000.
  rewrite (to_int64_small (clock_ms w + 10000)) by lia.
  replace (clock_ms w + 10000 - clock_ms w) with 10000 by lia.
  change (to_int64 10000) with 10000. change (to_uint32 10000) with 10000.
  change (to_size_t (0 + 1)) with 1. cbn.
  rewrite andb_false_r.
  eexists. split; [reflexivity|]. cbn. repeat split; reflexivity.
Qed.

(** C4. 16 kHz mono, 500 [SetRecordedBuffer] calls of 160 all-zero frames
    after [StartRecording] on a new object, in either build and at any
    clock value that leaves room for the reporter's next tick: the level has
    been measured exactly 10 times, each time with result 0, the silence
    flag is still set, and once the worker has run every deferred task the
    cumulative count is 80000 samples in 500 callbacks. *)
Theorem silence_16kHz_mono_scenario (dcheck : bool) (now : Z) :
  0 <= now < 2 ^ 63 - 10000 ->
  exists w',
    silence_16kHz_mono (new_world dcheck now) = Ok tt w' /\
    count is_peak (trace w') = 10 /\
    peaks (trace w') = repeat 0 10 /\
    only_silence_recorded_ (obj w') = true /\
    rec_samples_ (obj w') = 80000 /\
    rec_callbacks_ (obj w') = 500 /\
    ready_tasks w' = [].
Proof.
  intros Hnow. unfold silence_16kHz_mono.
  assert (P : exists w1,
            silence_16kHz_mono_calls (new_world dcheck now) = Ok tt w1 /\
            count is_peak (trace w1) = 10 /\
            peaks (trace w1) = repeat 0 10 /\
            only_silence_recorded_ (obj w1) = true /\
            clock_ms w1 = now /\
            ready_tasks w1 =
              TaskResetRecStats :: TaskLogStats LOG_START
                :: repeat (TaskUpdateRecStats 0 160) 500).
  { destruct dcheck; eexists; (split; [vm_compute; reflexivity|]);
      repeat split; vm_compute; reflexivity. }
  destruct P as (w1 & E1 & Pk & Pv & F1 & C1 & R1).
  rewrite (bind_Ok _ _ _ _ _ E1). unfold ProcessReady.
  rewrite bind_gets. fold (ready_tasks w1). rewrite R1, bind_modify.
  cbn [run_tasks run_task]. unfold ResetRecStats.
  repeat (rewrite ?bind_bind, ?bind_modify).
  cbn [obj clock_ms dcheck_is_on trace].
  match goal with
  | |- context [bind (LogStats LOG_START) _ ?w0] =>
      destruct (LogStats_LOG_START_frame w0) as (w3 & E3 & T3 & S3 & B3 & F3 & R3);
        [ cbn; lia | ]
  end.
  rewrite (bind_Ok _ _ _ _ _ E3).
  cbn in T3, S3, B3, F3, R3.
  destruct (run_rec_updates (repeat (TaskUpdateRecStats 0 160) 500) w3)
    as (w' & E' & S' & B' & F' & Q' & T' & _).
  { reflexivity. }
  { rewrite S3. lia. }
  { rewrite B3. lia. }
  exists w'. split; [exact E'|].
  unfold ready_tasks in *. rewrite T', T3, S', S3, B', B3, F', F3, Q', R3.
  repeat split; try assumption; vm_compute; reflexivity.
Qed.

Lemma silence_16kHz_mono_scenario_witness :
  0 <= 0 < 2 ^ 63 - 10000 /\
  exists w',
    silence_16kHz_mono (new_world true 0) = Ok tt w' /\
    count is_peak (trace w') = 10 /\
    peaks (trace w') = repeat 0 10 /\
    only_silence_recorded_ (obj w') = true /\
    rec_samples_ (obj w') = 80000.
Proof.
  split; [lia|].
  destruct (silence_16kHz_mono_scenario true 0) as (w' & E & H1 & H2 & H3 & H4 & _).
  - lia.
  - exists w'. repeat split; assumption.
Defined.

(** ** The silence flag: an instance and a delivery that goes unnoticed *)

Lemma silence_flag_follows_measured_deliveries_witness :
  (recording_ (obj mono_world) = false /\
   0 <= rec_stat_count_ (obj mono_world) < 50 /\
   forallb (rec_call_ok (rec_channels_ (obj mono_world))) loud_50th_delivery
     = true) /\
  (exists w',
     recording_session loud_50th_delivery 20000 mono_world = Ok tt w' /\
     only_silence_recorded_ (obj w') = false) /\
  (is_StartRecording OpStopRecording = false /\
   run_op OpStopRecording loud_world
     = Ok tt (world_after [OpStopRecording] loud_world) /\
   only_silence_recorded_ (obj loud_world) = false) /\
  only_silence_recorded_ (obj (world_after [OpStopRecording] loud_world)) = false.
Proof.
  split; [|split; [|split]].
  - split; [reflexivity|].
    split; [vm_compute; split; [discriminate | reflexivity]|].
    vm_compute. reflexivity.
  - destruct (proj1 silence_flag_follows_measured_deliveries mono_world
                loud_50th_delivery 20000)
      as (w' & E & F & _).
    + reflexivity.
    + vm_compute. split; [discriminate | reflexivity].
    + vm_compute. reflexivity.
    + exists w'. split; [exact E|]. rewrite F. vm_compute. reflexivity.
  - split; [reflexivity|]. split; vm_compute; reflexivity.
  - apply (proj2 silence_flag_follows_measured_deliveries OpStopRecording
             loud_world (world_after [OpStopRecording] loud_world)).
    + reflexivity.
    + vm_compute. reflexivity.
    + vm_compute. reflexivity.
Defined.

(** C2 as stated fails: a non-zero sample delivered on a call that is not
    measured leaves the flag set, and a session of more than 10 seconds
    then reports "only zeros". *)
Lemma silence_flag_survives_unmeasured_sample :
  exists w',
    recording_session [([x01; x00], 1)] 20000 mono_world = Ok tt w' /\
    delivered (rec_channels_ (obj mono_world)) ([x01; x00], 1) = [1] /\
    only_silence_recorded_ (obj w') = true /\
    histogram_samples (trace w') = [1].
Proof.
  eexists. split; [vm_compute; reflexivity|].
  split; [reflexivity|]. split; reflexivity.
Qed.

(** ** Starting and stopping twice, the tick counters, setters and getters *)

(** X1. Starting or stopping a direction twice in a row is the same as doing
    it once: the second call returns at its guard, whatever the world. *)
Theorem Start_Stop_twice_is_once (w : World) :
  (StartRecording ;; StartRecording) w = StartRecording w /\
  (StartPlayout ;; StartPlayout) w = StartPlayout w /\
  (StopRecording ;; StopRecording) w = StopRecording w /\
  (StopPlayout ;; StopPlayout) w = StopPlayout w.
Proof.
  repeat split.
  - unfold StartRecording. exec.
    destruct (recording_ (obj w)) eqn:R; cbn; [rewrite R; reflexivity|].
    destruct (playing_ (obj w)); reflexivity.
  - unfold StartPlayout. exec.
    destruct (playing_ (obj w)) eqn:P; cbn; [rewrite P; reflexivity|].
    destruct (recording_ (obj w)); reflexivity.
  - unfold StopRecording. exec.
    destruct (recording_ (obj w)) eqn:R; cbn; [|rewrite R; reflexivity].
    destruct (playing_ (obj w)); cbn;
      match goal with |- context [if ?b then _ else _] => destruct b end;
      reflexivity.
  - unfold StopPlayout. exec.
    destruct (playing_ (obj w)) eqn:P; cbn; [|rewrite P; reflexivity].
    destruct (recording_ (obj w)); reflexivity.
Qed.

(** X2. In every world a sequence of operations leads to from a newly
    constructed object, both tick counters are in [0, 50): the
    [RTC_DCHECK_LT] at the head of the two data paths never fires. *)
Theorem tick_counters_below_50_from_new_object
  (dcheck : bool) (now : Z) (ops : list Op) (w' : World) :
  run_ops ops (new_world dcheck now) = Ok tt w' -> counters_ok w'.
Proof.
  intros E.
  exact (counters_ok_reachable ops _ _ (counters_ok_new_world dcheck now) E).
Qed.

Lemma tick_counters_below_50_from_new_object_witness :
  run_ops
    (OpSetRecordingChannels 1 :: repeat (OpSetRecordedBuffer [x01; x00] 1) 50)
    (new_world true 0)
  = Ok tt
      (world_after
         (OpSetRecordingChannels 1 :: repeat (OpSetRecordedBuffer [x01; x00] 1) 50)
         (new_world true 0)) /\
  counters_ok
    (world_after
       (OpSetRecordingChannels 1 :: repeat (OpSetRecordedBuffer [x01; x00] 1) 50)
       (new_world true 0)).
Proof.
  split; [vm_compute; reflexivity|].
  apply (tick_counters_below_50_from_new_object true 0
           (OpSetRecordingChannels 1
              :: repeat (OpSetRecordedBuffer [x01; x00] 1) 50)).
  vm_compute. reflexivity.
Defined.

(** X3. What was set is what is read back: a sample rate below [2 ^ 31]
    through the [int32_t] getters, a channel count that is a [size_t]
    through the [size_t] getters; and a rate of [2 ^ 31] Hz or more comes
    back negative. *)
Theorem setters_and_getters_round_trip (w : World) (fsHz channels : Z) :
  0 <= fsHz < 2 ^ 31 ->
  0 <= channels < 2 ^ 64 ->
  (exists w', (_ <- SetRecordingSampleRate fsHz ;; RecordingSampleRate) w
                = Ok fsHz w') /\
  (exists w', (_ <- SetPlayoutSampleRate fsHz ;; PlayoutSampleRate) w
                = Ok fsHz w') /\
  (exists w', (_ <- SetRecordingChannels channels ;; RecordingChannels) w
                = Ok channels w') /\
  (exists w', (_ <- SetPlayoutChannels channels ;; PlayoutChannels) w
                = Ok channels w') /\
  (exists w', (_ <- SetRecordingSampleRate (fsHz + 2 ^ 31) ;; RecordingSampleRate) w
                = Ok (fsHz - 2 ^ 31) w').
Proof.
  intros Hf Hc.
  assert (F : to_int32 (to_uint32 fsHz) = fsHz).
  { unfold to_uint32. rewrite wrap_small by lia. apply to_int32_small. lia. }
  assert (C : to_size_t channels = channels) by (apply to_size_t_small; exact Hc).
  assert (G : to_int32 (to_uint32 (fsHz + 2 ^ 31)) = fsHz - 2 ^ 31).
  { unfold to_uint32. rewrite wrap_small by lia. unfold to_int32, swrap.
    replace (fsHz + 2 ^ 31 + 2 ^ (32 - 1)) with (fsHz + 1 * 2 ^ 32) by lia.
    rewrite Z.mod_add by lia. rewrite Z.mod_small by lia. lia. }
  unfold SetRecordingSampleRate, SetPlayoutSampleRate, SetRecordingChannels,
    SetPlayoutChannels, RecordingSampleRate, PlayoutSampleRate, RecordingChannels,
    PlayoutChannels. exec.
  cbn -[Z.pow Z.add to_int32 to_uint32 to_size_t]. rewrite F, C, G.
  repeat split; eexists; reflexivity.
Qed.

Lemma setters_and_getters_round_trip_witness :
  (0 <= 48000 < 2 ^ 31 /\ 0 <= 2 < 2 ^ 64) /\
  (exists w', (_ <- SetRecordingSampleRate 48000 ;; RecordingSampleRate)
                (new_world true 0) = Ok 48000 w') /\
  (exists w', (_ <- SetPlayoutChannels 2 ;; PlayoutChannels)
                (new_world true 0) = Ok 2 w').
Proof.
  split; [lia|].
  destruct (setters_and_getters_round_trip (new_world true 0) 48000 2)
    as (H1 & _ & _ & H4 & _); [lia | lia |].
  split; assumption.
Defined.

(** ** DeliverRecordedData: faults, the microphone level, the settings *)

(** X4. [DeliverRecordedData] never ends the process without a transport,
    and with one it does so exactly when the size of a frame,
    [rec_channels_ * 2] as a [size_t], is 0 (as with the constructor's
    channel count 0): the division that derives the sample count is by
    zero.  Whenever it returns, it returns 0. *)
Theorem DeliverRecordedData_fails_iff_zero_frame_size (w : World) :
  (DeliverRecordedData w = Fatal <->
   audio_transport_cb_ (obj w) <> None /\
   to_size_t (rec_channels_ (obj w) * sizeof_int16_t) = 0) /\
  (forall r w', DeliverRecordedData w = Ok r w' -> r = 0).
Proof.
  unfold DeliverRecordedData, div_size_t. rewrite bind_gets.
  destruct (audio_transport_cb_ (obj w)) as [transport|].
  - rewrite !bind_gets.
    destruct (Z.eqb_spec (to_size_t (rec_channels_ (obj w) * sizeof_int16_t)) 0)
      as [E|E].
    + split; [|intros r w' H; discriminate H].
      split; [intros _; split; [discriminate | exact E] | reflexivity].
    + rewrite bind_ret, !bind_gets. unfold LOG, emit, bind, ret, modify.
      match goal with
      | |- context [RecordedDataIsAvailable transport ?a] =>
          destruct (RecordedDataIsAvailable transport a) as [res new_mic_level]
      end.
      destruct (negb (to_int32 res =? -1)); cbn.
      all: split; [split; [discriminate | intros [_ H]; contradiction]|].
      all: intros r w' H; inversion H; reflexivity.
  - unfold LOG, emit, bind, ret. split.
    + split; [discriminate | intros [H _]; contradiction].
    + intros r w' H. inversion H. reflexivity.
Qed.

Lemma mic_level_step (transport : AudioTransport) (w : World) :
  audio_transport_cb_ (obj w) = Some transport ->
  to_size_t (rec_channels_ (obj w) * sizeof_int16_t) <> 0 ->
  exists w' args,
    DeliverRecordedData w = Ok 0 w' /\
    recorded_calls (trace w') = args :: recorded_calls (trace w) /\
    args =
      mkRecordedArgs (rec_buffer_ (obj w))
        (Buffer_size (rec_buffer_ (obj w))
           / to_size_t (rec_channels_ (obj w) * sizeof_int16_t))
        (to_size_t (rec_channels_ (obj w) * sizeof_int16_t))
        (rec_channels_ (obj w)) (rec_sample_rate_ (obj w))
        (to_uint32 (play_delay_ms_ (obj w) + rec_delay_ms_ (obj w)))
        (clock_drift_ (obj w)) (current_mic_level_ (obj w))
        (typing_status_ (obj w)) /\
    new_mic_level_ (obj w') =
      (if to_int32 (fst (RecordedDataIsAvailable transport args)) =? -1
       then new_mic_level_ (obj w)
       else to_uint32 (snd (RecordedDataIsAvailable transport args))) /\
    obj w' = set_new_mic_level_ (new_mic_level_ (obj w')) (obj w).
Proof.
  intros Hcb Hbps. unfold DeliverRecordedData, div_size_t.
  rewrite bind_gets, Hcb. rewrite !bind_gets.
  destruct (Z.eqb_spec (to_size_t (rec_channels_ (obj w) * sizeof_int16_t)) 0)
    as [E|_]; [contradiction|].
  rewrite bind_ret, !bind_gets. unfold LOG, emit, bind, ret, modify.
  match goal with
  | |- context [RecordedDataIsAvailable transport ?a] =>
      set (args := a);
      destruct (RecordedDataIsAvailable transport args) as [res new_mic_level] eqn:R
  end.
  destruct (to_int32 res =? -1) eqn:F; cbn [negb];
    eexists _, args; (split; [reflexivity|]); cbn; rewrite R; cbn; rewrite F.
  all: repeat split; try reflexivity.
  all: destruct (obj w); reflexivity.
Qed.

(** X5. The microphone level the transport hands back is what [NewMicLevel]
    reads afterwards, as a [uint32_t], unless the transport answered -1:
    then the level of before stays.  Nothing else of the object changes. *)
Theorem NewMicLevel_after_DeliverRecordedData
  (transport : AudioTransport) (w : World) :
  audio_transport_cb_ (obj w) = Some transport ->
  to_size_t (rec_channels_ (obj w) * sizeof_int16_t) <> 0 ->
  exists w' args level,
    DeliverRecordedData w = Ok 0 w' /\
    recorded_calls (trace w') = args :: recorded_calls (trace w) /\
    NewMicLevel w' = Ok level w' /\
    level =
      (if to_int32 (fst (RecordedDataIsAvailable transport args)) =? -1
       then new_mic_level_ (obj w)
       else to_uint32 (snd (RecordedDataIsAvailable transport args))) /\
    obj w' = set_new_mic_level_ level (obj w).
Proof.
  intros Hcb Hbps.
  destruct (mic_level_step transport w Hcb Hbps) as (w' & args & E & T & _ & L & O).
  exists w', args, (new_mic_level_ (obj w')).
  repeat split; assumption.
Qed.

Lemma NewMicLevel_after_DeliverRecordedData_witness :
  (audio_transport_cb_ (obj mono_transport_world) = Some idle_transport /\
   to_size_t (rec_channels_ (obj mono_transport_world) * sizeof_int16_t) <> 0) /\
  exists w' level,
    DeliverRecordedData mono_transport_world = Ok 0 w' /\
    NewMicLevel w' = Ok level w'.
Proof.
  split; [split; [reflexivity | vm_compute; discriminate]|].
  destruct (NewMicLevel_after_DeliverRecordedData idle_transport
              mono_transport_world)
    as (w' & args & level & E & _ & N & _).
  - reflexivity.
  - vm_compute. discriminate.
  - exists w', level. split; assumption.
Defined.

(** X6. The transport is called with the latest values of the setters: the
    total delay is the [uint32_t] sum of the two delays of [SetVQEData], the
    drift, the microphone level and the typing status are the ones set. *)
Theorem transport_sees_latest_settings
  (transport : AudioTransport) (w : World)
  (play_delay_ms rec_delay_ms clock_drift level : Z) (typing : bool) :
  audio_transport_cb_ (obj w) = Some transport ->
  to_size_t (rec_channels_ (obj w) * sizeof_int16_t) <> 0 ->
  - 2 ^ 31 <= play_delay_ms < 2 ^ 31 ->
  - 2 ^ 31 <= rec_delay_ms < 2 ^ 31 ->
  - 2 ^ 31 <= clock_drift < 2 ^ 31 ->
  0 <= level < 2 ^ 32 ->
  exists w' args,
    (SetVQEData play_delay_ms rec_delay_ms clock_drift ;;
     _ <- SetCurrentMicLevel level ;;
     _ <- SetTypingStatus typing ;;
     DeliverRecordedData) w = Ok 0 w' /\
    recorded_calls (trace w') = args :: recorded_calls (trace w) /\
    ra_totalDelayMS args = to_uint32 (play_delay_ms + rec_delay_ms) /\
    ra_clockDrift args = clock_drift /\
    ra_currentMicLevel args = level /\
    ra_keyPressed args = typing /\
    ra_samplesPerSec args = rec_sample_rate_ (obj w) /\
    ra_audioSamples args = rec_buffer_ (obj w).
Proof.
  intros Hcb Hbps Hp Hr Hd Hl.
  unfold SetVQEData, SetCurrentMicLevel, SetTypingStatus.
  repeat (rewrite ?bind_bind, ?bind_modify, ?bind_ret).
  match goal with
  | |- context [DeliverRecordedData ?w0] =>
      destruct (mic_level_step transport w0) as (w' & args & E & T & A & _)
  end.
  { cbn. exact Hcb. }
  { cbn. exact Hbps. }
  exists w', args. split; [exact E|]. split; [exact T|].
  rewrite A. cbn -[to_uint32 to_int32 Z.add].
  rewrite (to_int32_small play_delay_ms), (to_int32_small rec_delay_ms),
    (to_int32_small clock_drift), (to_uint32_small level) by assumption.
  repeat split; reflexivity.
Qed.

Lemma transport_sees_latest_settings_witness :
  (audio_transport_cb_ (obj mono_transport_world) = Some idle_transport /\
   to_size_t (rec_channels_ (obj mono_transport_world) * sizeof_int16_t) <> 0 /\
   - 2 ^ 31 <= 30 < 2 ^ 31 /\ - 2 ^ 31 <= 20 < 2 ^ 31 /\
   - 2 ^ 31 <= 0 < 2 ^ 31 /\ 0 <= 255 < 2 ^ 32) /\
  exists w' args,
    (SetVQEData 30 20 0 ;;
     _ <- SetCurrentMicLevel 255 ;;
     _ <- SetTypingStatus true ;;
     DeliverRecordedData) mono_transport_world = Ok 0 w' /\
    recorded_calls (trace w') = [args] /\
    ra_totalDelayMS args = 50 /\
    ra_currentMicLevel args = 255.
Proof.
  split.
  - split; [reflexivity|]. split; [vm_compute; discriminate|]. lia.
  - destruct (transport_sees_latest_settings idle_transport mono_transport_world
                30 20 0 255 true)
      as (w' & args & E & T & D & _ & L & _).
    + reflexivity.
    + vm_compute. discriminate.
    + lia.
    + lia.
    + lia.
    + lia.
    + exists w', args. repeat split; assumption.
Defined.

(** ** The playout path from the transport to GetPlayoutData *)

(** X7. [GetPlayoutData] ends the process exactly when the size of a frame,
    [play_channels_ * 2] as a [size_t], is 0 or, in a build with
    [RTC_DCHECK], when the playout buffer is empty.  Whenever it returns it
    has changed nothing, has copied out the whole buffer and returns the
    buffer size divided by the frame size, as an [int32_t]. *)
Theorem GetPlayoutData_outcome (w : World) :
  (GetPlayoutData w = Fatal <->
   (dcheck_is_on w = true /\ Buffer_size (play_buffer_ (obj w)) = 0) \/
   to_size_t (play_channels_ (obj w) * sizeof_int16_t) = 0) /\
  (forall r w',
     GetPlayoutData w = Ok r w' ->
     w' = w /\
     r = (play_buffer_ (obj w),
          to_int32 (Buffer_size (play_buffer_ (obj w))
                      / to_size_t (play_channels_ (obj w) * sizeof_int16_t)))).
Proof.
  assert (N : GetPlayoutData w =
              if dcheck_is_on w && negb (Buffer_size (play_buffer_ (obj w)) >? 0)
              then Fatal
              else if to_size_t (play_channels_ (obj w) * sizeof_int16_t) =? 0
              then Fatal
              else Ok (play_buffer_ (obj w),
                       to_int32 (Buffer_size (play_buffer_ (obj w))
                         / to_size_t (play_channels_ (obj w) * sizeof_int16_t))) w).
  { unfold GetPlayoutData, RTC_DCHECK, div_size_t, bind, gets, abort, ret.
    destruct (dcheck_is_on w && negb (Buffer_size (play_buffer_ (obj w)) >? 0));
      [reflexivity|].
    destruct (to_size_t (play_channels_ (obj w) * sizeof_int16_t) =? 0);
      reflexivity. }
  rewrite N. clear N.
  pose proof (Buffer_size_nonneg (play_buffer_ (obj w))) as Hs.
  destruct (dcheck_is_on w) eqn:D;
    destruct (Z.gtb_spec (Buffer_size (play_buffer_ (obj w))) 0) as [G|G];
    cbn [negb andb];
    destruct (Z.eqb_spec (to_size_t (play_channels_ (obj w) * sizeof_int16_t)) 0)
      as [E|E].
  all: split; [split|].
  all: try (intros r w' H; first [discriminate H | inversion H; split; reflexivity]).
  all: try (intros _; first [right; exact E | left; split; [reflexivity | lia]]).
  all: try reflexivity.
  all: try (intros H; discriminate H).
  all: intros [[H1 H2]|H]; [first [discriminate H1 | lia] | contradiction].
Qed.

Lemma RequestPlayoutData_step_contents n transport w :
  let c := play_channels_ (obj w) in
  let k := play_stat_count_ (obj w) in
  audio_transport_cb_ (obj w) = Some transport ->
  0 <= k < 50 ->
  play_call_ok c n = true ->
  exists w' args level,
    RequestPlayoutData n w =
      Ok (to_int32 (to_size_t (pr_nSamplesOut (NeedMorePlayData transport args)))) w' /\
    args =
      mkPlayArgs n (to_size_t (c * sizeof_int16_t)) c (play_sample_rate_ (obj w))
        (Buffer_SetSize (play_buffer_ (obj w)) (n * c * 2)) /\
    play_buffer_ (obj w') =
      Buffer_write (pa_audioSamples args)
        (pr_written (NeedMorePlayData transport args)) /\
    task_queue_ (obj w') =
      mkTaskQueue
        (ready_tasks w ++
         [TaskUpdatePlayStats level
            (to_size_t (pr_nSamplesOut (NeedMorePlayData transport args)))])
        (delayed_tasks w) /\
    play_samples_ (obj w') = play_samples_ (obj w) /\
    play_callbacks_ (obj w') = play_callbacks_ (obj w) /\
    play_channels_ (obj w') = c /\
    clock_ms w' = clock_ms w /\
    dcheck_is_on w' = dcheck_is_on w.
Proof.
  intros c k Hcb Hk Hok.
  destruct (play_call_ok_inv _ _ Hok) as (Hc & Hn & Hsz).
  assert (Hnc : 0 <= n * c) by nia.
  unfold RequestPlayoutData, RTC_DCHECK, lift_option.
  unfold bind at 1. unfold gets at 1. cbn [obj]. fold c.
  rewrite play_size_in_bytes by assumption.
  rewrite (to_size_t_small (n * c)) by lia.
  assert (K : (k <? 50) = true) by (apply Z.ltb_lt; lia).
  exec.
  assert (S1 : Buffer_size (Buffer_SetSize (play_buffer_ (obj w)) (n * c * 2))
               = n * c * 2) by (apply Buffer_SetSize_size; lia).
  destruct (Z.eqb_spec (Buffer_size (play_buffer_ (obj w))) (n * c * 2)) as [Es|Es];
    [ pose proof (Buffer_SetSize_same (play_buffer_ (obj w))) as Hsame;
      rewrite Es in Hsame | ];
    cbn -[Buffer_write Buffer_SetSize]; rewrite Hcb; cbn -[Buffer_write Buffer_SetSize];
    match goal with
    | |- context [NeedMorePlayData transport ?a] =>
        set (args := a); set (r := NeedMorePlayData transport args)
    end;
    destruct (negb (to_uint32 (pr_res r) =? 0)); cbn -[Buffer_write Buffer_SetSize];
    fold k; rewrite K, andb_false_r, to_int16_small by lia;
    destruct (k + 1 >=? 50) eqn:E50; cbn -[Buffer_write Buffer_SetSize];
    rewrite ?read_int16_ok by (rewrite ?Buffer_write_size, ?S1; lia);
    cbn -[Buffer_write Buffer_SetSize].
  all: eexists _, args, _; (split; [reflexivity|]).
  all: cbn -[Z.mul Buffer_write Buffer_SetSize];
    unfold ready_tasks, delayed_tasks, TaskQueue_PostTask.
  all: rewrite ?Hsame; repeat split; reflexivity.
Qed.

Lemma Buffer_write_all (b written : Buffer) :
  Buffer_size written = Buffer_size b -> Buffer_write b written = written.
Proof.
  unfold Buffer_size, Buffer_write. intros H. apply Nat2Z.inj in H.
  rewrite firstn_app, H, Nat.sub_diag, firstn_O, app_nil_r.
  rewrite <- H. apply firstn_all.
Qed.

(** X8. Playout round trip.  When the transport fills the buffer it is
    handed, that is, writes [n * channels * 2] bytes, [GetPlayoutData] right
    after [RequestPlayoutData n] copies out exactly the bytes the transport
    wrote and returns [n], whatever frame count and result code the
    transport returned. *)
Theorem playout_round_trip (transport : AudioTransport) (w : World) (n : Z) :
  let c := play_channels_ (obj w) in
  let args :=
    mkPlayArgs n (to_size_t (c * sizeof_int16_t)) c (play_sample_rate_ (obj w))
      (Buffer_SetSize (play_buffer_ (obj w)) (n * c * 2)) in
  audio_transport_cb_ (obj w) = Some transport ->
  0 <= play_stat_count_ (obj w) < 50 ->
  0 < n < 2 ^ 31 ->
  0 < c ->
  n * c * 2 < 2 ^ 64 ->
  Buffer_size (pr_written (NeedMorePlayData transport args)) = n * c * 2 ->
  exists w',
    (RequestPlayoutData n ;; GetPlayoutData) w =
      Ok (pr_written (NeedMorePlayData transport args), n) w'.
Proof.
  intros c args Hcb Hk Hn Hc Hsz Hw.
  assert (Hok : play_call_ok c n = true).
  { unfold play_call_ok, size_bits.
    rewrite !(proj2 (Z.leb_le _ _)) by lia.
    apply Z.ltb_lt in Hsz. rewrite Hsz. reflexivity. }
  destruct (RequestPlayoutData_step_contents n transport w Hcb Hk Hok)
    as (w' & args' & level & E & Ea & Eb & _ & _ & _ & Ec & _ & _).
  fold c in Ea. fold args in Ea. subst args'.
  assert (S1 : Buffer_size (pa_audioSamples args) = n * c * 2)
    by (apply Buffer_SetSize_size; lia).
  rewrite Buffer_write_all in Eb by (rewrite Hw, S1; reflexivity).
  exists w'. unfold bind at 1. rewrite E.
  rewrite GetPlayoutData_whole_buffer; rewrite ?Eb, ?Ec, ?Hw; fold c.
  - assert (Hbps : to_size_t (c * sizeof_int16_t) = c * 2)
      by (unfold sizeof_int16_t; apply to_size_t_small; nia).
    rewrite Hbps, <- Z.mul_assoc, Z.div_mul, to_int32_small by lia.
    reflexivity.
  - nia.
  - unfold sizeof_int16_t. rewrite to_size_t_small by nia. lia.
Qed.

Lemma playout_round_trip_witness :
  exists w',
    (RequestPlayoutData 480 ;; GetPlayoutData)
      (playout_world true 2 (Some filling_transport)) =
    Ok (repeat x01 1920, 480) w'.
Proof.
  apply (playout_round_trip filling_transport
           (playout_world true 2 (Some filling_transport)) 480).
  - reflexivity.
  - vm_compute. split; [discriminate | reflexivity].
  - lia.
  - vm_compute. reflexivity.
  - vm_compute. reflexivity.
  - vm_compute. reflexivity.
Defined.

(** X9. Without a transport nothing writes the playout buffer: when it
    already has the size of the request, [GetPlayoutData] right after
    [RequestPlayoutData n] hands out the bytes of the previous request once
    more, although [RequestPlayoutData] reported 0 frames, and the only
    trace of the miss is one log line. *)
Theorem playout_without_transport_repeats_last_buffer (w : World) (n : Z) :
  let c := play_channels_ (obj w) in
  audio_transport_cb_ (obj w) = None ->
  0 < n < 2 ^ 31 ->
  0 < c ->
  Buffer_size (play_buffer_ (obj w)) = n * c * 2 ->
  n * c * 2 < 2 ^ 64 ->
  RequestPlayoutData n w =
    Ok 0 (mkWorld (obj w) (clock_ms w) (dcheck_is_on w)
            (EvLog LogInvalidTransport :: trace w)) /\
  (RequestPlayoutData n ;; GetPlayoutData) w =
    Ok (play_buffer_ (obj w), n)
       (mkWorld (obj w) (clock_ms w) (dcheck_is_on w)
          (EvLog LogInvalidTransport :: trace w)).
Proof.
  intros c Hcb Hn Hc Hs Hsz.
  assert (Hbps : to_size_t (c * sizeof_int16_t) = c * 2)
    by (unfold sizeof_int16_t; apply to_size_t_small; nia).
  assert (R : RequestPlayoutData n w =
    Ok 0 (mkWorld (obj w) (clock_ms w) (dcheck_is_on w)
            (EvLog LogInvalidTransport :: trace w))).
  { unfold RequestPlayoutData. rewrite bind_gets. fold c.
    rewrite Hbps, Z.mul_assoc, to_size_t_small by nia.
    rewrite bind_gets, Hs, Z.eqb_refl. unfold when. cbn [negb].
    unfold bind at 1. unfold ret at 1. rewrite bind_gets, Hcb.
    unfold LOG, emit, bind, ret. reflexivity. }
  split; [exact R|].
  unfold bind at 1. rewrite R.
  rewrite GetPlayoutData_whole_buffer; cbn [obj]; fold c; rewrite ?Hbps, ?Hs.
  - rewrite <- Z.mul_assoc, Z.div_mul, to_int32_small by lia. reflexivity.
  - nia.
  - lia.
Qed.

Lemma playout_without_transport_repeats_last_buffer_witness :
  RequestPlayoutData 480 unregistered_world =
    Ok 0 (mkWorld (obj unregistered_world) (clock_ms unregistered_world)
            (dcheck_is_on unregistered_world)
            (EvLog LogInvalidTransport :: trace unregistered_world)) /\
  (RequestPlayoutData 480 ;; GetPlayoutData) unregistered_world =
    Ok (repeat x01 1920, 480)
       (mkWorld (obj unregistered_world) (clock_ms unregistered_world)
          (dcheck_is_on unregistered_world)
          (EvLog LogInvalidTransport :: trace unregistered_world)).
Proof.
  apply (playout_without_transport_repeats_last_buffer unregistered_world 480).
  - reflexivity.
  - lia.
  - vm_compute. reflexivity.
  - vm_compute. reflexivity.
  - vm_compute. reflexivity.
Defined.

(** X10. The playout statistics count what the transport produced, not
    what was requested: once the worker has run the update posted by
    [RequestPlayoutData n], [play_samples_] has grown by the transport's
    frame count (as a [size_t], modulo [2 ^ 64]) and [play_callbacks_] by
    one, also when the transport returned an error code. *)
Theorem playout_statistics_count_produced_frames
    (transport : AudioTransport) (w : World) (n : Z) :
  let c := play_channels_ (obj w) in
  audio_transport_cb_ (obj w) = Some transport ->
  ready_tasks w = [] ->
  0 <= play_stat_count_ (obj w) < 50 ->
  play_call_ok c n = true ->
  exists w' args,
    (RequestPlayoutData n ;; ProcessReady) w = Ok tt w' /\
    pa_nSamples args = n /\
    play_samples_ (obj w') =
      to_uint64 (play_samples_ (obj w)
                 + to_size_t (pr_nSamplesOut (NeedMorePlayData transport args))) /\
    play_callbacks_ (obj w') = to_uint64 (play_callbacks_ (obj w) + 1) /\
    ready_tasks w' = [].
Proof.
  intros c Hcb Hr Hk Hok.
  destruct (RequestPlayoutData_step_contents n transport w Hcb Hk Hok)
    as (w1 & args & level & E & Ea & _ & Eq & Es & Ec & _ & _ & _).
  rewrite Hr in Eq. cbn [app] in Eq.
  unfold bind at 1. rewrite E.
  rewrite (ProcessReady_one
             (TaskUpdatePlayStats level
                (to_size_t (pr_nSamplesOut (NeedMorePlayData transport args)))))
    by (unfold ready_tasks; rewrite Eq; reflexivity).
  cbn [run_task]. unfold UpdatePlayStats, when.
  rewrite bind_modify, bind_modify, bind_gets. cbn [obj].
  match goal with
  | |- context [if ?b then _ else _] => destruct b
  end; unfold modify, ret; eexists _, args; (split; [reflexivity|]);
    cbn; rewrite Es, Ec, Ea; repeat split; reflexivity.
Qed.

Lemma playout_statistics_count_produced_frames_witness :
  exists w' args,
    (RequestPlayoutData 480 ;; ProcessReady)
      (playout_world true 2 (Some one_frame_transport)) = Ok tt w' /\
    pa_nSamples args = 480 /\
    play_samples_ (obj w') =
      to_uint64
        (play_samples_ (obj (playout_world true 2 (Some one_frame_transport)))
         + to_size_t (pr_nSamplesOut (NeedMorePlayData one_frame_transport args))) /\
    play_callbacks_ (obj w') =
      to_uint64
        (play_callbacks_ (obj (playout_world true 2 (Some one_frame_transport))) + 1) /\
    ready_tasks w' = [].
Proof.
  apply (playout_statistics_count_produced_frames one_frame_transport
           (playout_world true 2 (Some one_frame_transport)) 480).
  - reflexivity.
  - vm_compute. reflexivity.
  - vm_compute. split; [discriminate | reflexivity].
  - vm_compute. reflexivity.
Defined.

(** ** The statistics and what a report says *)

Lemma to_uint64_sub_l (x y : Z) : to_uint64 (to_uint64 x - y) = to_uint64 (x - y).
Proof. unfold to_uint64, wrap. apply Zminus_mod_idemp_l. Qed.

Lemma to_uint64_add_l (x y : Z) : to_uint64 (to_uint64 x + y) = to_uint64 (x + y).
Proof. unfold to_uint64, wrap. apply Zplus_mod_idemp_l. Qed.

Lemma to_uint32_to_uint64 (x : Z) : to_uint32 (to_uint64 x) = to_uint32 x.
Proof.
  unfold to_uint32, to_uint64, wrap.
  pose proof (Z.div_mod x (2 ^ 64) ltac:(lia)) as H.
  replace (x mod 2 ^ 64) with (x + (- (2 ^ 32 * (x / 2 ^ 64))) * 2 ^ 32) by lia.
  apply Z.mod_add. lia.
Qed.

Lemma to_uint32_sub_l (x y : Z) : to_uint32 (to_uint64 x - y) = to_uint32 (x - y).
Proof.
  rewrite <- to_uint32_to_uint64, to_uint64_sub_l, to_uint32_to_uint64.
  reflexivity.
Qed.

Lemma max_level_max (a level : Z) (levels : list Z) :
  max_level (Z.max level a) levels = Z.max a (max_level level levels).
Proof.
  unfold max_level. induction levels as [|b levels IH]; cbn [fold_right].
  - apply Z.max_comm.
  - rewrite IH. lia.
Qed.

(** The worker running a list of recording updates. *)
Lemma run_rec_updates_window (ts : list Task) : forall w : World,
  forallb is_rec_update ts = true ->
  exists w',
    run_tasks ts w = Ok tt w' /\
    to_uint64 (rec_callbacks_ (obj w')) =
      to_uint64 (rec_callbacks_ (obj w) + Z.of_nat (length ts)) /\
    to_uint64 (rec_samples_ (obj w')) =
      to_uint64 (rec_samples_ (obj w) + samples_posted ts) /\
    max_rec_level_ (obj w') = max_level (max_rec_level_ (obj w)) (levels_posted ts) /\
    (last_rec_callbacks_ (obj w') = last_rec_callbacks_ (obj w) /\
     last_rec_samples_ (obj w') = last_rec_samples_ (obj w) /\
     rec_sample_rate_ (obj w') = rec_sample_rate_ (obj w)) /\
    (play_callbacks_ (obj w') = play_callbacks_ (obj w) /\
     last_play_callbacks_ (obj w') = last_play_callbacks_ (obj w) /\
     play_samples_ (obj w') = play_samples_ (obj w) /\
     last_play_samples_ (obj w') = last_play_samples_ (obj w) /\
     max_play_level_ (obj w') = max_play_level_ (obj w) /\
     play_sample_rate_ (obj w') = play_sample_rate_ (obj w)) /\
    (num_stat_reports_ (obj w') = num_stat_reports_ (obj w) /\
     last_timer_task_time_ (obj w') = last_timer_task_time_ (obj w) /\
     task_queue_ (obj w') = task_queue_ (obj w)) /\
    trace w' = trace w /\
    clock_ms w' = clock_ms w /\
    dcheck_is_on w' = dcheck_is_on w.
Proof.
  induction ts as [|t ts IH]; intros w Hts.
  - exists w. cbn. rewrite !Z.add_0_r. repeat split; reflexivity.
  - destruct t; try discriminate Hts. cbn [forallb is_rec_update andb] in Hts.
    cbn [run_tasks run_task]. unfold UpdateRecStats.
    rewrite !bind_bind, bind_modify, !bind_bind, bind_modify, !bind_bind, bind_gets.
    cbn [obj].
    match goal with
    | |- context [bind (when ?b ?c) ?k ?w0] =>
        set (w1 := w0);
        assert (E : exists w2, when b c w1 = Ok tt w2 /\
                  max_rec_level_ (obj w2) = Z.max (max_rec_level_ (obj w)) max_abs /\
                  rec_callbacks_ (obj w2) = to_uint64 (rec_callbacks_ (obj w) + 1) /\
                  rec_samples_ (obj w2) = to_uint64 (rec_samples_ (obj w) + num_samples) /\
                  (last_rec_callbacks_ (obj w2) = last_rec_callbacks_ (obj w) /\
                   last_rec_samples_ (obj w2) = last_rec_samples_ (obj w) /\
                   rec_sample_rate_ (obj w2) = rec_sample_rate_ (obj w)) /\
                  (play_callbacks_ (obj w2) = play_callbacks_ (obj w) /\
                   last_play_callbacks_ (obj w2) = last_play_callbacks_ (obj w) /\
                   play_samples_ (obj w2) = play_samples_ (obj w) /\
                   last_play_samples_ (obj w2) = last_play_samples_ (obj w) /\
                   max_play_level_ (obj w2) = max_play_level_ (obj w) /\
                   play_sample_rate_ (obj w2) = play_sample_rate_ (obj w)) /\
                  (num_stat_reports_ (obj w2) = num_stat_reports_ (obj w) /\
                   last_timer_task_time_ (obj w2) = last_timer_task_time_ (obj w) /\
                   task_queue_ (obj w2) = task_queue_ (obj w)) /\
                  trace w2 = trace w /\ clock_ms w2 = clock_ms w /\
                  dcheck_is_on w2 = dcheck_is_on w)
    end.
    { subst w1. unfold when. cbn.
      destruct (Z.gtb_spec max_abs (max_rec_level_ (obj w)));
        eexists; (split; [reflexivity|]); cbn;
        (split; [lia|]); repeat split; reflexivity. }
    destruct E as (w2 & E & Hl & Hc & Hs & (F1 & F2 & F3)
                   & (P1 & P2 & P3 & P4 & P5 & P6) & (Q1 & Q2 & Q3) & Ht & Hk & Hd).
    rewrite (bind_Ok _ _ _ _ _ E).
    destruct (IH w2 Hts) as (w' & E' & Hc' & Hs' & Hl' & (F1' & F2' & F3')
                   & (P1' & P2' & P3' & P4' & P5' & P6') & (Q1' & Q2' & Q3')
                   & Ht' & Hk' & Hd').
    exists w'. split; [exact E'|].
    rewrite Hc', Hs', Hl', Hl, Hc, Hs, !to_uint64_add_l.
    cbn [samples_posted levels_posted length]. rewrite Nat2Z.inj_succ.
    rewrite max_level_max.
    split; [f_equal; lia|]. split; [f_equal; lia|].
    split; [unfold max_level; cbn [fold_right]; reflexivity|].
    repeat split; congruence.
Qed.

(** A tick of the reporter, first or later, closes the window: the
    counters are remembered as they are and the levels start from 0. *)
Lemma LogStats_opens_window (state : LogState) (w : World) :
  state <> LOG_STOP ->
  0 <= clock_ms w < 2 ^ 63 - 10000 ->
  0 <= num_stat_reports_ (obj w) < 2 ^ 64 - 2 ->
  exists w',
    LogStats state w = Ok tt w' /\
    (rec_callbacks_ (obj w') = rec_callbacks_ (obj w) /\
     last_rec_callbacks_ (obj w') = rec_callbacks_ (obj w) /\
     rec_samples_ (obj w') = rec_samples_ (obj w) /\
     last_rec_samples_ (obj w') = rec_samples_ (obj w) /\
     max_rec_level_ (obj w') = 0 /\
     rec_sample_rate_ (obj w') = rec_sample_rate_ (obj w)) /\
    (play_callbacks_ (obj w') = play_callbacks_ (obj w) /\
     last_play_callbacks_ (obj w') = play_callbacks_ (obj w) /\
     play_samples_ (obj w') = play_samples_ (obj w) /\
     last_play_samples_ (obj w') = play_samples_ (obj w) /\
     max_play_level_ (obj w') = 0 /\
     play_sample_rate_ (obj w') = play_sample_rate_ (obj w)) /\
    1 <= num_stat_reports_ (obj w') < 2 ^ 64 - 1 /\
    last_timer_task_time_ (obj w') = clock_ms w /\
    clock_ms w' = clock_ms w /\
    dcheck_is_on w' = dcheck_is_on w.
Proof.
  intros Hst Hc Hr. destruct state; [|contradiction Hst; reflexivity|].
  - unfold LogStats, RTC_DCHECK, TimeDiff. exec. cbn.
    change kTimerIntervalInMilliseconds with 10000.
    rewrite (to_int64_small (clock_ms w + 10000)) by lia.
    replace (clock_ms w + 10000 - clock_ms w) with 10000 by lia.
    change (to_int64 10000) with 10000. change (to_uint32 10000) with 10000.
    change (to_size_t (0 + 1)) with 1. cbn.
    rewrite andb_false_r.
    eexists. split; [reflexivity|]. cbn. repeat split; reflexivity || lia.
  - unfold LogStats, RTC_DCHECK, TimeDiff. exec. cbn.
    change kTimerIntervalInMilliseconds with 10000.
    rewrite (to_int64_small (clock_ms w + 10000)) by lia.
    rewrite to_size_t_small by lia.
    match goal with
    | |- context [if ?b then _ else _] => destruct b
    end; cbn;
      replace (clock_ms w + 10000 - clock_ms w) with 10000 by lia;
      change (to_int64 10000) with 10000; change (to_uint32 10000) with 10000;
      cbn; rewrite andb_false_r;
      (eexists; split; [reflexivity|]); cbn; repeat split; reflexivity || lia.
Qed.

(** A later tick, made after the clock has moved, logs the two lines. *)
Lemma LogStats_LOG_ACTIVE_lines (w : World) :
  0 <= last_timer_task_time_ (obj w) < clock_ms w ->
  clock_ms w < 2 ^ 63 - 10000 ->
  1 <= num_stat_reports_ (obj w) < 2 ^ 64 - 1 ->
  exists w',
    LogStats LOG_ACTIVE w = Ok tt w' /\
    trace w' =
      EvLog (LogPlayStats (clock_ms w - last_timer_task_time_ (obj w))
               (play_sample_rate_ (obj w) / 1000)
               (to_uint64 (play_callbacks_ (obj w) - last_play_callbacks_ (obj w)))
               (to_uint32 (play_samples_ (obj w) - last_play_samples_ (obj w)))
               (max_play_level_ (obj w)))
      :: EvLog (LogRecStats (clock_ms w - last_timer_task_time_ (obj w))
                  (rec_sample_rate_ (obj w) / 1000)
                  (to_uint64 (rec_callbacks_ (obj w) - last_rec_callbacks_ (obj w)))
                  (to_uint32 (rec_samples_ (obj w) - last_rec_samples_ (obj w)))
                  (max_rec_level_ (obj w)))
      :: trace w.
Proof.
  intros Hl Hc Hr. unfold LogStats, RTC_DCHECK, TimeDiff. exec. cbn.
  change kTimerIntervalInMilliseconds with 10000.
  rewrite (to_int64_small (clock_ms w + 10000)) by lia.
  rewrite (to_int64_small (clock_ms w - _)) by lia.
  rewrite to_size_t_small by lia.
  destruct (Z.gtb_spec (num_stat_reports_ (obj w) + 1) 1); [|lia].
  destruct (Z.gtb_spec (clock_ms w - last_timer_task_time_ (obj w)) 0); [|lia].
  cbn.
  replace (clock_ms w + 10000 - clock_ms w) with 10000 by lia.
  change (to_int64 10000) with 10000. change (to_uint32 10000) with 10000.
  cbn. rewrite andb_false_r.
  eexists. split; reflexivity.
Qed.

(** X11. A report covers its window.  After a tick of the reporter (the
    first one or a later one), when the worker has run a list of recording
    updates and [dt] milliseconds later the next tick comes, the [REC] line
    logged by that tick carries [dt], the number of updates (modulo
    [2 ^ 64]), the sum of their frame counts (modulo [2 ^ 32], whatever the
    counters were before the window) and the largest level among them (0 if
    none is positive); the [PLAY] line carries zeros. *)
Theorem report_covers_its_window
    (state : LogState) (ts : list Task) (dt : Z) (w : World) :
  state <> LOG_STOP ->
  forallb is_rec_update ts = true ->
  0 <= clock_ms w ->
  0 < dt ->
  clock_ms w + dt < 2 ^ 63 - 10000 ->
  0 <= num_stat_reports_ (obj w) < 2 ^ 64 - 2 ->
  exists w1 w',
    LogStats state w = Ok tt w1 /\
    (LogStats state ;; run_tasks ts ;; Sleep dt ;; LogStats LOG_ACTIVE) w
      = Ok tt w' /\
    trace w' =
      EvLog (LogPlayStats dt (play_sample_rate_ (obj w) / 1000) 0 0 0)
      :: EvLog (LogRecStats dt (rec_sample_rate_ (obj w) / 1000)
                  (to_uint64 (Z.of_nat (length ts)))
                  (to_uint32 (samples_posted ts))
                  (max_level 0 (levels_posted ts)))
      :: trace w1.
Proof.
  intros Hst Hts Hc Hdt Hmax Hr.
  destruct (LogStats_opens_window state w Hst ltac:(lia) Hr)
    as (w1 & E1 & (R1 & R2 & R3 & R4 & R5 & R6)
        & (P1 & P2 & P3 & P4 & P5 & P6) & Hn1 & Hl1 & Hk1 & _).
  destruct (run_rec_updates_window ts w1 Hts)
    as (w2 & E2 & Hc2 & Hs2 & Hm2 & (F1 & F2 & F3)
        & (Q1 & Q2 & Q3 & Q4 & Q5 & Q6) & (N1 & N2 & _) & Ht2 & Hk2 & _).
  set (w3 := mkWorld (obj w2) (clock_ms w2 + Z.max 0 dt) (dcheck_is_on w2) (trace w2)).
  destruct (LogStats_LOG_ACTIVE_lines w3) as (w' & E3 & T3).
  { subst w3. cbn. rewrite N2, Hl1, Hk2, Hk1. lia. }
  { subst w3. cbn. rewrite Hk2, Hk1. lia. }
  { subst w3. cbn. rewrite N1. exact Hn1. }
  exists w1, w'. split; [exact E1|]. split.
  - rewrite (bind_Ok _ _ _ _ _ E1), (bind_Ok _ _ _ _ _ E2).
    unfold Sleep. rewrite bind_bind, bind_TimeMillis, bind_set_clock. exact E3.
  - rewrite T3. subst w3. cbn [obj clock_ms trace].
    rewrite N2, Hl1, Hk2, Hk1, Ht2.
    rewrite Q1, Q2, Q3, Q4, Q5, Q6, P1, P2, P3, P4, P5, P6, !Z.sub_diag.
    rewrite F1, F2, F3, R2, R4, R6, Hm2, R5.
    rewrite <- (to_uint64_sub_l (rec_callbacks_ (obj w2))), Hc2, R1, to_uint64_sub_l.
    rewrite <- (to_uint32_sub_l (rec_samples_ (obj w2))), Hs2, R3, to_uint32_sub_l.
    replace (clock_ms w + Z.max 0 dt - clock_ms w) with dt by lia.
    replace (rec_callbacks_ (obj w) + Z.of_nat (length ts) - rec_callbacks_ (obj w))
      with (Z.of_nat (length ts)) by lia.
    replace (rec_samples_ (obj w) + samples_posted ts - rec_samples_ (obj w))
      with (samples_posted ts) by lia.
    reflexivity.
Qed.

Lemma report_covers_its_window_witness :
  exists w1 w',
    LogStats LOG_START (new_world true 0) = Ok tt w1 /\
    (LogStats LOG_START ;;
     run_tasks [TaskUpdateRecStats 0 160; TaskUpdateRecStats 7 160] ;;
     Sleep 10000 ;; LogStats LOG_ACTIVE) (new_world true 0) = Ok tt w' /\
    trace w' =
      EvLog (LogPlayStats 10000 0 0 0 0)
      :: EvLog (LogRecStats 10000 0 2 320 7)
      :: trace w1.
Proof.
  apply (report_covers_its_window LOG_START
           [TaskUpdateRecStats 0 160; TaskUpdateRecStats 7 160] 10000
           (new_world true 0)).
  - discriminate.
  - reflexivity.
  - vm_compute. discriminate.
  - lia.
  - vm_compute. reflexivity.
  - vm_compute. split; [discriminate | reflexivity].
Defined.

Lemma rec_updates_all (calls : list RecCall) : forall k c,
  forallb is_rec_update (rec_updates k c calls) = true /\
  length (rec_updates k c calls) = length calls /\
  samples_posted (rec_updates k c calls) = frames_announced calls.
Proof.
  induction calls as [|call calls IH]; intros k c; [repeat split|].
  destruct (IH (next_count k) c) as (H1 & H2 & H3).
  cbn [rec_updates forallb is_rec_update andb length samples_posted
       frames_announced].
  rewrite H1, H2, H3. repeat split.
Qed.

Lemma max_level_ge (level : Z) (levels : list Z) :
  level <= max_level level levels.
Proof.
  unfold max_level. induction levels as [|a l IH]; cbn [fold_right]; lia.
Qed.

Lemma levels_posted_rec_updates (c level : Z) (calls : list RecCall) : forall k,
  0 <= level ->
  max_level level (levels_posted (rec_updates k c calls)) =
  max_level level
    (map (fun call => WebRtcSpl_MaxAbsValueW16 (delivered c call))
       (sampled k calls)).
Proof.
  induction calls as [|call calls IH]; intros k Hl; [reflexivity|].
  cbn [rec_updates levels_posted sampled]. unfold rec_level, next_count.
  destruct (k + 1 >=? 50).
  - cbn [map]. unfold max_level in *. cbn [fold_right]. rewrite IH by exact Hl.
    reflexivity.
  - unfold max_level in *. cbn [fold_right]. rewrite IH by exact Hl.
    pose proof (max_level_ge level
      (map (fun call => WebRtcSpl_MaxAbsValueW16 (delivered c call))
         (sampled (k + 1) calls))) as G.
    unfold max_level in G. lia.
Qed.

Lemma ProcessReady_unfold (w : World) :
  ProcessReady w =
  run_tasks (ready_tasks w)
    (mkWorld (set_task_queue_ (mkTaskQueue [] (delayed_tasks w)) (obj w))
       (clock_ms w) (dcheck_is_on w) (trace w)).
Proof. reflexivity. Qed.

Lemma statistics_SetRecordedBuffer v data n :
  preserves (statistics_are v) (SetRecordedBuffer data n).
Proof. unfold SetRecordedBuffer. preserve. Qed.

Lemma statistics_RequestPlayoutData v n :
  preserves (statistics_are v) (RequestPlayoutData n).
Proof. unfold RequestPlayoutData. preserve. Qed.

Lemma statistics_run_op v op :
  is_worker op = false -> preserves (statistics_are v) (run_op op).
Proof.
  destruct op; cbn [is_worker run_op]; intros H; try discriminate H;
    try (unfold discard; apply preserves_bind;
         [first [apply statistics_SetRecordedBuffer
                | apply statistics_RequestPlayoutData]
         | intro; apply preserves_ret]).
  all: unfold RegisterAudioCallback, StartPlayout, StartRecording, StopPlayout,
    StopRecording,
    SetRecordingSampleRate, SetPlayoutSampleRate, SetRecordingChannels,
    SetPlayoutChannels, SetRecordingChannel, RecordingChannel, SetCurrentMicLevel,
    SetTypingStatus, SetVQEData, StartInputFileRecording, StopInputFileRecording,
    StartOutputFileRecording, StopOutputFileRecording, DeliverRecordedData,
    GetPlayoutData; preserve.
Qed.

Lemma statistics_SetRecordedBuffer_calls v calls :
  preserves (statistics_are v) (SetRecordedBuffer_calls calls).
Proof.
  induction calls as [|[data n] calls IH]; cbn [SetRecordedBuffer_calls];
    [apply preserves_ret|].
  apply preserves_bind; [apply statistics_SetRecordedBuffer | intros _; exact IH].
Qed.

(** X12. The statistics are confined to the worker.  No member function
    called from the main thread or from the audio threads changes any of the
    twelve members behind the periodic report (callback and sample counters,
    their values at the last report, the largest levels, the number of
    reports and the time of the last one): only the tasks the worker runs
    do. *)
Theorem statistics_confined_to_the_worker (ops : list Op) : forall w w' : World,
  forallb (fun op => negb (is_worker op)) ops = true ->
  run_ops ops w = Ok tt w' ->
  statistics (obj w') = statistics (obj w).
Proof.
  induction ops as [|op ops IH]; intros w w' Hops E.
  - inversion E. reflexivity.
  - cbn [forallb] in Hops. apply andb_prop in Hops as [Hop Hops].
    apply negb_true_iff in Hop.
    cbn [run_ops] in E. unfold bind in E.
    destruct (run_op op w) as [[] w1|] eqn:E1; [|discriminate E].
    rewrite (IH w1 w' Hops E).
    exact (statistics_run_op (statistics (obj w)) op Hop w tt w1 eq_refl E1).
Qed.

Lemma statistics_confined_to_the_worker_witness :
  statistics
    (obj (world_after
            [OpSetRecordingChannels 1; OpStartRecording;
             OpSetRecordedBuffer [x01; x00] 1; OpDeliverRecordedData;
             OpSleep 10001; OpStopRecording]
            (new_world true 0))) =
  statistics (obj (new_world true 0)).
Proof.
  apply (statistics_confined_to_the_worker
           [OpSetRecordingChannels 1; OpStartRecording;
            OpSetRecordedBuffer [x01; x00] 1; OpDeliverRecordedData;
            OpSleep 10001; OpStopRecording]
           (new_world true 0)).
  - reflexivity.
  - vm_compute. reflexivity.
Defined.

(** X13. The recording statistics after a run of deliveries.  Once the
    worker has run the updates posted by any run of well-formed
    [SetRecordedBuffer] calls, [rec_callbacks_] has grown by the number of
    calls and [rec_samples_] by the sum of their frame counts (both modulo
    [2 ^ 64]), and [max_rec_level_] is the largest of its old value and the
    levels measured on the calls where the tick counter reached 50. *)
Theorem recording_statistics_after_worker (calls : list RecCall) (w : World) :
  let c := rec_channels_ (obj w) in
  let k := rec_stat_count_ (obj w) in
  ready_tasks w = [] ->
  0 <= k < 50 ->
  forallb (rec_call_ok c) calls = true ->
  0 <= rec_callbacks_ (obj w) < 2 ^ 64 ->
  0 <= rec_samples_ (obj w) < 2 ^ 64 ->
  0 <= max_rec_level_ (obj w) ->
  exists w',
    (SetRecordedBuffer_calls calls ;; ProcessReady) w = Ok tt w' /\
    rec_callbacks_ (obj w') =
      to_uint64 (rec_callbacks_ (obj w) + Z.of_nat (length calls)) /\
    rec_samples_ (obj w') =
      to_uint64 (rec_samples_ (obj w) + frames_announced calls) /\
    max_rec_level_ (obj w') =
      max_level (max_rec_level_ (obj w))
        (map (fun call => WebRtcSpl_MaxAbsValueW16 (delivered c call))
           (sampled k calls)) /\
    ready_tasks w' = [].
Proof.
  intros c k Hrdy Hk Hok Hcb Hsm Hlv.
  destruct (SetRecordedBuffer_calls_spec calls w Hk Hok)
    as (w1 & new & E1 & Hclk & Hd & Htr & _ & _ & _ & _ & Hq & _).
  fold c k in Hq. rewrite Hrdy in Hq. cbn [app] in Hq.
  destruct (rec_updates_all calls k c) as (A1 & A2 & A3).
  rewrite (bind_Ok _ _ _ _ _ E1), ProcessReady_unfold.
  unfold ready_tasks, delayed_tasks. rewrite Hq. cbn [tq_ready tq_delayed].
  set (w2 := mkWorld _ _ _ _).
  pose proof (statistics_SetRecordedBuffer_calls (statistics (obj w)) calls
                w tt w1 eq_refl E1) as St.
  unfold statistics_are, statistics in St.
  injection St as St1 _ St3 _ St5 _.
  destruct (run_rec_updates (rec_updates k c calls) w2 A1)
    as (w' & E & Hs' & Hc' & _ & Hq' & _).
  { subst w2. cbn. rewrite St3. exact Hsm. }
  { subst w2. cbn. rewrite St1. exact Hcb. }
  destruct (run_rec_updates_window (rec_updates k c calls) w2 A1)
    as (w'' & E' & _ & _ & Hl' & _).
  rewrite E in E'. injection E' as <-.
  exists w'. split; [exact E|].
  rewrite Hs', Hc', Hl', A2, A3. subst w2. cbn [obj] in *.
  cbn in Hq'. unfold ready_tasks. rewrite Hq'.
  cbn. rewrite St1, St3, St5.
  rewrite levels_posted_rec_updates by exact Hlv.
  repeat split; reflexivity.
Qed.

Lemma recording_statistics_after_worker_witness :
  exists w',
    (SetRecordedBuffer_calls (repeat ([x03; x00], 1) 50) ;; ProcessReady)
      mono_world = Ok tt w' /\
    rec_callbacks_ (obj w') = 50 /\
    rec_samples_ (obj w') = 50 /\
    max_rec_level_ (obj w') = 3 /\
    ready_tasks w' = [].
Proof.
  apply (recording_statistics_after_worker (repeat ([x03; x00], 1) 50) mono_world).
  - vm_compute. reflexivity.
  - vm_compute. split; [discriminate | reflexivity].
  - vm_compute. reflexivity.
  - vm_compute. split; [discriminate | reflexivity].
  - vm_compute. split; [discriminate | reflexivity].
  - vm_compute. discriminate.
Defined.

(** ** The worker, and the reporter after a session *)

Lemma thread_members_run_task v t : preserves (thread_members_are v) (run_task t).
Proof.
  destruct t; cbn [run_task];
    [ unfold ResetPlayStats | unfold ResetRecStats | unfold UpdateRecStats
    | unfold UpdatePlayStats | unfold LogStats ]; preserve.
Qed.

Lemma thread_members_run_tasks v ts : preserves (thread_members_are v) (run_tasks ts).
Proof.
  induction ts as [|t ts IH]; cbn [run_tasks]; [apply preserves_ret|].
  apply preserves_bind; [apply thread_members_run_task | intros _; exact IH].
Qed.

Lemma thread_members_ProcessReady v : preserves (thread_members_are v) ProcessReady.
Proof.
  unfold ProcessReady. apply preserves_bind; [apply preserves_gets|intro].
  apply preserves_bind; [apply preserves_modify; intros ? ?; assumption|intro].
  apply thread_members_run_tasks.
Qed.

Lemma thread_members_RunUntil v fuel deadline :
  preserves (thread_members_are v) (RunUntil fuel deadline).
Proof.
  induction fuel as [|fuel IH]; cbn [RunUntil];
    (apply preserves_bind; [apply thread_members_ProcessReady|intro]);
    preserve. exact IH.
Qed.

Lemma thread_members_run_op v op :
  is_worker op = true -> preserves (thread_members_are v) (run_op op).
Proof.
  destruct op; cbn [is_worker run_op]; intros H; try discriminate H.
  - apply thread_members_ProcessReady.
  - unfold discard. apply preserves_bind;
      [apply thread_members_RunUntil | intro; apply preserves_ret].
Qed.

(** X14. The worker works on the statistics only.  Whatever tasks are in
    the queue, running them, at once or over simulated time, changes no
    member but the task queue and the twelve members behind the periodic
    report: the activity flags, the start times, the buffers, the formats,
    the transport, the microphone levels, the delays, the tick counters and
    the silence flag are as they were. *)
Theorem worker_changes_statistics_only (ops : list Op) : forall w w' : World,
  forallb is_worker ops = true ->
  run_ops ops w = Ok tt w' ->
  thread_members (obj w') = thread_members (obj w).
Proof.
  induction ops as [|op ops IH]; intros w w' Hops E.
  - inversion E. reflexivity.
  - cbn [forallb] in Hops. apply andb_prop in Hops as [Hop Hops].
    cbn [run_ops] in E. unfold bind in E.
    destruct (run_op op w) as [[] w1|] eqn:E1; [|discriminate E].
    rewrite (IH w1 w' Hops E).
    exact (thread_members_run_op (thread_members (obj w)) op Hop w tt w1 eq_refl E1).
Qed.

Lemma worker_changes_statistics_only_witness :
  thread_members
    (obj (world_after [OpProcessReady; OpRunUntil 5 25000]
            (world_after [OpSetRecordingChannels 1; OpStartRecording;
                          OpSetRecordedBuffer [x01; x00] 1]
               (new_world true 0)))) =
  thread_members
    (obj (world_after [OpSetRecordingChannels 1; OpStartRecording;
                       OpSetRecordedBuffer [x01; x00] 1]
            (new_world true 0))).
Proof.
  apply (worker_changes_statistics_only [OpProcessReady; OpRunUntil 5 25000]
           (world_after [OpSetRecordingChannels 1; OpStartRecording;
                         OpSetRecordedBuffer [x01; x00] 1]
              (new_world true 0))).
  - reflexivity.
  - vm_compute. reflexivity.
Defined.

Lemma thread_members_fields (o o' : AudioDeviceBuffer) :
  thread_members o' = thread_members o ->
  recording_ o' = recording_ o /\
  playing_ o' = playing_ o /\
  rec_start_time_ o' = rec_start_time_ o /\
  play_start_time_ o' = play_start_time_ o.
Proof.
  intros H.
  repeat split;
    [ change (recording_ (thread_members o') = recording_ (thread_members o))
    | change (playing_ (thread_members o') = playing_ (thread_members o))
    | change (rec_start_time_ (thread_members o') = rec_start_time_ (thread_members o))
    | change (play_start_time_ (thread_members o') = play_start_time_ (thread_members o)) ];
    rewrite H; reflexivity.
Qed.

(** [StartRecording] with both directions idle, then the worker. *)
Lemma StartRecording_then_worker (w : World) :
  recording_ (obj w) = false ->
  playing_ (obj w) = false ->
  ready_tasks w = [] ->
  0 <= clock_ms w < 2 ^ 63 - 10000 ->
  exists w',
    (StartRecording ;; ProcessReady) w = Ok tt w' /\
    recording_ (obj w') = true /\
    playing_ (obj w') = false /\
    rec_start_time_ (obj w') = clock_ms w /\
    ready_tasks w' = [] /\
    delayed_tasks w' =
      insert_delayed (clock_ms w + 10000, TaskLogStats LOG_ACTIVE)
        (delayed_tasks w) /\
    clock_ms w' = clock_ms w /\
    dcheck_is_on w' = dcheck_is_on w /\
    trace w' = EvLog (LogFunction "StartRecording") :: trace w /\
    num_stat_reports_ (obj w') = 1 /\
    last_timer_task_time_ (obj w') = clock_ms w.
Proof.
  intros R P Q Hc.
  destruct (StartRecording_spec w R)
    as (w1 & E1 & _ & R1 & S1 & _ & _ & P1 & _ & C1 & D1 & T1 & Q1).
  rewrite P, Q in Q1. cbn [app] in Q1.
  rewrite (bind_Ok _ _ _ _ _ E1).
  set (w2 := mkWorld
               (set_max_rec_level_ 0
                  (set_last_rec_samples_ 0
                     (set_rec_samples_ 0
                        (set_last_rec_callbacks_ 0
                           (set_rec_callbacks_ 0
                              (set_task_queue_ (mkTaskQueue [] (delayed_tasks w))
                                 (obj w1)))))))
               (clock_ms w1) (dcheck_is_on w1) (trace w1)).
  assert (EP : ProcessReady w1 = (LogStats LOG_START ;; ret tt) w2).
  { rewrite ProcessReady_unfold. unfold ready_tasks, delayed_tasks.
    rewrite Q1. cbn [tq_ready tq_delayed run_tasks run_task].
    unfold ResetRecStats.
    repeat (rewrite ?bind_bind, ?bind_modify). cbn [obj clock_ms dcheck_is_on trace].
    subst w2. reflexivity. }
  destruct (LogStats_LOG_START w2) as (w3 & E3 & T3 & C3 & Dc3 & Q3 & D3 & N3 & L3);
    [subst w2; cbn [clock_ms]; lia|].
  rewrite (bind_Ok _ _ _ _ _ E3) in EP. unfold ret in EP.
  pose proof (thread_members_ProcessReady (thread_members (obj w1)) w1 tt w3
                eq_refl EP) as F.
  destruct (thread_members_fields _ _ F) as (F1 & F2 & F3 & _).
  exists w3. split; [exact EP|].
  rewrite F1, F2, F3, R1, P1, P, S1, Q3, D3, C3, T3, Dc3, N3, L3.
  unfold ready_tasks, delayed_tasks. subst w2.
  cbn [obj clock_ms trace dcheck_is_on]. rewrite C1, T1, D1. repeat split; reflexivity.
Qed.

(** [StopRecording] with playout idle, then the worker. *)
Lemma StopRecording_then_worker (w : World) :
  recording_ (obj w) = true ->
  playing_ (obj w) = false ->
  ready_tasks w = [] ->
  exists w' new,
    (StopRecording ;; ProcessReady) w = Ok tt w' /\
    recording_ (obj w') = false /\
    playing_ (obj w') = false /\
    ready_tasks w' = [] /\
    delayed_tasks w' = delayed_tasks w /\
    clock_ms w' = clock_ms w /\
    dcheck_is_on w' = dcheck_is_on w /\
    trace w' = new ++ trace w /\
    count is_rec_report new = 0 /\
    count is_play_report new = 0 /\
    num_stat_reports_ (obj w') = num_stat_reports_ (obj w) /\
    last_timer_task_time_ (obj w') = last_timer_task_time_ (obj w).
Proof.
  intros R P Q.
  assert (S : exists w1 new,
            StopRecording w = Ok tt w1 /\
            recording_ (obj w1) = false /\
            playing_ (obj w1) = false /\
            task_queue_ (obj w1) =
              mkTaskQueue [TaskLogStats LOG_STOP] (delayed_tasks w) /\
            clock_ms w1 = clock_ms w /\
            dcheck_is_on w1 = dcheck_is_on w /\
            trace w1 = new ++ trace w /\
            count is_rec_report new = 0 /\
            count is_play_report new = 0 /\
            num_stat_reports_ (obj w1) = num_stat_reports_ (obj w) /\
            last_timer_task_time_ (obj w1) = last_timer_task_time_ (obj w)).
  { unfold StopRecording. exec. rewrite R. cbn.
    change kMinValidCallTimeTimeInMilliseconds with 10000.
    rewrite P. unfold ready_tasks in Q. unfold delayed_tasks. cbn.
    destruct (to_size_t (TimeDiff (clock_ms w) (rec_start_time_ (obj w)))
                >? 10000); cbn;
      unfold TaskQueue_PostTask; rewrite Q.
    - eexists _, [_; _; _; _]. split; [reflexivity|]. cbn.
      repeat split; first [reflexivity | assumption].
    - eexists _, [_; _]. split; [reflexivity|]. cbn.
      repeat split; first [reflexivity | assumption]. }
  destruct S as (w1 & new & E1 & R1 & P1 & Q1 & C1 & D1 & T1 & N1 & N2 & S1 & S2).
  rewrite (bind_Ok _ _ _ _ _ E1).
  rewrite (ProcessReady_one (TaskLogStats LOG_STOP))
    by (unfold ready_tasks; rewrite Q1; reflexivity).
  eexists _, new. split; [reflexivity|].
  cbn [obj clock_ms trace]. unfold ready_tasks, delayed_tasks.
  cbn [set_task_queue_ task_queue_ recording_ playing_ tq_ready tq_delayed
       num_stat_reports_ last_timer_task_time_ dcheck_is_on].
  rewrite Q1. cbn [tq_delayed]. repeat split; assumption.
Qed.

Lemma Forall_insert_delayed (P : Z * Task -> Prop) (e : Z * Task)
    (l : list (Z * Task)) :
  P e -> Forall P l -> Forall P (insert_delayed e l).
Proof.
  intros He Hl. induction Hl as [|x l Hx Hl IH]; cbn [insert_delayed].
  - constructor; [exact He | constructor].
  - destruct (fst e <? fst x); repeat constructor; assumption.
Qed.

(** X15. Stopping does not stop the reporter.  A recording session with
    playout idle that is stopped less than 10 seconds after its start, and
    during which no delayed task of before falls due, leaves the timer
    armed by its [LOG_START] in the queue: after [StopRecording] and the
    worker's run of the [LOG_STOP] task, the next [LOG_ACTIVE] tick is still
    there, due 10 seconds after the start, and nothing in the queue is
    overdue. *)
Theorem StopRecording_leaves_the_timer_armed (w : World) (ms : Z) :
  recording_ (obj w) = false ->
  playing_ (obj w) = false ->
  ready_tasks w = [] ->
  Forall (fun e => clock_ms w + ms < fst e) (delayed_tasks w) ->
  0 <= clock_ms w < 2 ^ 63 - 10000 ->
  0 <= ms < 10000 ->
  exists w',
    (StartRecording ;; ProcessReady ;; Sleep ms ;; StopRecording ;; ProcessReady) w
      = Ok tt w' /\
    recording_ (obj w') = false /\
    ready_tasks w' = [] /\
    clock_ms w' = clock_ms w + ms /\
    delayed_tasks w' =
      insert_delayed (clock_ms w + 10000, TaskLogStats LOG_ACTIVE)
        (delayed_tasks w) /\
    Forall (fun e => clock_ms w' < fst e) (delayed_tasks w').
Proof.
  intros R P Q D Hc Hms.
  destruct (StartRecording_then_worker w R P Q Hc)
    as (w1 & E1 & R1 & P1 & _ & Q1 & D1 & C1 & _).
  set (w2 := mkWorld (obj w1) (clock_ms w1 + Z.max 0 ms) (dcheck_is_on w1) (trace w1)).
  destruct (StopRecording_then_worker w2 R1 P1 Q1)
    as (w' & new & E2 & R2 & _ & Q2 & D2 & C2 & _).
  assert (C : clock_ms w' = clock_ms w + ms)
    by (rewrite C2; subst w2; cbn [clock_ms]; rewrite C1; lia).
  assert (Dq : delayed_tasks w' =
               insert_delayed (clock_ms w + 10000, TaskLogStats LOG_ACTIVE)
                 (delayed_tasks w))
    by (rewrite D2; exact D1).
  exists w'. split.
  - unfold bind at 1. unfold bind at 1 in E1.
    destruct (StartRecording w) as [[] w0|]; [|discriminate E1].
    rewrite (bind_Ok _ _ _ _ _ E1). unfold Sleep.
    rewrite bind_bind, bind_TimeMillis, bind_set_clock. exact E2.
  - split; [exact R2|]. split; [exact Q2|]. split; [exact C|].
    split; [exact Dq|].
    rewrite Dq, C. apply Forall_insert_delayed; [cbn [fst]; lia | exact D].
Qed.

Lemma StopRecording_leaves_the_timer_armed_witness :
  exists w',
    (StartRecording ;; ProcessReady ;; Sleep 3000 ;; StopRecording ;; ProcessReady)
      (new_world true 0) = Ok tt w' /\
    recording_ (obj w') = false /\
    ready_tasks w' = [] /\
    clock_ms w' = clock_ms (new_world true 0) + 3000 /\
    delayed_tasks w' =
      insert_delayed (clock_ms (new_world true 0) + 10000, TaskLogStats LOG_ACTIVE)
        (delayed_tasks (new_world true 0)) /\
    Forall (fun e => clock_ms w' < fst e) (delayed_tasks w').
Proof.
  apply (StopRecording_leaves_the_timer_armed (new_world true 0) 3000).
  - reflexivity.
  - reflexivity.
  - reflexivity.
  - constructor.
  - vm_compute. split; [discriminate | reflexivity].
  - lia.
Defined.

(** X16. The reports go on after the session.  From an idle object with an
    empty queue, a recording session stopped before the first tick is
    followed by a pair of [REC] and [PLAY] lines 10 seconds after
    [StartRecording] and every 10 seconds from then on, with both directions
    idle. *)
Theorem reports_go_on_after_StopRecording
    (w : World) (ms deadline : Z) (fuel : nat) :
  recording_ (obj w) = false ->
  playing_ (obj w) = false ->
  ready_tasks w = [] ->
  delayed_tasks w = [] ->
  0 <= clock_ms w ->
  0 <= ms < 10000 ->
  clock_ms w + 10000 <= deadline ->
  deadline < 2 ^ 63 - 10000 ->
  (deadline - clock_ms w) / 10000 <= Z.of_nat fuel ->
  exists w',
    (StartRecording ;; ProcessReady ;; Sleep ms ;; StopRecording ;; ProcessReady ;;
     RunUntil fuel deadline) w = Ok true w' /\
    recording_ (obj w') = false /\
    playing_ (obj w') = false /\
    count is_rec_report (trace w') =
      count is_rec_report (trace w) + (deadline - clock_ms w) / 10000 /\
    count is_play_report (trace w') =
      count is_play_report (trace w) + (deadline - clock_ms w) / 10000.
Proof.
  intros R P Q D Hc Hms Hdl Hmax Hfuel.
  destruct (StartRecording_then_worker w R P Q ltac:(lia))
    as (w1 & E1 & R1 & P1 & _ & Q1 & D1 & C1 & Dc1 & T1 & N1 & L1).
  rewrite D in D1. cbn [insert_delayed] in D1.
  set (w2 := mkWorld (obj w1) (clock_ms w1 + Z.max 0 ms) (dcheck_is_on w1) (trace w1)).
  destruct (StopRecording_then_worker w2 R1 P1 Q1)
    as (w3 & new & E3 & R3 & P3 & Q3 & D3 & C3 & Dc3 & T3 & Nr & Np & N3 & L3).
  subst w2. cbn [obj clock_ms trace dcheck_is_on] in *.
  unfold delayed_tasks in D3 at 2. cbn [obj] in D3. fold (delayed_tasks w1) in D3.
  rewrite D1 in D3.
  assert (Hq : (deadline - clock_ms w) / 10000 =
               1 + (deadline - (clock_ms w + 10000)) / 10000).
  { replace (deadline - clock_ms w)
      with (deadline - (clock_ms w + 10000) + 1 * 10000) by lia.
    rewrite Z.div_add by lia. lia. }
  pose proof (Z.div_pos (deadline - (clock_ms w + 10000)) 10000
                ltac:(lia) ltac:(lia)) as Hq0.
  assert (Hq1 : (deadline - (clock_ms w + 10000)) / 10000 < 2 ^ 63)
    by (apply Z.div_lt_upper_bound; lia).
  destruct fuel as [|fuel]; [lia|].
  set (w4 := mkWorld
               (set_task_queue_ (mkTaskQueue [TaskLogStats LOG_ACTIVE] []) (obj w3))
               (clock_ms w + 10000) (dcheck_is_on w3) (trace w3)).
  destruct (RunUntil_from_tick fuel w4 deadline)
    as (w' & E & Cr & Cp & _ & _ & _ & _).
  { reflexivity. }
  { reflexivity. }
  { subst w4. cbn [obj clock_ms last_timer_task_time_ set_task_queue_].
    rewrite L3, L1. lia. }
  { subst w4. cbn [clock_ms]. lia. }
  { exact Hmax. }
  { subst w4. cbn [obj num_stat_reports_ set_task_queue_]. rewrite N3, N1. lia. }
  { subst w4. cbn [obj clock_ms num_stat_reports_ set_task_queue_].
    rewrite N3, N1. lia. }
  { subst w4. cbn [clock_ms]. lia. }
  pose proof (thread_members_RunUntil (thread_members (obj w4)) fuel deadline
                w4 true w' eq_refl E) as F.
  destruct (thread_members_fields _ _ F) as (F1 & F2 & _).
  exists w'. split.
  - unfold bind at 1. unfold bind at 1 in E1.
    destruct (StartRecording w) as [[] w0|]; [|discriminate E1].
    rewrite (bind_Ok _ _ _ _ _ E1). unfold Sleep.
    rewrite bind_bind, bind_TimeMillis, bind_set_clock.
    unfold bind at 1. unfold bind at 1 in E3.
    destruct (StopRecording _) as [[] w0'|]; [|discriminate E3].
    rewrite (bind_Ok _ _ _ _ _ E3).
    assert (EP3 : ProcessReady w3 =
              Ok tt (mkWorld
                       (set_task_queue_ (mkTaskQueue [] (delayed_tasks w3)) (obj w3))
                       (clock_ms w3) (dcheck_is_on w3) (trace w3)))
      by (rewrite ProcessReady_unfold, Q3; reflexivity).
    rewrite RunUntil_unfold, (bind_Ok _ _ _ _ _ EP3), bind_TimeMillis, bind_gets.
    cbn [obj clock_ms task_queue_ set_task_queue_ tq_delayed]. rewrite D3.
    destruct (Z.leb_spec (clock_ms w + 10000) deadline) as [_|]; [|lia].
    rewrite bind_set_clock, bind_modify.
    cbn [obj clock_ms dcheck_is_on trace].
    rewrite C3, C1, Z.max_r by lia.
    replace (set_task_queue_ _ (set_task_queue_ _ (obj w3)))
      with (set_task_queue_ (mkTaskQueue [TaskLogStats LOG_ACTIVE] []) (obj w3))
      by reflexivity.
    exact E.
  - rewrite F1, F2, Cr, Cp. subst w4.
    cbn [obj clock_ms trace recording_ playing_ set_task_queue_].
    rewrite R3, P3, T3, T1, !count_app, !count_cons, Nr, Np.
    cbn [is_rec_report is_play_report]. repeat split; lia.
Qed.

Lemma reports_go_on_after_StopRecording_witness :
  exists w',
    (StartRecording ;; ProcessReady ;; Sleep 3000 ;; StopRecording ;; ProcessReady ;;
     RunUntil 3 30000) (new_world true 0) = Ok true w' /\
    recording_ (obj w') = false /\
    playing_ (obj w') = false /\
    count is_rec_report (trace w') =
      count is_rec_report (trace (new_world true 0)) + (30000 - 0) / 10000 /\
    count is_play_report (trace w') =
      count is_play_report (trace (new_world true 0)) + (30000 - 0) / 10000.
Proof.
  apply (reports_go_on_after_StopRecording (new_world true 0) 3000 30000 3).
  - reflexivity.
  - reflexivity.
  - reflexivity.
  - reflexivity.
  - vm_compute. discriminate.
  - lia.
  - vm_compute. discriminate.
  - vm_compute. reflexivity.
  - vm_compute. discriminate.
Defined.

(** ** The total time of a session *)

Lemma StopRecording_total_time (w : World) :
  recording_ (obj w) = true ->
  exists w' tl,
    StopRecording w = Ok tt w' /\
    trace w' =
      EvLog (LogTotalRecordingTime
               (to_size_t (TimeDiff (clock_ms w) (rec_start_time_ (obj w)))))
      :: tl.
Proof.
  intros R. unfold StopRecording. exec. rewrite R. cbn.
  destruct (playing_ (obj w)); cbn;
    match goal with |- context [if ?b then _ else _] => destruct b end; cbn;
    eexists _, _; split; reflexivity.
Qed.

Lemma StartPlayout_start_time (w : World) :
  playing_ (obj w) = false ->
  exists w',
    StartPlayout w = Ok tt w' /\
    playing_ (obj w') = true /\
    play_start_time_ (obj w') = to_int64 (to_uint64 (clock_ms w)) /\
    clock_ms w' = clock_ms w.
Proof.
  intros P. unfold StartPlayout. exec. rewrite P. cbn -[to_int64 to_uint64].
  destruct (recording_ (obj w)); cbn -[to_int64 to_uint64];
    eexists; repeat split; reflexivity.
Qed.

Lemma StopPlayout_total_time (w : World) :
  playing_ (obj w) = true ->
  exists w' tl,
    StopPlayout w = Ok tt w' /\
    trace w' =
      EvLog (LogTotalPlayoutTime (TimeDiff (clock_ms w) (play_start_time_ (obj w))))
      :: tl.
Proof.
  intros P. unfold StopPlayout. exec. rewrite P. cbn -[TimeDiff].
  destruct (recording_ (obj w)); cbn -[TimeDiff]; eexists _, _; split; reflexivity.
Qed.

(** X17. The total time logged at the end of a session is its length.  A
    session started at a clock value in [0, 2 ^ 63) and stopped [ms]
    milliseconds later ends with the line "total recording time: ms", and a
    playout session with "total playout time: ms". *)
Theorem total_time_logged_is_the_session_length (w : World) (ms : Z) :
  0 <= clock_ms w ->
  0 <= ms ->
  clock_ms w + ms < 2 ^ 63 ->
  (recording_ (obj w) = false ->
   exists w' tl,
     (StartRecording ;; Sleep ms ;; StopRecording) w = Ok tt w' /\
     trace w' = EvLog (LogTotalRecordingTime ms) :: tl) /\
  (playing_ (obj w) = false ->
   exists w' tl,
     (StartPlayout ;; Sleep ms ;; StopPlayout) w = Ok tt w' /\
     trace w' = EvLog (LogTotalPlayoutTime ms) :: tl).
Proof.
  intros Hc Hms Hmax. split.
  - intros R.
    destruct (StartRecording_spec w R)
      as (w1 & E1 & _ & R1 & S1 & _ & _ & _ & _ & C1 & _).
    set (w2 := mkWorld (obj w1) (clock_ms w1 + Z.max 0 ms) (dcheck_is_on w1) (trace w1)).
    destruct (StopRecording_total_time w2 R1) as (w' & tl & E & T).
    exists w', tl. split.
    + rewrite (bind_Ok _ _ _ _ _ E1). unfold Sleep.
      rewrite bind_bind, bind_TimeMillis, bind_set_clock. exact E.
    + rewrite T. subst w2. cbn [obj clock_ms]. rewrite S1, C1. unfold TimeDiff.
      replace (clock_ms w + Z.max 0 ms - clock_ms w) with ms by lia.
      rewrite to_int64_small, to_size_t_small by lia. reflexivity.
  - intros P.
    destruct (StartPlayout_start_time w P) as (w1 & E1 & P1 & S1 & C1).
    set (w2 := mkWorld (obj w1) (clock_ms w1 + Z.max 0 ms) (dcheck_is_on w1) (trace w1)).
    destruct (StopPlayout_total_time w2 P1) as (w' & tl & E & T).
    exists w', tl. split.
    + rewrite (bind_Ok _ _ _ _ _ E1). unfold Sleep.
      rewrite bind_bind, bind_TimeMillis, bind_set_clock. exact E.
    + rewrite T. subst w2. cbn [obj clock_ms]. rewrite S1, C1. unfold TimeDiff.
      rewrite to_uint64_small, (to_int64_small (clock_ms w)) by lia.
      replace (clock_ms w + Z.max 0 ms - clock_ms w) with ms by lia.
      rewrite to_int64_small by lia. reflexivity.
Qed.

Lemma total_time_logged_is_the_session_length_witness :
  (exists w' tl,
     (StartRecording ;; Sleep 2500 ;; StopRecording) (new_world true 5) = Ok tt w' /\
     trace w' = EvLog (LogTotalRecordingTime 2500) :: tl) /\
  (exists w' tl,
     (StartPlayout ;; Sleep 2500 ;; StopPlayout) (new_world true 5) = Ok tt w' /\
     trace w' = EvLog (LogTotalPlayoutTime 2500) :: tl).
Proof.
  destruct (total_time_logged_is_the_session_length (new_world true 5) 2500)
    as [Hrec Hplay].
  - vm_compute. discriminate.
  - lia.
  - vm_compute. reflexivity.
  - split; [apply Hrec | apply Hplay]; reflexivity.
Defined.
